(** * Broker-definition validator (scripts/validate-broker-toml.py)

    A shallow embedding of the validator that gates broker definition
    files, and the properties its specification states about it.

    The script is dynamically typed: every field of a parsed TOML document
    may hold a value of any TOML type, and Python operators either work on
    it, or raise.  The embedding therefore carries the whole TOML value
    universe and an error monad for the exceptions that escape.

    The last part embeds the architecture splitter
    (scripts/split-architecture.py) as the sequence of its effects. *)

From Stdlib Require Import String Ascii List ZArith Bool.
From Stdlib Require Import DecimalString Sorting.Sorted Sorting.Permutation.
From Stdlib Require Import Lia.
Import ListNotations.
Set Warnings "-register-all".
Open Scope string_scope.
Open Scope list_scope.

(** ** Python values *)

Module Py.

(** Exceptions that can escape the scripts.  Only the class matters:
    nothing in the scripts catches them.  [UnicodeDecodeError] is what
    decoding bytes that are not UTF-8 raises; it is a [ValueError], but not
    the [TOMLDecodeError] that the loader catches. *)
Inductive exn : Type :=
| TypeError
| AttributeError
| KeyError
| OSError
| UnicodeDecodeError
| ValueError.

Inductive result (A : Type) : Type :=
| Ok (a : A)
| Raise (e : exn).
Arguments Ok {A} a.
Arguments Raise {A} e.

Definition bind {A B : Type} (r : result A) (k : A -> result B) : result B :=
  match r with
  | Ok a => k a
  | Raise e => Raise e
  end.

Definition fmap {A B : Type} (f : A -> B) (r : result A) : result B :=
  bind r (fun a => Ok (f a)).

End Py.
Import Py.

Notation "x <- c1 ;; c2" := (Py.bind c1 (fun x => c2))
  (at level 61, c1 at next level, right associativity).

(** ** The Unicode character database

    A Python [str] is a sequence of code points.  The embedding keeps it as
    the byte string of its UTF-8 encoding, the encoding of TOML documents;
    the methods that consult the Unicode character database ([isalnum],
    [lower], [repr], the [\d] of [re] and [int]) decode it first.  The
    tables are those of Unicode 14.0.0, the database of Python 3.11, the
    first version with [tomllib]; they list the code points from 128 on,
    in ranges. *)

Module Unicode.

Local Open Scope N_scope.

Fixpoint in_ranges (cp : N) (ranges : list (N * N)) : bool :=
  match ranges with
  | [] => false
  | (first, last) :: rest =>
      ((first <=? cp) && (cp <=? last)) || in_ranges cp rest
  end.

(** *** UTF-8 *)

(** The code points of a text: [need] bytes of the code point [acc] are
    still to come. *)
Fixpoint decode_from (need : nat) (acc : N) (s : string) : list N :=
  match s with
  | EmptyString => []
  | String c rest =>
      let b := N_of_ascii c in
      match need with
      | O =>
          if b <? 128 then b :: decode_from 0 0 rest
          else if b <? 224 then decode_from 1 (b - 192) rest
          else if b <? 240 then decode_from 2 (b - 224) rest
          else decode_from 3 (b - 240) rest
      | S O => (acc * 64 + b mod 64) :: decode_from 0 0 rest
      | S need' => decode_from need' (acc * 64 + b mod 64) rest
      end
  end.

Definition decode (s : string) : list N := decode_from 0 0 s.

Definition byte (n : N) : string := String (ascii_of_N n) EmptyString.

Definition encode_one (cp : N) : string :=
  if cp <? 128 then byte cp
  else if cp <? 2048
       then (byte (192 + cp / 64) ++ byte (128 + cp mod 64))%string
  else if cp <? 65536
       then (byte (224 + cp / 4096) ++ byte (128 + (cp / 64) mod 64)
             ++ byte (128 + cp mod 64))%string
  else (byte (240 + cp / 262144) ++ byte (128 + (cp / 4096) mod 64)
        ++ byte (128 + (cp / 64) mod 64) ++ byte (128 + cp mod 64))%string.

Fixpoint encode (cps : list N) : string :=
  match cps with
  | [] => EmptyString
  | cp :: rest => (encode_one cp ++ encode rest)%string
  end.

(** *** The tables *)

(** The code points for which [isalnum] holds: letters, and characters
    with a decimal, digit or numeric value. *)
Definition alnum_beyond : list (N * N) :=
  [(170, 170); (178, 179); (181, 181); (185, 186); (188, 190); (192, 214);
   (216, 246); (248, 705); (710, 721); (736, 740); (748, 748); (750, 750);
   (880, 884); (886, 887); (890, 893); (895, 895); (902, 902); (904, 906);
   (908, 908); (910, 929); (931, 1013); (1015, 1153); (1162, 1327);
   (1329, 1366); (1369, 1369); (1376, 1416); (1488, 1514); (1519, 1522);
   (1568, 1610); (1632, 1641); (1646, 1647); (1649, 1747); (1749, 1749);
   (1765, 1766); (1774, 1788); (1791, 1791); (1808, 1808); (1810, 1839);
   (1869, 1957); (1969, 1969); (1984, 2026); (2036, 2037); (2042, 2042);
   (2048, 2069); (2074, 2074); (2084, 2084); (2088, 2088); (2112, 2136);
   (2144, 2154); (2160, 2183); (2185, 2190); (2208, 2249); (2308, 2361);
   (2365, 2365); (2384, 2384); (2392, 2401); (2406, 2415); (2417, 2432);
   (2437, 2444); (2447, 2448); (2451, 2472); (2474, 2480); (2482, 2482);
   (2486, 2489); (2493, 2493); (2510, 2510); (2524, 2525); (2527, 2529);
   (2534, 2545); (2548, 2553); (2556, 2556); (2565, 2570); (2575, 2576);
   (2579, 2600); (2602, 2608); (2610, 2611); (2613, 2614); (2616, 2617);
   (2649, 2652); (2654, 2654); (2662, 2671); (2674, 2676); (2693, 2701);
   (2703, 2705); (2707, 2728); (2730, 2736); (2738, 2739); (2741, 2745);
   (2749, 2749); (2768, 2768); (2784, 2785); (2790, 2799); (2809, 2809);
   (2821, 2828); (2831, 2832); (2835, 2856); (2858, 2864); (2866, 2867);
   (2869, 2873); (2877, 2877); (2908, 2909); (2911, 2913); (2918, 2927);
   (2929, 2935); (2947, 2947); (2949, 2954); (2958, 2960); (2962, 2965);
   (2969, 2970); (2972, 2972); (2974, 2975); (2979, 2980); (2984, 2986);
   (2990, 3001); (3024, 3024); (3046, 3058); (3077, 3084); (3086, 3088);
   (3090, 3112); (3114, 3129); (3133, 3133); (3160, 3162); (3165, 3165);
   (3168, 3169); (3174, 3183); (3192, 3198); (3200, 3200); (3205, 3212);
   (3214, 3216); (3218, 3240); (3242, 3251); (3253, 3257); (3261, 3261);
   (3293, 3294); (3296, 3297); (3302, 3311); (3313, 3314); (3332, 3340);
   (3342, 3344); (3346, 3386); (3389, 3389); (3406, 3406); (3412, 3414);
   (3416, 3425); (3430, 3448); (3450, 3455); (3461, 3478); (3482, 3505);
   (3507, 3515); (3517, 3517); (3520, 3526); (3558, 3567); (3585, 3632);
   (3634, 3635); (3648, 3654); (3664, 3673); (3713, 3714); (3716, 3716);
   (3718, 3722); (3724, 3747); (3749, 3749); (3751, 3760); (3762, 3763);
   (3773, 3773); (3776, 3780); (3782, 3782); (3792, 3801); (3804, 3807);
   (3840, 3840); (3872, 3891); (3904, 3911); (3913, 3948); (3976, 3980);
   (4096, 4138); (4159, 4169); (4176, 4181); (4186, 4189); (4193, 4193);
   (4197, 4198); (4206, 4208); (4213, 4225); (4238, 4238); (4240, 4249);
   (4256, 4293); (4295, 4295); (4301, 4301); (4304, 4346); (4348, 4680);
   (4682, 4685); (4688, 4694); (4696, 4696); (4698, 4701); (4704, 4744);
   (4746, 4749); (4752, 4784); (4786, 4789); (4792, 4798); (4800, 4800);
   (4802, 4805); (4808, 4822); (4824, 4880); (4882, 4885); (4888, 4954);
   (4969, 4988); (4992, 5007); (5024, 5109); (5112, 5117); (5121, 5740);
   (5743, 5759); (5761, 5786); (5792, 5866); (5870, 5880); (5888, 5905);
   (5919, 5937); (5952, 5969); (5984, 5996); (5998, 6000); (6016, 6067);
   (6103, 6103); (6108, 6108); (6112, 6121); (6128, 6137); (6160, 6169);
   (6176, 6264); (6272, 6276); (6279, 6312); (6314, 6314); (6320, 6389);
   (6400, 6430); (6470, 6509); (6512, 6516); (6528, 6571); (6576, 6601);
   (6608, 6618); (6656, 6678); (6688, 6740); (6784, 6793); (6800, 6809);
   (6823, 6823); (6917, 6963); (6981, 6988); (6992, 7001); (7043, 7072);
   (7086, 7141); (7168, 7203); (7232, 7241); (7245, 7293); (7296, 7304);
   (7312, 7354); (7357, 7359); (7401, 7404); (7406, 7411); (7413, 7414);
   (7418, 7418); (7424, 7615); (7680, 7957); (7960, 7965); (7968, 8005);
   (8008, 8013); (8016, 8023); (8025, 8025); (8027, 8027); (8029, 8029);
   (8031, 8061); (8064, 8116); (8118, 8124); (8126, 8126); (8130, 8132);
   (8134, 8140); (8144, 8147); (8150, 8155); (8160, 8172); (8178, 8180);
   (8182, 8188); (8304, 8305); (8308, 8313); (8319, 8329); (8336, 8348);
   (8450, 8450); (8455, 8455); (8458, 8467); (8469, 8469); (8473, 8477);
   (8484, 8484); (8486, 8486); (8488, 8488); (8490, 8493); (8495, 8505);
   (8508, 8511); (8517, 8521); (8526, 8526); (8528, 8585); (9312, 9371);
   (9450, 9471); (10102, 10131); (11264, 11492); (11499, 11502);
   (11506, 11507); (11517, 11517); (11520, 11557); (11559, 11559);
   (11565, 11565); (11568, 11623); (11631, 11631); (11648, 11670);
   (11680, 11686); (11688, 11694); (11696, 11702); (11704, 11710);
   (11712, 11718); (11720, 11726); (11728, 11734); (11736, 11742);
   (11823, 11823); (12293, 12295); (12321, 12329); (12337, 12341);
   (12344, 12348); (12353, 12438); (12445, 12447); (12449, 12538);
   (12540, 12543); (12549, 12591); (12593, 12686); (12690, 12693);
   (12704, 12735); (12784, 12799); (12832, 12841); (12872, 12879);
   (12881, 12895); (12928, 12937); (12977, 12991); (13312, 19903);
   (19968, 42124); (42192, 42237); (42240, 42508); (42512, 42539);
   (42560, 42606); (42623, 42653); (42656, 42735); (42775, 42783);
   (42786, 42888); (42891, 42954); (42960, 42961); (42963, 42963);
   (42965, 42969); (42994, 43009); (43011, 43013); (43015, 43018);
   (43020, 43042); (43056, 43061); (43072, 43123); (43138, 43187);
   (43216, 43225); (43250, 43255); (43259, 43259); (43261, 43262);
   (43264, 43301); (43312, 43334); (43360, 43388); (43396, 43442);
   (43471, 43481); (43488, 43492); (43494, 43518); (43520, 43560);
   (43584, 43586); (43588, 43595); (43600, 43609); (43616, 43638);
   (43642, 43642); (43646, 43695); (43697, 43697); (43701, 43702);
   (43705, 43709); (43712, 43712); (43714, 43714); (43739, 43741);
   (43744, 43754); (43762, 43764); (43777, 43782); (43785, 43790);
   (43793, 43798); (43808, 43814); (43816, 43822); (43824, 43866);
   (43868, 43881); (43888, 44002); (44016, 44025); (44032, 55203);
   (55216, 55238); (55243, 55291); (63744, 64109); (64112, 64217);
   (64256, 64262); (64275, 64279); (64285, 64285); (64287, 64296);
   (64298, 64310); (64312, 64316); (64318, 64318); (64320, 64321);
   (64323, 64324); (64326, 64433); (64467, 64829); (64848, 64911);
   (64914, 64967); (65008, 65019); (65136, 65140); (65142, 65276);
   (65296, 65305); (65313, 65338); (65345, 65370); (65382, 65470);
   (65474, 65479); (65482, 65487); (65490, 65495); (65498, 65500);
   (65536, 65547); (65549, 65574); (65576, 65594); (65596, 65597);
   (65599, 65613); (65616, 65629); (65664, 65786); (65799, 65843);
   (65856, 65912); (65930, 65931); (66176, 66204); (66208, 66256);
   (66273, 66299); (66304, 66339); (66349, 66378); (66384, 66421);
   (66432, 66461); (66464, 66499); (66504, 66511); (66513, 66517);
   (66560, 66717); (66720, 66729); (66736, 66771); (66776, 66811);
   (66816, 66855); (66864, 66915); (66928, 66938); (66940, 66954);
   (66956, 66962); (66964, 66965); (66967, 66977); (66979, 66993);
   (66995, 67001); (67003, 67004); (67072, 67382); (67392, 67413);
   (67424, 67431); (67456, 67461); (67463, 67504); (67506, 67514);
   (67584, 67589); (67592, 67592); (67594, 67637); (67639, 67640);
   (67644, 67644); (67647, 67669); (67672, 67702); (67705, 67742);
   (67751, 67759); (67808, 67826); (67828, 67829); (67835, 67867);
   (67872, 67897); (67968, 68023); (68028, 68047); (68050, 68096);
   (68112, 68115); (68117, 68119); (68121, 68149); (68160, 68168);
   (68192, 68222); (68224, 68255); (68288, 68295); (68297, 68324);
   (68331, 68335); (68352, 68405); (68416, 68437); (68440, 68466);
   (68472, 68497); (68521, 68527); (68608, 68680); (68736, 68786);
   (68800, 68850); (68858, 68899); (68912, 68921); (69216, 69246);
   (69248, 69289); (69296, 69297); (69376, 69415); (69424, 69445);
   (69457, 69460); (69488, 69505); (69552, 69579); (69600, 69622);
   (69635, 69687); (69714, 69743); (69745, 69746); (69749, 69749);
   (69763, 69807); (69840, 69864); (69872, 69881); (69891, 69926);
   (69942, 69951); (69956, 69956); (69959, 69959); (69968, 70002);
   (70006, 70006); (70019, 70066); (70081, 70084); (70096, 70106);
   (70108, 70108); (70113, 70132); (70144, 70161); (70163, 70187);
   (70272, 70278); (70280, 70280); (70282, 70285); (70287, 70301);
   (70303, 70312); (70320, 70366); (70384, 70393); (70405, 70412);
   (70415, 70416); (70419, 70440); (70442, 70448); (70450, 70451);
   (70453, 70457); (70461, 70461); (70480, 70480); (70493, 70497);
   (70656, 70708); (70727, 70730); (70736, 70745); (70751, 70753);
   (70784, 70831); (70852, 70853); (70855, 70855); (70864, 70873);
   (71040, 71086); (71128, 71131); (71168, 71215); (71236, 71236);
   (71248, 71257); (71296, 71338); (71352, 71352); (71360, 71369);
   (71424, 71450); (71472, 71483); (71488, 71494); (71680, 71723);
   (71840, 71922); (71935, 71942); (71945, 71945); (71948, 71955);
   (71957, 71958); (71960, 71983); (71999, 71999); (72001, 72001);
   (72016, 72025); (72096, 72103); (72106, 72144); (72161, 72161);
   (72163, 72163); (72192, 72192); (72203, 72242); (72250, 72250);
   (72272, 72272); (72284, 72329); (72349, 72349); (72368, 72440);
   (72704, 72712); (72714, 72750); (72768, 72768); (72784, 72812);
   (72818, 72847); (72960, 72966); (72968, 72969); (72971, 73008);
   (73030, 73030); (73040, 73049); (73056, 73061); (73063, 73064);
   (73066, 73097); (73112, 73112); (73120, 73129); (73440, 73458);
   (73648, 73648); (73664, 73684); (73728, 74649); (74752, 74862);
   (74880, 75075); (77712, 77808); (77824, 78894); (82944, 83526);
   (92160, 92728); (92736, 92766); (92768, 92777); (92784, 92862);
   (92864, 92873); (92880, 92909); (92928, 92975); (92992, 92995);
   (93008, 93017); (93019, 93025); (93027, 93047); (93053, 93071);
   (93760, 93846); (93952, 94026); (94032, 94032); (94099, 94111);
   (94176, 94177); (94179, 94179); (94208, 100343); (100352, 101589);
   (101632, 101640); (110576, 110579); (110581, 110587); (110589, 110590);
   (110592, 110882); (110928, 110930); (110948, 110951); (110960, 111355);
   (113664, 113770); (113776, 113788); (113792, 113800); (113808, 113817);
   (119520, 119539); (119648, 119672); (119808, 119892); (119894, 119964);
   (119966, 119967); (119970, 119970); (119973, 119974); (119977, 119980);
   (119982, 119993); (119995, 119995); (119997, 120003); (120005, 120069);
   (120071, 120074); (120077, 120084); (120086, 120092); (120094, 120121);
   (120123, 120126); (120128, 120132); (120134, 120134); (120138, 120144);
   (120146, 120485); (120488, 120512); (120514, 120538); (120540, 120570);
   (120572, 120596); (120598, 120628); (120630, 120654); (120656, 120686);
   (120688, 120712); (120714, 120744); (120746, 120770); (120772, 120779);
   (120782, 120831); (122624, 122654); (123136, 123180); (123191, 123197);
   (123200, 123209); (123214, 123214); (123536, 123565); (123584, 123627);
   (123632, 123641); (124896, 124902); (124904, 124907); (124909, 124910);
   (124912, 124926); (124928, 125124); (125127, 125135); (125184, 125251);
   (125259, 125259); (125264, 125273); (126065, 126123); (126125, 126127);
   (126129, 126132); (126209, 126253); (126255, 126269); (126464, 126467);
   (126469, 126495); (126497, 126498); (126500, 126500); (126503, 126503);
   (126505, 126514); (126516, 126519); (126521, 126521); (126523, 126523);
   (126530, 126530); (126535, 126535); (126537, 126537); (126539, 126539);
   (126541, 126543); (126545, 126546); (126548, 126548); (126551, 126551);
   (126553, 126553); (126555, 126555); (126557, 126557); (126559, 126559);
   (126561, 126562); (126564, 126564); (126567, 126570); (126572, 126578);
   (126580, 126583); (126585, 126588); (126590, 126590); (126592, 126601);
   (126603, 126619); (126625, 126627); (126629, 126633); (126635, 126651);
   (127232, 127244); (130032, 130041); (131072, 173791); (173824, 177976);
   (177984, 178205); (178208, 183969); (183984, 191456); (194560, 195101);
   (196608, 201546)].

(** The decimal digits (category Nd), which [\d] matches and [int] reads:
    they come in runs of ten, from zero to nine. *)
Definition decimal_beyond : list (N * N) :=
  [(1632, 1641); (1776, 1785); (1984, 1993); (2406, 2415); (2534, 2543);
   (2662, 2671); (2790, 2799); (2918, 2927); (3046, 3055); (3174, 3183);
   (3302, 3311); (3430, 3439); (3558, 3567); (3664, 3673); (3792, 3801);
   (3872, 3881); (4160, 4169); (4240, 4249); (6112, 6121); (6160, 6169);
   (6470, 6479); (6608, 6617); (6784, 6793); (6800, 6809); (6992, 7001);
   (7088, 7097); (7232, 7241); (7248, 7257); (42528, 42537); (43216, 43225);
   (43264, 43273); (43472, 43481); (43504, 43513); (43600, 43609);
   (44016, 44025); (65296, 65305); (66720, 66729); (68912, 68921);
   (69734, 69743); (69872, 69881); (69942, 69951); (70096, 70105);
   (70384, 70393); (70736, 70745); (70864, 70873); (71248, 71257);
   (71360, 71369); (71472, 71481); (71904, 71913); (72016, 72025);
   (72784, 72793); (73040, 73049); (73120, 73129); (92768, 92777);
   (92864, 92873); (93008, 93017); (120782, 120831); (123200, 123209);
   (123632, 123641); (125264, 125273); (130032, 130041)].

(** The code points that [isprintable] refuses, which [repr] escapes. *)
Definition not_printable_beyond : list (N * N) :=
  [(128, 160); (173, 173); (888, 889); (896, 899); (907, 907); (909, 909);
   (930, 930); (1328, 1328); (1367, 1368); (1419, 1420); (1424, 1424);
   (1480, 1487); (1515, 1518); (1525, 1541); (1564, 1564); (1757, 1757);
   (1806, 1807); (1867, 1868); (1970, 1983); (2043, 2044); (2094, 2095);
   (2111, 2111); (2140, 2141); (2143, 2143); (2155, 2159); (2191, 2199);
   (2274, 2274); (2436, 2436); (2445, 2446); (2449, 2450); (2473, 2473);
   (2481, 2481); (2483, 2485); (2490, 2491); (2501, 2502); (2505, 2506);
   (2511, 2518); (2520, 2523); (2526, 2526); (2532, 2533); (2559, 2560);
   (2564, 2564); (2571, 2574); (2577, 2578); (2601, 2601); (2609, 2609);
   (2612, 2612); (2615, 2615); (2618, 2619); (2621, 2621); (2627, 2630);
   (2633, 2634); (2638, 2640); (2642, 2648); (2653, 2653); (2655, 2661);
   (2679, 2688); (2692, 2692); (2702, 2702); (2706, 2706); (2729, 2729);
   (2737, 2737); (2740, 2740); (2746, 2747); (2758, 2758); (2762, 2762);
   (2766, 2767); (2769, 2783); (2788, 2789); (2802, 2808); (2816, 2816);
   (2820, 2820); (2829, 2830); (2833, 2834); (2857, 2857); (2865, 2865);
   (2868, 2868); (2874, 2875); (2885, 2886); (2889, 2890); (2894, 2900);
   (2904, 2907); (2910, 2910); (2916, 2917); (2936, 2945); (2948, 2948);
   (2955, 2957); (2961, 2961); (2966, 2968); (2971, 2971); (2973, 2973);
   (2976, 2978); (2981, 2983); (2987, 2989); (3002, 3005); (3011, 3013);
   (3017, 3017); (3022, 3023); (3025, 3030); (3032, 3045); (3067, 3071);
   (3085, 3085); (3089, 3089); (3113, 3113); (3130, 3131); (3141, 3141);
   (3145, 3145); (3150, 3156); (3159, 3159); (3163, 3164); (3166, 3167);
   (3172, 3173); (3184, 3190); (3213, 3213); (3217, 3217); (3241, 3241);
   (3252, 3252); (3258, 3259); (3269, 3269); (3273, 3273); (3278, 3284);
   (3287, 3292); (3295, 3295); (3300, 3301); (3312, 3312); (3315, 3327);
   (3341, 3341); (3345, 3345); (3397, 3397); (3401, 3401); (3408, 3411);
   (3428, 3429); (3456, 3456); (3460, 3460); (3479, 3481); (3506, 3506);
   (3516, 3516); (3518, 3519); (3527, 3529); (3531, 3534); (3541, 3541);
   (3543, 3543); (3552, 3557); (3568, 3569); (3573, 3584); (3643, 3646);
   (3676, 3712); (3715, 3715); (3717, 3717); (3723, 3723); (3748, 3748);
   (3750, 3750); (3774, 3775); (3781, 3781); (3783, 3783); (3790, 3791);
   (3802, 3803); (3808, 3839); (3912, 3912); (3949, 3952); (3992, 3992);
   (4029, 4029); (4045, 4045); (4059, 4095); (4294, 4294); (4296, 4300);
   (4302, 4303); (4681, 4681); (4686, 4687); (4695, 4695); (4697, 4697);
   (4702, 4703); (4745, 4745); (4750, 4751); (4785, 4785); (4790, 4791);
   (4799, 4799); (4801, 4801); (4806, 4807); (4823, 4823); (4881, 4881);
   (4886, 4887); (4955, 4956); (4989, 4991); (5018, 5023); (5110, 5111);
   (5118, 5119); (5760, 5760); (5789, 5791); (5881, 5887); (5910, 5918);
   (5943, 5951); (5972, 5983); (5997, 5997); (6001, 6001); (6004, 6015);
   (6110, 6111); (6122, 6127); (6138, 6143); (6158, 6158); (6170, 6175);
   (6265, 6271); (6315, 6319); (6390, 6399); (6431, 6431); (6444, 6447);
   (6460, 6463); (6465, 6467); (6510, 6511); (6517, 6527); (6572, 6575);
   (6602, 6607); (6619, 6621); (6684, 6685); (6751, 6751); (6781, 6782);
   (6794, 6799); (6810, 6815); (6830, 6831); (6863, 6911); (6989, 6991);
   (7039, 7039); (7156, 7163); (7224, 7226); (7242, 7244); (7305, 7311);
   (7355, 7356); (7368, 7375); (7419, 7423); (7958, 7959); (7966, 7967);
   (8006, 8007); (8014, 8015); (8024, 8024); (8026, 8026); (8028, 8028);
   (8030, 8030); (8062, 8063); (8117, 8117); (8133, 8133); (8148, 8149);
   (8156, 8156); (8176, 8177); (8181, 8181); (8191, 8207); (8232, 8239);
   (8287, 8303); (8306, 8307); (8335, 8335); (8349, 8351); (8385, 8399);
   (8433, 8447); (8588, 8591); (9255, 9279); (9291, 9311); (11124, 11125);
   (11158, 11158); (11508, 11512); (11558, 11558); (11560, 11564);
   (11566, 11567); (11624, 11630); (11633, 11646); (11671, 11679);
   (11687, 11687); (11695, 11695); (11703, 11703); (11711, 11711);
   (11719, 11719); (11727, 11727); (11735, 11735); (11743, 11743);
   (11870, 11903); (11930, 11930); (12020, 12031); (12246, 12271);
   (12284, 12288); (12352, 12352); (12439, 12440); (12544, 12548);
   (12592, 12592); (12687, 12687); (12772, 12783); (12831, 12831);
   (42125, 42127); (42183, 42191); (42540, 42559); (42744, 42751);
   (42955, 42959); (42962, 42962); (42964, 42964); (42970, 42993);
   (43053, 43055); (43066, 43071); (43128, 43135); (43206, 43213);
   (43226, 43231); (43348, 43358); (43389, 43391); (43470, 43470);
   (43482, 43485); (43519, 43519); (43575, 43583); (43598, 43599);
   (43610, 43611); (43715, 43738); (43767, 43776); (43783, 43784);
   (43791, 43792); (43799, 43807); (43815, 43815); (43823, 43823);
   (43884, 43887); (44014, 44015); (44026, 44031); (55204, 55215);
   (55239, 55242); (55292, 63743); (64110, 64111); (64218, 64255);
   (64263, 64274); (64280, 64284); (64311, 64311); (64317, 64317);
   (64319, 64319); (64322, 64322); (64325, 64325); (64451, 64466);
   (64912, 64913); (64968, 64974); (64976, 65007); (65050, 65055);
   (65107, 65107); (65127, 65127); (65132, 65135); (65141, 65141);
   (65277, 65280); (65471, 65473); (65480, 65481); (65488, 65489);
   (65496, 65497); (65501, 65503); (65511, 65511); (65519, 65531);
   (65534, 65535); (65548, 65548); (65575, 65575); (65595, 65595);
   (65598, 65598); (65614, 65615); (65630, 65663); (65787, 65791);
   (65795, 65798); (65844, 65846); (65935, 65935); (65949, 65951);
   (65953, 65999); (66046, 66175); (66205, 66207); (66257, 66271);
   (66300, 66303); (66340, 66348); (66379, 66383); (66427, 66431);
   (66462, 66462); (66500, 66503); (66518, 66559); (66718, 66719);
   (66730, 66735); (66772, 66775); (66812, 66815); (66856, 66863);
   (66916, 66926); (66939, 66939); (66955, 66955); (66963, 66963);
   (66966, 66966); (66978, 66978); (66994, 66994); (67002, 67002);
   (67005, 67071); (67383, 67391); (67414, 67423); (67432, 67455);
   (67462, 67462); (67505, 67505); (67515, 67583); (67590, 67591);
   (67593, 67593); (67638, 67638); (67641, 67643); (67645, 67646);
   (67670, 67670); (67743, 67750); (67760, 67807); (67827, 67827);
   (67830, 67834); (67868, 67870); (67898, 67902); (67904, 67967);
   (68024, 68027); (68048, 68049); (68100, 68100); (68103, 68107);
   (68116, 68116); (68120, 68120); (68150, 68151); (68155, 68158);
   (68169, 68175); (68185, 68191); (68256, 68287); (68327, 68330);
   (68343, 68351); (68406, 68408); (68438, 68439); (68467, 68471);
   (68498, 68504); (68509, 68520); (68528, 68607); (68681, 68735);
   (68787, 68799); (68851, 68857); (68904, 68911); (68922, 69215);
   (69247, 69247); (69290, 69290); (69294, 69295); (69298, 69375);
   (69416, 69423); (69466, 69487); (69514, 69551); (69580, 69599);
   (69623, 69631); (69710, 69713); (69750, 69758); (69821, 69821);
   (69827, 69839); (69865, 69871); (69882, 69887); (69941, 69941);
   (69960, 69967); (70007, 70015); (70112, 70112); (70133, 70143);
   (70162, 70162); (70207, 70271); (70279, 70279); (70281, 70281);
   (70286, 70286); (70302, 70302); (70314, 70319); (70379, 70383);
   (70394, 70399); (70404, 70404); (70413, 70414); (70417, 70418);
   (70441, 70441); (70449, 70449); (70452, 70452); (70458, 70458);
   (70469, 70470); (70473, 70474); (70478, 70479); (70481, 70486);
   (70488, 70492); (70500, 70501); (70509, 70511); (70517, 70655);
   (70748, 70748); (70754, 70783); (70856, 70863); (70874, 71039);
   (71094, 71095); (71134, 71167); (71237, 71247); (71258, 71263);
   (71277, 71295); (71354, 71359); (71370, 71423); (71451, 71452);
   (71468, 71471); (71495, 71679); (71740, 71839); (71923, 71934);
   (71943, 71944); (71946, 71947); (71956, 71956); (71959, 71959);
   (71990, 71990); (71993, 71994); (72007, 72015); (72026, 72095);
   (72104, 72105); (72152, 72153); (72165, 72191); (72264, 72271);
   (72355, 72367); (72441, 72703); (72713, 72713); (72759, 72759);
   (72774, 72783); (72813, 72815); (72848, 72849); (72872, 72872);
   (72887, 72959); (72967, 72967); (72970, 72970); (73015, 73017);
   (73019, 73019); (73022, 73022); (73032, 73039); (73050, 73055);
   (73062, 73062); (73065, 73065); (73103, 73103); (73106, 73106);
   (73113, 73119); (73130, 73439); (73465, 73647); (73649, 73663);
   (73714, 73726); (74650, 74751); (74863, 74863); (74869, 74879);
   (75076, 77711); (77811, 77823); (78895, 82943); (83527, 92159);
   (92729, 92735); (92767, 92767); (92778, 92781); (92863, 92863);
   (92874, 92879); (92910, 92911); (92918, 92927); (92998, 93007);
   (93018, 93018); (93026, 93026); (93048, 93052); (93072, 93759);
   (93851, 93951); (94027, 94030); (94088, 94094); (94112, 94175);
   (94181, 94191); (94194, 94207); (100344, 100351); (101590, 101631);
   (101641, 110575); (110580, 110580); (110588, 110588); (110591, 110591);
   (110883, 110927); (110931, 110947); (110952, 110959); (111356, 113663);
   (113771, 113775); (113789, 113791); (113801, 113807); (113818, 113819);
   (113824, 118527); (118574, 118575); (118599, 118607); (118724, 118783);
   (119030, 119039); (119079, 119080); (119155, 119162); (119275, 119295);
   (119366, 119519); (119540, 119551); (119639, 119647); (119673, 119807);
   (119893, 119893); (119965, 119965); (119968, 119969); (119971, 119972);
   (119975, 119976); (119981, 119981); (119994, 119994); (119996, 119996);
   (120004, 120004); (120070, 120070); (120075, 120076); (120085, 120085);
   (120093, 120093); (120122, 120122); (120127, 120127); (120133, 120133);
   (120135, 120137); (120145, 120145); (120486, 120487); (120780, 120781);
   (121484, 121498); (121504, 121504); (121520, 122623); (122655, 122879);
   (122887, 122887); (122905, 122906); (122914, 122914); (122917, 122917);
   (122923, 123135); (123181, 123183); (123198, 123199); (123210, 123213);
   (123216, 123535); (123567, 123583); (123642, 123646); (123648, 124895);
   (124903, 124903); (124908, 124908); (124911, 124911); (124927, 124927);
   (125125, 125126); (125143, 125183); (125260, 125263); (125274, 125277);
   (125280, 126064); (126133, 126208); (126270, 126463); (126468, 126468);
   (126496, 126496); (126499, 126499); (126501, 126502); (126504, 126504);
   (126515, 126515); (126520, 126520); (126522, 126522); (126524, 126529);
   (126531, 126534); (126536, 126536); (126538, 126538); (126540, 126540);
   (126544, 126544); (126547, 126547); (126549, 126550); (126552, 126552);
   (126554, 126554); (126556, 126556); (126558, 126558); (126560, 126560);
   (126563, 126563); (126565, 126566); (126571, 126571); (126579, 126579);
   (126584, 126584); (126589, 126589); (126591, 126591); (126602, 126602);
   (126620, 126624); (126628, 126628); (126634, 126634); (126652, 126703);
   (126706, 126975); (127020, 127023); (127124, 127135); (127151, 127152);
   (127168, 127168); (127184, 127184); (127222, 127231); (127406, 127461);
   (127491, 127503); (127548, 127551); (127561, 127567); (127570, 127583);
   (127590, 127743); (128728, 128732); (128749, 128751); (128765, 128767);
   (128884, 128895); (128985, 128991); (129004, 129007); (129009, 129023);
   (129036, 129039); (129096, 129103); (129114, 129119); (129160, 129167);
   (129198, 129199); (129202, 129279); (129620, 129631); (129646, 129647);
   (129653, 129655); (129661, 129663); (129671, 129679); (129709, 129711);
   (129723, 129727); (129734, 129743); (129754, 129759); (129768, 129775);
   (129783, 129791); (129939, 129939); (129995, 130031); (130042, 131071);
   (173792, 173823); (177977, 177983); (178206, 178207); (183970, 183983);
   (191457, 194559); (195102, 196607); (201547, 917759); (918000, 1114111)].

(** The code points that [lower] changes, as (first, last, step, shift):
    every [step]-th code point from [first] to [last] is moved by
    [shift].  U+0130 and U+03A3 are treated apart. *)
Definition lower_beyond : list (N * N * N * Z) :=
  [(192, 214, 1, 32%Z); (216, 222, 1, 32%Z); (256, 302, 2, 1%Z);
   (306, 310, 2, 1%Z); (313, 327, 2, 1%Z); (330, 374, 2, 1%Z);
   (376, 376, 1, (-121)%Z); (377, 381, 2, 1%Z); (385, 385, 1, 210%Z);
   (386, 388, 2, 1%Z); (390, 390, 1, 206%Z); (391, 391, 1, 1%Z);
   (393, 394, 1, 205%Z); (395, 395, 1, 1%Z); (398, 398, 1, 79%Z);
   (399, 399, 1, 202%Z); (400, 400, 1, 203%Z); (401, 401, 1, 1%Z);
   (403, 403, 1, 205%Z); (404, 404, 1, 207%Z); (406, 406, 1, 211%Z);
   (407, 407, 1, 209%Z); (408, 408, 1, 1%Z); (412, 412, 1, 211%Z);
   (413, 413, 1, 213%Z); (415, 415, 1, 214%Z); (416, 420, 2, 1%Z);
   (422, 422, 1, 218%Z); (423, 423, 1, 1%Z); (425, 425, 1, 218%Z);
   (428, 428, 1, 1%Z); (430, 430, 1, 218%Z); (431, 431, 1, 1%Z);
   (433, 434, 1, 217%Z); (435, 437, 2, 1%Z); (439, 439, 1, 219%Z);
   (440, 440, 1, 1%Z); (444, 444, 1, 1%Z); (452, 452, 1, 2%Z);
   (453, 453, 1, 1%Z); (455, 455, 1, 2%Z); (456, 456, 1, 1%Z);
   (458, 458, 1, 2%Z); (459, 475, 2, 1%Z); (478, 494, 2, 1%Z);
   (497, 497, 1, 2%Z); (498, 500, 2, 1%Z); (502, 502, 1, (-97)%Z);
   (503, 503, 1, (-56)%Z); (504, 542, 2, 1%Z); (544, 544, 1, (-130)%Z);
   (546, 562, 2, 1%Z); (570, 570, 1, 10795%Z); (571, 571, 1, 1%Z);
   (573, 573, 1, (-163)%Z); (574, 574, 1, 10792%Z); (577, 577, 1, 1%Z);
   (579, 579, 1, (-195)%Z); (580, 580, 1, 69%Z); (581, 581, 1, 71%Z);
   (582, 590, 2, 1%Z); (880, 882, 2, 1%Z); (886, 886, 1, 1%Z);
   (895, 895, 1, 116%Z); (902, 902, 1, 38%Z); (904, 906, 1, 37%Z);
   (908, 908, 1, 64%Z); (910, 911, 1, 63%Z); (913, 929, 1, 32%Z);
   (932, 939, 1, 32%Z); (975, 975, 1, 8%Z); (984, 1006, 2, 1%Z);
   (1012, 1012, 1, (-60)%Z); (1015, 1015, 1, 1%Z); (1017, 1017, 1, (-7)%Z);
   (1018, 1018, 1, 1%Z); (1021, 1023, 1, (-130)%Z); (1024, 1039, 1, 80%Z);
   (1040, 1071, 1, 32%Z); (1120, 1152, 2, 1%Z); (1162, 1214, 2, 1%Z);
   (1216, 1216, 1, 15%Z); (1217, 1229, 2, 1%Z); (1232, 1326, 2, 1%Z);
   (1329, 1366, 1, 48%Z); (4256, 4293, 1, 7264%Z); (4295, 4295, 1, 7264%Z);
   (4301, 4301, 1, 7264%Z); (5024, 5103, 1, 38864%Z); (5104, 5109, 1, 8%Z);
   (7312, 7354, 1, (-3008)%Z); (7357, 7359, 1, (-3008)%Z);
   (7680, 7828, 2, 1%Z); (7838, 7838, 1, (-7615)%Z); (7840, 7934, 2, 1%Z);
   (7944, 7951, 1, (-8)%Z); (7960, 7965, 1, (-8)%Z); (7976, 7983, 1, (-8)%Z);
   (7992, 7999, 1, (-8)%Z); (8008, 8013, 1, (-8)%Z); (8025, 8031, 2, (-8)%Z);
   (8040, 8047, 1, (-8)%Z); (8072, 8079, 1, (-8)%Z); (8088, 8095, 1, (-8)%Z);
   (8104, 8111, 1, (-8)%Z); (8120, 8121, 1, (-8)%Z);
   (8122, 8123, 1, (-74)%Z); (8124, 8124, 1, (-9)%Z);
   (8136, 8139, 1, (-86)%Z); (8140, 8140, 1, (-9)%Z);
   (8152, 8153, 1, (-8)%Z); (8154, 8155, 1, (-100)%Z);
   (8168, 8169, 1, (-8)%Z); (8170, 8171, 1, (-112)%Z);
   (8172, 8172, 1, (-7)%Z); (8184, 8185, 1, (-128)%Z);
   (8186, 8187, 1, (-126)%Z); (8188, 8188, 1, (-9)%Z);
   (8486, 8486, 1, (-7517)%Z); (8490, 8490, 1, (-8383)%Z);
   (8491, 8491, 1, (-8262)%Z); (8498, 8498, 1, 28%Z); (8544, 8559, 1, 16%Z);
   (8579, 8579, 1, 1%Z); (9398, 9423, 1, 26%Z); (11264, 11311, 1, 48%Z);
   (11360, 11360, 1, 1%Z); (11362, 11362, 1, (-10743)%Z);
   (11363, 11363, 1, (-3814)%Z); (11364, 11364, 1, (-10727)%Z);
   (11367, 11371, 2, 1%Z); (11373, 11373, 1, (-10780)%Z);
   (11374, 11374, 1, (-10749)%Z); (11375, 11375, 1, (-10783)%Z);
   (11376, 11376, 1, (-10782)%Z); (11378, 11378, 1, 1%Z);
   (11381, 11381, 1, 1%Z); (11390, 11391, 1, (-10815)%Z);
   (11392, 11490, 2, 1%Z); (11499, 11501, 2, 1%Z); (11506, 11506, 1, 1%Z);
   (42560, 42604, 2, 1%Z); (42624, 42650, 2, 1%Z); (42786, 42798, 2, 1%Z);
   (42802, 42862, 2, 1%Z); (42873, 42875, 2, 1%Z);
   (42877, 42877, 1, (-35332)%Z); (42878, 42886, 2, 1%Z);
   (42891, 42891, 1, 1%Z); (42893, 42893, 1, (-42280)%Z);
   (42896, 42898, 2, 1%Z); (42902, 42920, 2, 1%Z);
   (42922, 42922, 1, (-42308)%Z); (42923, 42923, 1, (-42319)%Z);
   (42924, 42924, 1, (-42315)%Z); (42925, 42925, 1, (-42305)%Z);
   (42926, 42926, 1, (-42308)%Z); (42928, 42928, 1, (-42258)%Z);
   (42929, 42929, 1, (-42282)%Z); (42930, 42930, 1, (-42261)%Z);
   (42931, 42931, 1, 928%Z); (42932, 42946, 2, 1%Z);
   (42948, 42948, 1, (-48)%Z); (42949, 42949, 1, (-42307)%Z);
   (42950, 42950, 1, (-35384)%Z); (42951, 42953, 2, 1%Z);
   (42960, 42960, 1, 1%Z); (42966, 42968, 2, 1%Z); (42997, 42997, 1, 1%Z);
   (65313, 65338, 1, 32%Z); (66560, 66599, 1, 40%Z); (66736, 66771, 1, 40%Z);
   (66928, 66938, 1, 39%Z); (66940, 66954, 1, 39%Z); (66956, 66962, 1, 39%Z);
   (66964, 66965, 1, 39%Z); (68736, 68786, 1, 64%Z); (71840, 71871, 1, 32%Z);
   (93760, 93791, 1, 32%Z); (125184, 125217, 1, 34%Z)].

(** The properties Case_Ignorable and Cased (of the code points that are
    not case-ignorable), which decide the lower case of a capital sigma. *)
Definition case_ignorable : list (N * N) :=
  [(39, 39); (46, 46); (58, 58); (94, 94); (96, 96); (168, 168); (173, 173);
   (175, 175); (180, 180); (183, 184); (688, 879); (884, 885); (890, 890);
   (900, 901); (903, 903); (1155, 1161); (1369, 1369); (1375, 1375);
   (1425, 1469); (1471, 1471); (1473, 1474); (1476, 1477); (1479, 1479);
   (1524, 1524); (1536, 1541); (1552, 1562); (1564, 1564); (1600, 1600);
   (1611, 1631); (1648, 1648); (1750, 1757); (1759, 1768); (1770, 1773);
   (1807, 1807); (1809, 1809); (1840, 1866); (1958, 1968); (2027, 2037);
   (2042, 2042); (2045, 2045); (2070, 2093); (2137, 2139); (2184, 2184);
   (2192, 2193); (2200, 2207); (2249, 2306); (2362, 2362); (2364, 2364);
   (2369, 2376); (2381, 2381); (2385, 2391); (2402, 2403); (2417, 2417);
   (2433, 2433); (2492, 2492); (2497, 2500); (2509, 2509); (2530, 2531);
   (2558, 2558); (2561, 2562); (2620, 2620); (2625, 2626); (2631, 2632);
   (2635, 2637); (2641, 2641); (2672, 2673); (2677, 2677); (2689, 2690);
   (2748, 2748); (2753, 2757); (2759, 2760); (2765, 2765); (2786, 2787);
   (2810, 2815); (2817, 2817); (2876, 2876); (2879, 2879); (2881, 2884);
   (2893, 2893); (2901, 2902); (2914, 2915); (2946, 2946); (3008, 3008);
   (3021, 3021); (3072, 3072); (3076, 3076); (3132, 3132); (3134, 3136);
   (3142, 3144); (3146, 3149); (3157, 3158); (3170, 3171); (3201, 3201);
   (3260, 3260); (3263, 3263); (3270, 3270); (3276, 3277); (3298, 3299);
   (3328, 3329); (3387, 3388); (3393, 3396); (3405, 3405); (3426, 3427);
   (3457, 3457); (3530, 3530); (3538, 3540); (3542, 3542); (3633, 3633);
   (3636, 3642); (3654, 3662); (3761, 3761); (3764, 3772); (3782, 3782);
   (3784, 3789); (3864, 3865); (3893, 3893); (3895, 3895); (3897, 3897);
   (3953, 3966); (3968, 3972); (3974, 3975); (3981, 3991); (3993, 4028);
   (4038, 4038); (4141, 4144); (4146, 4151); (4153, 4154); (4157, 4158);
   (4184, 4185); (4190, 4192); (4209, 4212); (4226, 4226); (4229, 4230);
   (4237, 4237); (4253, 4253); (4348, 4348); (4957, 4959); (5906, 5908);
   (5938, 5939); (5970, 5971); (6002, 6003); (6068, 6069); (6071, 6077);
   (6086, 6086); (6089, 6099); (6103, 6103); (6109, 6109); (6155, 6159);
   (6211, 6211); (6277, 6278); (6313, 6313); (6432, 6434); (6439, 6440);
   (6450, 6450); (6457, 6459); (6679, 6680); (6683, 6683); (6742, 6742);
   (6744, 6750); (6752, 6752); (6754, 6754); (6757, 6764); (6771, 6780);
   (6783, 6783); (6823, 6823); (6832, 6862); (6912, 6915); (6964, 6964);
   (6966, 6970); (6972, 6972); (6978, 6978); (7019, 7027); (7040, 7041);
   (7074, 7077); (7080, 7081); (7083, 7085); (7142, 7142); (7144, 7145);
   (7149, 7149); (7151, 7153); (7212, 7219); (7222, 7223); (7288, 7293);
   (7376, 7378); (7380, 7392); (7394, 7400); (7405, 7405); (7412, 7412);
   (7416, 7417); (7468, 7530); (7544, 7544); (7579, 7679); (8125, 8125);
   (8127, 8129); (8141, 8143); (8157, 8159); (8173, 8175); (8189, 8190);
   (8203, 8207); (8216, 8217); (8228, 8228); (8231, 8231); (8234, 8238);
   (8288, 8292); (8294, 8303); (8305, 8305); (8319, 8319); (8336, 8348);
   (8400, 8432); (11388, 11389); (11503, 11505); (11631, 11631);
   (11647, 11647); (11744, 11775); (11823, 11823); (12293, 12293);
   (12330, 12333); (12337, 12341); (12347, 12347); (12441, 12446);
   (12540, 12542); (40981, 40981); (42232, 42237); (42508, 42508);
   (42607, 42610); (42612, 42621); (42623, 42623); (42652, 42655);
   (42736, 42737); (42752, 42785); (42864, 42864); (42888, 42890);
   (42994, 42996); (43000, 43001); (43010, 43010); (43014, 43014);
   (43019, 43019); (43045, 43046); (43052, 43052); (43204, 43205);
   (43232, 43249); (43263, 43263); (43302, 43309); (43335, 43345);
   (43392, 43394); (43443, 43443); (43446, 43449); (43452, 43453);
   (43471, 43471); (43493, 43494); (43561, 43566); (43569, 43570);
   (43573, 43574); (43587, 43587); (43596, 43596); (43632, 43632);
   (43644, 43644); (43696, 43696); (43698, 43700); (43703, 43704);
   (43710, 43711); (43713, 43713); (43741, 43741); (43756, 43757);
   (43763, 43764); (43766, 43766); (43867, 43871); (43881, 43883);
   (44005, 44005); (44008, 44008); (44013, 44013); (64286, 64286);
   (64434, 64450); (65024, 65039); (65043, 65043); (65056, 65071);
   (65106, 65106); (65109, 65109); (65279, 65279); (65287, 65287);
   (65294, 65294); (65306, 65306); (65342, 65342); (65344, 65344);
   (65392, 65392); (65438, 65439); (65507, 65507); (65529, 65531);
   (66045, 66045); (66272, 66272); (66422, 66426); (67456, 67461);
   (67463, 67504); (67506, 67514); (68097, 68099); (68101, 68102);
   (68108, 68111); (68152, 68154); (68159, 68159); (68325, 68326);
   (68900, 68903); (69291, 69292); (69446, 69456); (69506, 69509);
   (69633, 69633); (69688, 69702); (69744, 69744); (69747, 69748);
   (69759, 69761); (69811, 69814); (69817, 69818); (69821, 69821);
   (69826, 69826); (69837, 69837); (69888, 69890); (69927, 69931);
   (69933, 69940); (70003, 70003); (70016, 70017); (70070, 70078);
   (70089, 70092); (70095, 70095); (70191, 70193); (70196, 70196);
   (70198, 70199); (70206, 70206); (70367, 70367); (70371, 70378);
   (70400, 70401); (70459, 70460); (70464, 70464); (70502, 70508);
   (70512, 70516); (70712, 70719); (70722, 70724); (70726, 70726);
   (70750, 70750); (70835, 70840); (70842, 70842); (70847, 70848);
   (70850, 70851); (71090, 71093); (71100, 71101); (71103, 71104);
   (71132, 71133); (71219, 71226); (71229, 71229); (71231, 71232);
   (71339, 71339); (71341, 71341); (71344, 71349); (71351, 71351);
   (71453, 71455); (71458, 71461); (71463, 71467); (71727, 71735);
   (71737, 71738); (71995, 71996); (71998, 71998); (72003, 72003);
   (72148, 72151); (72154, 72155); (72160, 72160); (72193, 72202);
   (72243, 72248); (72251, 72254); (72263, 72263); (72273, 72278);
   (72281, 72283); (72330, 72342); (72344, 72345); (72752, 72758);
   (72760, 72765); (72767, 72767); (72850, 72871); (72874, 72880);
   (72882, 72883); (72885, 72886); (73009, 73014); (73018, 73018);
   (73020, 73021); (73023, 73029); (73031, 73031); (73104, 73105);
   (73109, 73109); (73111, 73111); (73459, 73460); (78896, 78904);
   (92912, 92916); (92976, 92982); (92992, 92995); (94031, 94031);
   (94095, 94111); (94176, 94177); (94179, 94180); (110576, 110579);
   (110581, 110587); (110589, 110590); (113821, 113822); (113824, 113827);
   (118528, 118573); (118576, 118598); (119143, 119145); (119155, 119170);
   (119173, 119179); (119210, 119213); (119362, 119364); (121344, 121398);
   (121403, 121452); (121461, 121461); (121476, 121476); (121499, 121503);
   (121505, 121519); (122880, 122886); (122888, 122904); (122907, 122913);
   (122915, 122916); (122918, 122922); (123184, 123197); (123566, 123566);
   (123628, 123631); (125136, 125142); (125252, 125259); (127995, 127999);
   (917505, 917505); (917536, 917631); (917760, 917999)].

Definition cased_letters : list (N * N) :=
  [(65, 90); (97, 122); (170, 170); (181, 181); (186, 186); (192, 214);
   (216, 246); (248, 442); (444, 447); (452, 659); (661, 687); (880, 883);
   (886, 887); (891, 893); (895, 895); (902, 902); (904, 906); (908, 908);
   (910, 929); (931, 1013); (1015, 1153); (1162, 1327); (1329, 1366);
   (1376, 1416); (4256, 4293); (4295, 4295); (4301, 4301); (4304, 4346);
   (4349, 4351); (5024, 5109); (5112, 5117); (7296, 7304); (7312, 7354);
   (7357, 7359); (7424, 7467); (7531, 7543); (7545, 7578); (7680, 7957);
   (7960, 7965); (7968, 8005); (8008, 8013); (8016, 8023); (8025, 8025);
   (8027, 8027); (8029, 8029); (8031, 8061); (8064, 8116); (8118, 8124);
   (8126, 8126); (8130, 8132); (8134, 8140); (8144, 8147); (8150, 8155);
   (8160, 8172); (8178, 8180); (8182, 8188); (8450, 8450); (8455, 8455);
   (8458, 8467); (8469, 8469); (8473, 8477); (8484, 8484); (8486, 8486);
   (8488, 8488); (8490, 8493); (8495, 8500); (8505, 8505); (8508, 8511);
   (8517, 8521); (8526, 8526); (8544, 8575); (8579, 8580); (9398, 9449);
   (11264, 11387); (11390, 11492); (11499, 11502); (11506, 11507);
   (11520, 11557); (11559, 11559); (11565, 11565); (42560, 42605);
   (42624, 42651); (42786, 42863); (42865, 42887); (42891, 42894);
   (42896, 42954); (42960, 42961); (42963, 42963); (42965, 42969);
   (42997, 42998); (43002, 43002); (43824, 43866); (43872, 43880);
   (43888, 43967); (64256, 64262); (64275, 64279); (65313, 65338);
   (65345, 65370); (66560, 66639); (66736, 66771); (66776, 66811);
   (66928, 66938); (66940, 66954); (66956, 66962); (66964, 66965);
   (66967, 66977); (66979, 66993); (66995, 67001); (67003, 67004);
   (68736, 68786); (68800, 68850); (71840, 71903); (93760, 93823);
   (119808, 119892); (119894, 119964); (119966, 119967); (119970, 119970);
   (119973, 119974); (119977, 119980); (119982, 119993); (119995, 119995);
   (119997, 120003); (120005, 120069); (120071, 120074); (120077, 120084);
   (120086, 120092); (120094, 120121); (120123, 120126); (120128, 120132);
   (120134, 120134); (120138, 120144); (120146, 120485); (120488, 120512);
   (120514, 120538); (120540, 120570); (120572, 120596); (120598, 120628);
   (120630, 120654); (120656, 120686); (120688, 120712); (120714, 120744);
   (120746, 120770); (120772, 120779); (122624, 122633); (122635, 122654);
   (125184, 125251); (127280, 127305); (127312, 127337); (127344, 127369)].

(** *** The methods on code points *)

Definition alnum (cp : N) : bool :=
  if cp <? 128
  then ((48 <=? cp) && (cp <=? 57)) || ((65 <=? cp) && (cp <=? 90))
       || ((97 <=? cp) && (cp <=? 122))
  else in_ranges cp alnum_beyond.

Fixpoint digit_in (cp : N) (ranges : list (N * N)) : option N :=
  match ranges with
  | [] => None
  | (first, last) :: rest =>
      if (first <=? cp) && (cp <=? last) then Some ((cp - first) mod 10)
      else digit_in cp rest
  end.

(** The value of a decimal digit. *)
Definition digit (cp : N) : option N :=
  if cp <? 128
  then if (48 <=? cp) && (cp <=? 57) then Some (cp - 48) else None
  else digit_in cp decimal_beyond.

Definition printable (cp : N) : bool :=
  if cp <? 128 then (32 <=? cp) && (cp <? 127)
  else negb (in_ranges cp not_printable_beyond).

Fixpoint shifted (cp : N) (table : list (N * N * N * Z)) : N :=
  match table with
  | [] => cp
  | (first, last, step, shift) :: rest =>
      if (first <=? cp) && (cp <=? last)
      then if (cp - first) mod step =? 0
           then Z.to_N (Z.of_N cp + shift) else cp
      else shifted cp rest
  end.

(** The lower case of one code point other than the capital sigma. *)
Definition lower_of (cp : N) : list N :=
  if cp <? 128 then [if (65 <=? cp) && (cp <=? 90) then cp + 32 else cp]
  else if cp =? 304 then [105; 775]
  else [shifted cp lower_beyond].

Fixpoint skip_ignorable (cps : list N) : list N :=
  match cps with
  | [] => []
  | cp :: rest =>
      if in_ranges cp case_ignorable then skip_ignorable rest else cps
  end.

(** The lower case of a capital sigma between [before], read backwards,
    and [after]: the final form after a cased letter and before none. *)
Definition sigma (before after : list N) : N :=
  match skip_ignorable before with
  | [] => 963
  | cp :: _ =>
      if in_ranges cp cased_letters
      then match skip_ignorable after with
           | [] => 962
           | cp' :: _ => if in_ranges cp' cased_letters then 963 else 962
           end
      else 963
  end.

Fixpoint lower_from (before cps : list N) : list N :=
  match cps with
  | [] => []
  | cp :: rest =>
      (if cp =? 931 then [sigma before rest] else lower_of cp)
      ++ lower_from (cp :: before) rest
  end.

Definition lower (cps : list N) : list N := lower_from [] cps.

End Unicode.

(** ** Python strings

    A Python [str] is kept as the byte string of its UTF-8 encoding.
    Equality, concatenation, emptiness, and the search for or removal of an
    ASCII character or ASCII prefix give the same answer on the encoding as
    on the code points.  [str.isalnum] and [str.lower] go through the code
    points and the tables of [Unicode]; their ASCII forms, which the
    properties of ASCII identifiers are stated with, are kept beside
    them. *)

Module Str.

Definition code (c : ascii) : N := N_of_ascii c.

Definition between (lo hi : N) (c : ascii) : bool :=
  (lo <=? code c)%N && (code c <=? hi)%N.

Definition is_ascii_char (c : ascii) : bool := (code c <? 128)%N.
Definition is_digit (c : ascii) : bool := between 48 57 c.
Definition is_upper (c : ascii) : bool := between 65 90 c.
Definition is_lower (c : ascii) : bool := between 97 122 c.
Definition is_alnum_char (c : ascii) : bool :=
  is_digit c || is_upper c || is_lower c.

Definition lower_char (c : ascii) : ascii :=
  if is_upper c then ascii_of_N (code c + 32) else c.

Fixpoint all (p : ascii -> bool) (s : string) : bool :=
  match s with
  | EmptyString => true
  | String c rest => p c && all p rest
  end.

Fixpoint any (p : ascii -> bool) (s : string) : bool :=
  match s with
  | EmptyString => false
  | String c rest => p c || any p rest
  end.

Definition is_ascii (s : string) : bool := all is_ascii_char s.

(** [len(s) == 0], the falsity of a string. *)
Definition is_empty (s : string) : bool :=
  match s with
  | EmptyString => true
  | String _ _ => false
  end.

(** [s.isalnum()]: at least one character, and all of them letters or
    digits, of any script. *)
Definition isalnum (s : string) : bool :=
  match Unicode.decode s with
  | [] => false
  | cps => forallb Unicode.alnum cps
  end.

(** [s.lower()]. *)
Definition lower (s : string) : string :=
  Unicode.encode (Unicode.lower (Unicode.decode s)).

(** What [isalnum] and [lower] come to on ASCII text. *)
Definition ascii_isalnum (s : string) : bool :=
  negb (is_empty s) && all is_alnum_char s.

Fixpoint ascii_lower (s : string) : string :=
  match s with
  | EmptyString => EmptyString
  | String c rest => String (lower_char c) (ascii_lower rest)
  end.

(** [s.replace(old, new)] for a one-character [old]. *)
Fixpoint replace (old : ascii) (new : string) (s : string) : string :=
  match s with
  | EmptyString => EmptyString
  | String c rest =>
      if Ascii.eqb c old then new ++ replace old new rest
      else String c (replace old new rest)
  end.

(** [s.startswith(pre)]. *)
Fixpoint startswith (pre s : string) : bool :=
  match pre with
  | EmptyString => true
  | String a pre' =>
      match s with
      | EmptyString => false
      | String b s' => Ascii.eqb a b && startswith pre' s'
      end
  end.

(** [s.startswith((p1, p2, ...))]: some prefix of the tuple matches. *)
Definition startswith_any (pres : list string) (s : string) : bool :=
  existsb (fun pre => startswith pre s) pres.

(** [sub in s]: [sub] occurs in [s] as a contiguous substring. *)
Fixpoint contains (sub s : string) : bool :=
  match s with
  | EmptyString => is_empty sub
  | String _ rest => startswith sub s || contains sub rest
  end.

(** [sep.join(items)]. *)
Definition join (sep : string) (items : list string) : string :=
  String.concat sep items.

(** [s.split(sep)] for a one-character separator. *)
Fixpoint split (sep : ascii) (s : string) : list string :=
  match s with
  | EmptyString => [EmptyString]
  | String c rest =>
      if Ascii.eqb c sep then EmptyString :: split sep rest
      else match split sep rest with
           | [] => [String c EmptyString]
           | piece :: pieces => String c piece :: pieces
           end
  end.

(** [sorted(items)] on strings: ascending in code point order, which on
    UTF-8 text is byte order. *)
Fixpoint insert_sorted (x : string) (l : list string) : list string :=
  match l with
  | [] => [x]
  | y :: rest => if String.leb x y then x :: l else y :: insert_sorted x rest
  end.

Definition sorted (items : list string) : list string :=
  fold_right insert_sorted [] items.

End Str.

(** ** TOML values, as [tomllib] hands them to the script *)

(** A float is kept as what the script can observe of it: whether it is
    zero (its truth value) and its printed form.  Dates and times are
    always true; their [str] and [repr] differ and both are kept.  A table
    is a Python [dict], which keeps its keys in insertion order: an
    association list, looked up from the front. *)
Inductive toml : Type :=
| TString (s : string)
| TInteger (n : Z)
| TFloat (is_zero : bool) (text : string)
| TBoolean (b : bool)
| TTemporal (text repr : string)
| TArray (items : list toml)
| TTable (entries : list (string * toml)).

Definition table : Type := list (string * toml).

Fixpoint lookup (key : string) (t : table) : option toml :=
  match t with
  | [] => None
  | (k, v) :: rest => if String.eqb k key then Some v else lookup key rest
  end.

Definition has_key (key : string) (t : table) : bool :=
  match lookup key t with
  | Some _ => true
  | None => false
  end.

Module Repr.

Definition squote : ascii := "'"%char.
Definition dquote : ascii := ascii_of_nat 34.
Definition backslash : ascii := ascii_of_nat 92.

Definition hex_digit (n : N) : ascii :=
  if (n <? 10)%N then ascii_of_N (48 + n) else ascii_of_N (87 + n).

Definition one (c : ascii) : string := String c EmptyString.

(** The last [width] hexadecimal digits of [n]. *)
Fixpoint hex (width : nat) (n : N) : string :=
  match width with
  | O => EmptyString
  | S width' => hex width' (n / 16) ++ one (hex_digit (n mod 16))
  end.

(** One code point of [repr(s)], inside the quote character [q]: what
    [isprintable] refuses is escaped. *)
Definition char (q : ascii) (cp : N) : string :=
  if (cp =? Str.code backslash)%N then String backslash (one backslash)
  else if (cp =? Str.code q)%N then String backslash (one q)
  else if (cp =? 10)%N then String backslash "n"
  else if (cp =? 13)%N then String backslash "r"
  else if (cp =? 9)%N then String backslash "t"
  else if Unicode.printable cp then Unicode.encode_one cp
  else if (cp <? 256)%N then String backslash (String "x" (hex 2 cp))
  else if (cp <? 65536)%N then String backslash (String "u" (hex 4 cp))
  else String backslash (String "U" (hex 8 cp)).

Fixpoint chars (q : ascii) (cps : list N) : string :=
  match cps with
  | [] => EmptyString
  | cp :: rest => char q cp ++ chars q rest
  end.

(** [repr(s)] of a string: single quotes, unless the text has a single
    quote and no double quote. *)
Definition of_string (s : string) : string :=
  let q :=
    if Str.any (Ascii.eqb squote) s && negb (Str.any (Ascii.eqb dquote) s)
    then dquote else squote in
  String q (chars q (Unicode.decode s) ++ one q).

Definition of_int (n : Z) : string := NilZero.string_of_int (Z.to_int n).

Definition of_bool (b : bool) : string := if b then "True" else "False".

(** [repr(v)]. *)
Fixpoint of_value (v : toml) : string :=
  match v with
  | TString s => of_string s
  | TInteger n => of_int n
  | TFloat _ text => text
  | TBoolean b => of_bool b
  | TTemporal _ repr => repr
  | TArray items =>
      "[" ++ Str.join ", " (map of_value items) ++ "]"
  | TTable entries =>
      "{" ++ Str.join ", "
               ((fix pairs (l : list (string * toml)) : list string :=
                   match l with
                   | [] => []
                   | (k, x) :: rest =>
                       (of_string k ++ ": " ++ of_value x)%string :: pairs rest
                   end) entries)
          ++ "}"
  end.

End Repr.

(** [str(v)], what an f-string substitutes for [{v}]. *)
Definition py_str (v : toml) : string :=
  match v with
  | TString s => s
  | TTemporal text _ => text
  | _ => Repr.of_value v
  end.

(** The truth value of [v], as [not v] and [if v] see it. *)
Definition truthy (v : toml) : bool :=
  match v with
  | TString s => negb (Str.is_empty s)
  | TInteger n => negb (n =? 0)%Z
  | TFloat is_zero _ => negb is_zero
  | TBoolean b => b
  | TTemporal _ _ => true
  | TArray items => match items with [] => false | _ :: _ => true end
  | TTable entries => match entries with [] => false | _ :: _ => true end
  end.

(** [v == s] for a string [s]: only an equal string is equal to it. *)
Definition eq_str (v : toml) (s : string) : bool :=
  match v with
  | TString s' => String.eqb s' s
  | _ => false
  end.

(** [item in container] for a string [item]: a key of a table, a substring
    of a string, an element of an array; the other values are not
    containers. *)
Definition py_in (item : string) (container : toml) : result bool :=
  match container with
  | TTable entries => Ok (has_key item entries)
  | TString s => Ok (Str.contains item s)
  | TArray items => Ok (existsb (fun x => eq_str x item) items)
  | TInteger _ | TFloat _ _ | TBoolean _ | TTemporal _ _ => Raise TypeError
  end.

(** [container[key]] for a string [key]. *)
Definition py_getitem (container : toml) (key : string) : result toml :=
  match container with
  | TTable entries =>
      match lookup key entries with
      | Some v => Ok v
      | None => Raise KeyError
      end
  | _ => Raise TypeError
  end.

(** [v in allowed] for a [set] of strings: the value is hashed first, and
    arrays and tables cannot be. *)
Definition in_set (v : toml) (allowed : list string) : result bool :=
  match v with
  | TArray _ | TTable _ => Raise TypeError
  | _ => Ok (existsb (eq_str v) allowed)
  end.

(** [for x in v]: the elements of an array, the keys of a table, the
    characters of a string; other values are not iterable. *)
Definition py_iter (v : toml) : result (list toml) :=
  match v with
  | TArray items => Ok items
  | TTable entries => Ok (map (fun kv => TString (fst kv)) entries)
  | TString s =>
      Ok (map (fun cp => TString (Unicode.encode_one cp)) (Unicode.decode s))
  | TInteger _ | TFloat _ _ | TBoolean _ | TTemporal _ _ => Raise TypeError
  end.

(** [v.replace(old, new)].  Only strings take string arguments here: dates
    and times have a [replace] of another signature, the rest have none. *)
Definition py_replace (v : toml) (old : ascii) (new : string) : result string :=
  match v with
  | TString s => Ok (Str.replace old new s)
  | TTemporal _ _ => Raise TypeError
  | _ => Raise AttributeError
  end.

(** [v.lower()]. *)
Definition py_lower (v : toml) : result string :=
  match v with
  | TString s => Ok (Str.lower s)
  | _ => Raise AttributeError
  end.

(** [v.startswith(pre)] and [v.startswith((p1, p2))]. *)
Definition py_startswith (v : toml) (pres : list string) : result bool :=
  match v with
  | TString s => Ok (Str.startswith_any pres s)
  | _ => Raise AttributeError
  end.

(** ** The rule registry *)

(** [REQUIRED_FIELDS], a [dict] iterated in insertion order. *)
Definition REQUIRED_FIELDS : list (string * list string) :=
  [ ("broker", ["id"; "name"; "domain"; "category"]);
    ("removal", ["method"]) ].

(** The three value sets.  A Python [set] has no order of its own; the
    script only tests membership and prints the sets through [sorted]. *)
Definition VALID_CATEGORIES : list string :=
  [ "people-search"; "background-check"; "data-aggregator"; "marketing";
    "social-media"; "government-records"; "financial"; "other" ].

Definition VALID_REMOVAL_METHODS : list string :=
  [ "web-form"; "email"; "mail"; "phone"; "api"; "account-required" ].

Definition VALID_JURISDICTIONS : list string :=
  [ "ccpa"; "gdpr"; "vcdpa"; "cpa"; "ctdpa"; "ucpa"; "global" ].

Definition SKIP_FILES : list string := [ "schema.toml"; "README.md" ].

(** ** The document loader *)

(** What [open(filepath, "rb")] followed by [tomllib.load] does on an
    existing path: it returns a dictionary, raises [TOMLDecodeError] with a
    message, or raises something else: [OSError] for a directory or a file
    that may not be read, [UnicodeDecodeError] for bytes that are not
    UTF-8. *)
Inductive loading : Type :=
| Document (data : table)
| DecodeError (message : string)
| Failure (e : exn).

Definition syntax_error (e : string) : string :=
  "Invalid TOML syntax: " ++ e.

Definition _load_toml (file : loading) : result (option table * list string) :=
  match file with
  | Document data => Ok (Some data, [])
  | DecodeError e => Ok (None, [syntax_error e])
  | Failure e => Raise e
  end.

(** ** The required-field check *)

Definition missing_section (section : string) : string :=
  "Missing required section: [" ++ section ++ "]".

Definition missing_field (section field : string) : string :=
  "Missing required field: " ++ section ++ "." ++ field.

(** The inner loop, [for field in fields]. *)
Fixpoint required_in_section (data : table) (section : string)
    (fields : list string) (errors : list string) : result (list string) :=
  match fields with
  | [] => Ok errors
  | field :: rest =>
      content <- py_getitem (TTable data) section ;;
      present <- py_in field content ;;
      required_in_section data section rest
        (if negb present then errors ++ [missing_field section field]
         else errors)
  end.

(** The outer loop, [for section, fields in REQUIRED_FIELDS.items()]. *)
Fixpoint required_sections (data : table)
    (manifest : list (string * list string)) (errors : list string)
    : result (list string) :=
  match manifest with
  | [] => Ok errors
  | (section, fields) :: rest =>
      present <- py_in section (TTable data) ;;
      if negb present
      then required_sections data rest (errors ++ [missing_section section])
      else
        errors' <- required_in_section data section fields errors ;;
        required_sections data rest errors'
  end.

Definition _validate_required_fields (data : table) : result (list string) :=
  required_sections data REQUIRED_FIELDS [].

(** ** The section validators *)

Definition allowed (values : list string) : string :=
  Str.join ", " (Str.sorted values).

Definition invalid_category (category : toml) : string :=
  "Invalid category '" ++ py_str category ++ "'. "
  ++ "Must be one of: " ++ allowed VALID_CATEGORIES.

Definition invalid_domain (domain : toml) : string :=
  "Invalid domain '" ++ py_str domain
  ++ "'. Should be just the domain (e.g., 'spokeo.com')".

Definition invalid_id (broker_id : toml) : string :=
  "Invalid broker ID '" ++ py_str broker_id
  ++ "'. Use lowercase alphanumeric with hyphens.".

Definition not_lowercase (broker_id : toml) : string :=
  "Broker ID '" ++ py_str broker_id ++ "' must be lowercase.".

Definition method_shape : string :=
  "removal.method must be a string or array of strings".

Definition invalid_method (m : toml) : string :=
  "Invalid removal method '" ++ py_str m ++ "'. "
  ++ "Must be one of: " ++ allowed VALID_REMOVAL_METHODS.

Definition invalid_url (url : toml) : string :=
  "removal.url must be a full URL, got '" ++ py_str url ++ "'".

Definition invalid_jurisdiction (law : toml) : string :=
  "Invalid jurisdiction '" ++ py_str law ++ "'. "
  ++ "Must be one of: " ++ allowed VALID_JURISDICTIONS.

(** [# Validate category] *)
Definition check_category (broker : toml) (errors : list string)
    : result (list string) :=
  present <- py_in "category" broker ;;
  if present then
    category <- py_getitem broker "category" ;;
    valid <- in_set category VALID_CATEGORIES ;;
    if negb valid then Ok (errors ++ [invalid_category category])
    else Ok errors
  else Ok errors.

(** [not domain or " " in domain or domain.startswith("http")], evaluated
    from the left and stopping at the first true operand. *)
Definition domain_rejected (domain : toml) : result bool :=
  if negb (truthy domain) then Ok true
  else
    space <- py_in " " domain ;;
    if space then Ok true else py_startswith domain ["http"].

(** [# Validate domain format] *)
Definition check_domain (broker : toml) (errors : list string)
    : result (list string) :=
  present <- py_in "domain" broker ;;
  if present then
    domain <- py_getitem broker "domain" ;;
    rejected <- domain_rejected domain ;;
    if rejected then Ok (errors ++ [invalid_domain domain]) else Ok errors
  else Ok errors.

(** [# Validate ID format] *)
Definition check_id (broker : toml) (errors : list string)
    : result (list string) :=
  present <- py_in "id" broker ;;
  if present then
    broker_id <- py_getitem broker "id" ;;
    no_hyphen <- py_replace broker_id "-" "" ;;
    let stripped := Str.replace "_" "" no_hyphen in
    let errors :=
      if negb (Str.isalnum stripped) then errors ++ [invalid_id broker_id]
      else errors in
    lowered <- py_lower broker_id ;;
    if negb (eq_str broker_id lowered)
    then Ok (errors ++ [not_lowercase broker_id])
    else Ok errors
  else Ok errors.

Definition _validate_broker_section (broker : toml) : result (list string) :=
  errors <- check_category broker [] ;;
  errors <- check_domain broker errors ;;
  check_id broker errors.

(** [[method] if isinstance(method, str) else method if
    isinstance(method, list) else []] *)
Definition resolve_methods (method : toml) : list toml :=
  match method with
  | TString _ => [method]
  | TArray items => items
  | _ => []
  end.

(** [for m in methods] *)
Fixpoint check_methods (methods : list toml) (errors : list string)
    : result (list string) :=
  match methods with
  | [] => Ok errors
  | m :: rest =>
      valid <- in_set m VALID_REMOVAL_METHODS ;;
      check_methods rest
        (if negb valid then errors ++ [invalid_method m] else errors)
  end.

(** [# Validate method] *)
Definition check_method (removal : toml) (errors : list string)
    : result (list string) :=
  present <- py_in "method" removal ;;
  if present then
    method <- py_getitem removal "method" ;;
    let methods := resolve_methods method in
    no_method <-
      (match methods with
       | [] => py_in "method" removal
       | _ :: _ => Ok false
       end) ;;
    check_methods methods
      (if no_method then errors ++ [method_shape] else errors)
  else Ok errors.

(** [# Validate URL if present] *)
Definition check_url (removal : toml) (errors : list string)
    : result (list string) :=
  present <- py_in "url" removal ;;
  if present then
    url <- py_getitem removal "url" ;;
    full <- py_startswith url ["http://"; "https://"] ;;
    if negb full then Ok (errors ++ [invalid_url url]) else Ok errors
  else Ok errors.

Definition _validate_removal_section (removal : toml) : result (list string) :=
  errors <- check_method removal [] ;;
  check_url removal errors.

(** [for jurisdiction in jurisdictions] *)
Fixpoint check_jurisdictions (items : list toml) (errors : list string)
    : result (list string) :=
  match items with
  | [] => Ok errors
  | jurisdiction :: rest =>
      match jurisdiction with
      | TTable entries =>
          if has_key "law" entries then
            law <- py_getitem jurisdiction "law" ;;
            valid <- in_set law VALID_JURISDICTIONS ;;
            check_jurisdictions rest
              (if negb valid then errors ++ [invalid_jurisdiction law]
               else errors)
          else check_jurisdictions rest errors
      | _ => check_jurisdictions rest errors
      end
  end.

Definition _validate_jurisdictions (jurisdictions : toml)
    : result (list string) :=
  items <- py_iter jurisdictions ;;
  check_jurisdictions items [].

(** ** The orchestrator *)

(** A section validator runs when its section is in the document. *)
Definition validate_section (data : table) (section : string)
    (validator : toml -> result (list string)) (errors : list string)
    : result (list string) :=
  match lookup section data with
  | Some content =>
      found <- validator content ;;
      Ok (errors ++ found)
  | None => Ok errors
  end.

(** The checks on a loaded dictionary, [errors] being what the loader
    returned. *)
Definition validate_data (data : table) (errors : list string)
    : result (list string) :=
  missing <- _validate_required_fields data ;;
  let errors := errors ++ missing in
  errors <- validate_section data "broker" _validate_broker_section errors ;;
  errors <- validate_section data "removal" _validate_removal_section errors ;;
  validate_section data "jurisdictions" _validate_jurisdictions errors.

(** [if not data: return errors] stops on [None] and on the empty
    dictionary alike. *)
Definition validate_broker_toml (file : loading) : result (list string) :=
  loaded <- _load_toml file ;;
  match loaded with
  | (None, errors) => Ok errors
  | (Some [], errors) => Ok errors
  | (Some data, errors) => validate_data data errors
  end.

(** ** The batch runner *)

(** [Path(filepath).name] on a POSIX system: the path is cut at its
    slashes, empty components and [.] are dropped, and the name is the
    last component left, or the empty string when there is none. *)
Definition path_component (piece : string) : bool :=
  negb (Str.is_empty piece) && negb (String.eqb piece ".").

Definition path_name (filepath : string) : string :=
  last (filter path_component (Str.split "/" filepath)) "".

Definition skipped (filepath : string) : bool :=
  existsb (String.eqb (path_name filepath)) SKIP_FILES.

(** What the run sees of a path: [path.exists()] is true, and then what
    loading the path does; or it is false; or it raises [OSError], as it
    does in Python 3.11 for every error of [stat] that does not say that
    the path is missing (a name too long, a directory that may not be
    searched). *)
Inductive entry : Type :=
| Present (file : loading)
| Absent
| Unreachable.

Definition filesystem : Type := string -> entry.

Definition skip_line (filepath : string) : string :=
  "SKIP: " ++ filepath ++ " (documentation)".

Definition not_found_line (filepath : string) : string :=
  "ERROR: File not found: " ++ filepath.

Definition error_line (filepath : string) : string := "ERROR: " ++ filepath.

Definition bullet_line (error : string) : string := "  - " ++ error.

Definition ok_line (filepath : string) : string := "OK: " ++ filepath.

Definition usage_line : string :=
  "Usage: validate-broker-toml.py <file1.toml> [file2.toml ...]".

(** The state of the loop in [main]: the flag [all_valid] and the texts
    printed so far, one for each call of [print].  An exception leaves the
    loop with what was printed before it. *)
Fixpoint run_files (fs : filesystem) (paths : list string)
    (all_valid : bool) (printed : list string) : list string * result bool :=
  match paths with
  | [] => (printed, Ok all_valid)
  | filepath :: rest =>
      if skipped filepath
      then run_files fs rest all_valid (printed ++ [skip_line filepath])
      else
        match fs filepath with
        | Unreachable => (printed, Raise OSError)
        | Absent =>
            run_files fs rest false (printed ++ [not_found_line filepath])
        | Present file =>
            match validate_broker_toml file with
            | Raise e => (printed, Raise e)
            | Ok [] =>
                run_files fs rest all_valid (printed ++ [ok_line filepath])
            | Ok errors =>
                run_files fs rest false
                  (printed ++ error_line filepath :: map bullet_line errors)
            end
        end
  end.

(** [main()], given [sys.argv[1:]]: the texts printed and the value
    returned. *)
Definition main (fs : filesystem) (args : list string)
    : list string * result Z :=
  match args with
  | [] => ([usage_line], Ok 1%Z)
  | _ :: _ =>
      let (printed, outcome) := run_files fs args true [] in
      (printed,
       fmap (fun all_valid : bool => if all_valid then 0%Z else 1%Z) outcome)
  end.

(** [sys.exit(main())]: the status of the process.  An exception nobody
    catches ends the interpreter with status 1. *)
Definition exit_status (run : list string * result Z) : Z :=
  match snd run with
  | Ok status => status
  | Raise _ => 1%Z
  end.

(** ** Sample documents *)

Module Sample.

(** A complete, valid definition. *)
Definition broker : table :=
  [ ("id", TString "spokeo"); ("name", TString "Spokeo");
    ("domain", TString "spokeo.com"); ("category", TString "people-search") ].

Definition removal : table :=
  [ ("method", TString "web-form");
    ("url", TString "https://www.spokeo.com/optout") ].

Definition spokeo : table :=
  [ ("broker", TTable broker); ("removal", TTable removal) ].

(** [section[field] = v]: the value of the key is replaced where it is,
    a new key goes to the end. *)
Fixpoint set_key (field : string) (v : toml) (section : table) : table :=
  match section with
  | [] => [(field, v)]
  | (k, x) :: rest =>
      if String.eqb k field then (field, v) :: rest
      else (k, x) :: set_key field v rest
  end.

(** [broker] with one field changed. *)
Definition broker_with (field : string) (v : toml) : table :=
  set_key field v broker.

Definition removal_with (field : string) (v : toml) : table :=
  set_key field v removal.

Definition with_broker (b : table) : table :=
  [ ("broker", TTable b); ("removal", TTable removal) ].

Definition with_removal (r : table) : table :=
  [ ("broker", TTable broker); ("removal", TTable r) ].

(** [spokeo] with a [jurisdictions] list. *)
Definition with_jurisdictions (items : list toml) : table :=
  spokeo ++ [("jurisdictions", TArray items)].

Definition three_methods : toml :=
  TArray [TString "fax"; TString "email"; TString "pigeon"].

End Sample.

(** * The vocabulary of the properties *)

(** ** What a diagnostic is about

    The diagnostics are plain text; the field one is about is read off its
    fixed opening words. *)

Definition about_category (msg : string) : bool :=
  Str.startswith "Invalid category '" msg.

Definition about_domain (msg : string) : bool :=
  Str.startswith "Invalid domain '" msg.


Definition about_method_value (msg : string) : bool :=
  Str.startswith "Invalid removal method '" msg.

Definition about_method (msg : string) : bool :=
  String.eqb msg method_shape || about_method_value msg.

Definition about_missing (msg : string) : bool :=
  Str.startswith "Missing required " msg.

(** ** The types of field values

    The schema gives [id], [domain] and [url] a string and [category] a
    string too.  The checks on them raise on other values: on a category
    that cannot be hashed, on a domain, an identifier or a URL that is not
    text, on a section that is not a table. *)

Definition is_text (v : toml) : bool :=
  match v with
  | TString _ => true
  | _ => false
  end.

Definition is_scalar (v : toml) : bool :=
  match v with
  | TArray _ | TTable _ => false
  | _ => true
  end.

(** A field that is absent, or present with a string for its value. *)
Definition text_or_absent (field : string) (section : table) : bool :=
  match lookup field section with
  | None | Some (TString _) => true
  | Some _ => false
  end.

Definition scalar_or_absent (field : string) (section : table) : bool :=
  match lookup field section with
  | None => true
  | Some v => is_scalar v
  end.

Definition table_or_absent (data : table) (section : string) : bool :=
  match lookup section data with
  | None | Some (TTable _) => true
  | Some _ => false
  end.

Definition url_is_text (removal : table) : bool := text_or_absent "url" removal.

(** The values on which no check raises. *)
Definition broker_typed (data : table) : bool :=
  match lookup "broker" data with
  | None => true
  | Some (TTable broker) =>
      scalar_or_absent "category" broker
      && text_or_absent "domain" broker
      && text_or_absent "id" broker
  | Some _ => false
  end.

Definition entries_hashable (removal : table) : bool :=
  match lookup "method" removal with
  | Some (TArray items) => forallb is_scalar items
  | _ => true
  end.

Definition removal_typed (data : table) : bool :=
  match lookup "removal" data with
  | None => true
  | Some (TTable removal) => entries_hashable removal && url_is_text removal
  | Some _ => false
  end.

Definition law_hashable (jurisdiction : toml) : bool :=
  match jurisdiction with
  | TTable entries => scalar_or_absent "law" entries
  | _ => true
  end.

Definition jurisdictions_typed (data : table) : bool :=
  match lookup "jurisdictions" data with
  | None => true
  | Some (TArray items) => forallb law_hashable items
  | Some _ => false
  end.

Definition well_typed (data : table) : bool :=
  broker_typed data && removal_typed data && jurisdictions_typed data.

(** ** Enumerations *)


(** An entry outside the removal-method enumeration. *)
Definition invalid_entry (m : toml) : bool :=
  negb (existsb (eq_str m) VALID_REMOVAL_METHODS).

(** A single string or a list of strings, the shape the specification
    names for [removal.method]. *)
Definition string_or_strings (method : toml) : bool :=
  match method with
  | TString _ => true
  | TArray items => forallb is_text items
  | _ => false
  end.



(** ** Formats *)


Definition is_id_char (c : ascii) : bool :=
  Str.is_alnum_char c || Ascii.eqb c "-" || Ascii.eqb c "_".

(** The identifier without its hyphens and underscores. *)
Definition strip (s : string) : string :=
  Str.replace "_" "" (Str.replace "-" "" s).

(** The first identifier check, said without the stripping: every
    character is a letter, a digit, a hyphen or an underscore, and one of
    them at least is a letter or a digit. *)
Definition plain (s : string) : bool :=
  Str.all is_id_char s && Str.any Str.is_alnum_char s.

(** ** Required fields *)

(** The fields of [fields] that a section lacks, in manifest order. *)
Definition absent_fields (content : table) (fields : list string)
    : list string :=
  filter (fun field => negb (has_key field content)) fields.

(** What the check reports for one entry of the manifest when the section,
    if the document has it, is a table. *)
Definition section_report (data : table) (entry : string * list string)
    : list string :=
  match lookup (fst entry) data with
  | None => [missing_section (fst entry)]
  | Some (TTable content) =>
      map (missing_field (fst entry)) (absent_fields content (snd entry))
  | Some _ => []
  end.

(** ** Valid records *)

(** [section.name] of a document, when the section is a table. *)
Definition field (data : table) (section name : string) : option toml :=
  match lookup section data with
  | Some (TTable content) => lookup name content
  | _ => None
  end.

Definition present (v : option toml) : bool :=
  match v with
  | Some _ => true
  | None => false
  end.

(** The value is there, is text, and the text satisfies [p]. *)
Definition text_with (p : string -> bool) (v : option toml) : bool :=
  match v with
  | Some (TString s) => p s
  | _ => false
  end.

Definition one_of (allowed : list string) (s : string) : bool :=
  existsb (String.eqb s) allowed.

(** Lower-case letters, digits, hyphens and underscores, with a letter or
    a digit among them. *)
Definition lowercase_id (i : string) : bool :=
  Str.all (fun c => Str.is_lower c || Str.is_digit c
                    || Ascii.eqb c "-" || Ascii.eqb c "_") i
  && Str.any (fun c => Str.is_lower c || Str.is_digit c) i.

(** A bare host name, as the specification tells it from other text: not
    empty, no space, no [http] in front. *)
Definition bare_hostname (d : string) : bool :=
  negb (Str.is_empty d || Str.contains " " d || Str.startswith "http" d).

Definition full_url (u : string) : bool :=
  Str.startswith "http://" u || Str.startswith "https://" u.

(** Every value of [removal.method] is in the enumeration: the string, or
    each entry of the list. *)
Definition methods_in_range (v : option toml) : bool :=
  match v with
  | Some (TString m) => one_of VALID_REMOVAL_METHODS m
  | Some (TArray items) =>
      forallb (fun m => text_with (one_of VALID_REMOVAL_METHODS) (Some m)) items
  | _ => false
  end.

Definition url_in_range (v : option toml) : bool :=
  match v with
  | None => true
  | Some u => text_with full_url (Some u)
  end.

(** The premises of C3: the required fields are there and each value is in
    range or well formed. *)
Definition valid_minimal (data : table) : bool :=
  text_with lowercase_id (field data "broker" "id")
  && present (field data "broker" "name")
  && text_with bare_hostname (field data "broker" "domain")
  && text_with (one_of VALID_CATEGORIES) (field data "broker" "category")
  && methods_in_range (field data "removal" "method")
  && url_in_range (field data "removal" "url").

(** What the code asks for besides: a method list has an entry, and the
    [law] of every table in a [jurisdictions] list is in the enumeration. *)
Definition method_not_empty (data : table) : bool :=
  match field data "removal" "method" with
  | Some (TArray []) => false
  | _ => true
  end.

Definition law_in_range (jurisdiction : toml) : bool :=
  match jurisdiction with
  | TTable entries =>
      match lookup "law" entries with
      | Some law => text_with (one_of VALID_JURISDICTIONS) (Some law)
      | None => true
      end
  | _ => true
  end.

Definition jurisdictions_in_range (data : table) : bool :=
  match lookup "jurisdictions" data with
  | None => true
  | Some (TArray items) => forallb law_in_range items
  | Some _ => false
  end.

(** ** Batches *)

(** A path that passes: skipped, or there and valid. *)
Definition clean (fs : filesystem) (filepath : string) : bool :=
  skipped filepath
  || match fs filepath with
     | Present file =>
         match validate_broker_toml file with
         | Ok [] => true
         | _ => false
         end
     | _ => false
     end.

(** What the loop prints and decides for one path on its own. *)
Definition report (fs : filesystem) (filepath : string)
    : list string * result bool :=
  run_files fs [filepath] true [].

(** A file system for the examples: two valid definitions, one with a
    method outside the enumeration, one with a number for its [id], a
    directory, which cannot be opened as a file, and a path in a directory
    that may not be searched. *)
Definition sample_fs : filesystem := fun filepath =>
  if String.eqb filepath "brokers/spokeo.toml"
  then Present (Document Sample.spokeo)
  else if String.eqb filepath "brokers/intelius.toml"
       then Present (Document Sample.spokeo)
  else if String.eqb filepath "brokers/draft.toml"
       then Present
              (Document (Sample.with_removal [("method", TString "fax")]))
  else if String.eqb filepath "brokers/typo.toml"
       then Present
              (Document
                 (Sample.with_broker (Sample.broker_with "id" (TInteger 5))))
  else if String.eqb filepath "brokers" then Present (Failure OSError)
  else if String.eqb filepath "locked/spokeo.toml" then Unreachable
  else Absent.

(** ** Path names *)

(** A file name proper: not empty, not [.], no slash in it. *)
Definition plain_name (base : string) : bool :=
  negb (Str.is_empty base) && negb (String.eqb base ".")
  && negb (Str.any (Ascii.eqb "/") base).

(** ** The lines of a run *)

(** A line that opens the report of a path, as against a bullet under
    it. *)
Definition status_line (line : string) : bool :=
  Str.startswith "SKIP: " line || Str.startswith "ERROR: " line
  || Str.startswith "OK: " line.

Definition failure_line (line : string) : bool :=
  Str.startswith "ERROR: " line.

(** The status text of a path that does not make the run raise, and the
    bullets printed under it. *)
Definition status_of (fs : filesystem) (filepath : string) : string :=
  if skipped filepath then skip_line filepath
  else match fs filepath with
       | Present file =>
           match validate_broker_toml file with
           | Ok [] => ok_line filepath
           | _ => error_line filepath
           end
       | _ => not_found_line filepath
       end.

Definition bullets_of (fs : filesystem) (filepath : string) : list string :=
  if skipped filepath then []
  else match fs filepath with
       | Present file =>
           match validate_broker_toml file with
           | Ok errors => map bullet_line errors
           | Raise _ => []
           end
       | _ => []
       end.

(** ** The removal URL and the jurisdictions *)

Definition about_url (msg : string) : bool :=
  Str.startswith "removal.url must be a full URL" msg.

Definition about_jurisdiction (msg : string) : bool :=
  Str.startswith "Invalid jurisdiction '" msg.

(** A URL with one of the two schemes in front. *)
Definition has_scheme (u : string) : Prop :=
  (exists rest, u = ("http://" ++ rest)%string)
  \/ (exists rest, u = ("https://" ++ rest)%string).




(** ** The values on which the validator returns *)


(** A domain on which the domain test does not raise: one that is false,
    text, or a list or table holding [" "]. *)
Definition domain_safe (v : option toml) : bool :=
  match v with
  | None => true
  | Some domain =>
      negb (truthy domain)
      || match domain with
         | TString _ => true
         | TArray items => existsb (fun x => eq_str x " ") items
         | TTable entries => has_key " " entries
         | _ => false
         end
  end.

Definition broker_safe (broker : table) : bool :=
  scalar_or_absent "category" broker
  && domain_safe (lookup "domain" broker)
  && text_or_absent "id" broker.

Definition removal_safe (removal : table) : bool :=
  entries_hashable removal && url_is_text removal.

Definition section_safe (data : table) (section : string)
    (safe : table -> bool) : bool :=
  match lookup section data with
  | None => true
  | Some (TTable content) => safe content
  | Some _ => false
  end.

(** A string or a table in place of the list is iterated over, by
    character or by key, and nothing in it is a table. *)
Definition jurisdictions_safe (data : table) : bool :=
  match lookup "jurisdictions" data with
  | None => true
  | Some (TArray items) => forallb law_hashable items
  | Some (TString _) | Some (TTable _) => true
  | Some _ => false
  end.

Definition safe (data : table) : bool :=
  section_safe data "broker" broker_safe
  && section_safe data "removal" removal_safe
  && jurisdictions_safe data.

(** ** What the validator reads of a document *)

(** Two values of a section that the validator cannot tell apart: the
    same value, or two tables that agree on the fields [known]. *)
Definition alike (known : list string) (v v' : option toml) : Prop :=
  v = v'
  \/ exists t t',
       v = Some (TTable t) /\ v' = Some (TTable t')
       /\ forall field, In field known -> lookup field t = lookup field t'.

Definition same_known (data data' : table) : Prop :=
  alike ["id"; "name"; "domain"; "category"]
    (lookup "broker" data) (lookup "broker" data')
  /\ alike ["method"; "url"] (lookup "removal" data) (lookup "removal" data')
  /\ lookup "jurisdictions" data = lookup "jurisdictions" data'.

(** ** The kinds of diagnostics *)

(** The kind of a diagnostic, numbered in the order of the checks in the
    source. *)
Definition rank (msg : string) : nat :=
  if about_missing msg then 0
  else if about_category msg then 1
  else if about_domain msg then 2
  else if Str.startswith "Invalid broker ID '" msg then 3
  else if Str.startswith "Broker ID '" msg then 4
  else if String.eqb msg method_shape then 5
  else if about_method_value msg then 6
  else if about_url msg then 7
  else if about_jurisdiction msg then 8
  else 9.

(** Diagnostics in the order of their kinds, all of them of kinds [lo] to
    [hi]. *)
Definition within (lo hi : nat) (errors : list string) : Prop :=
  StronglySorted le (map rank errors)
  /\ Forall (fun msg => lo <= rank msg /\ rank msg <= hi) errors.

(** ** Records that pass *)

(** The identifier, when it is text, is ASCII: there [isalnum] and [lower]
    come to their ASCII forms. *)
Definition ascii_id (data : table) : bool :=
  match field data "broker" "id" with
  | Some (TString i) => Str.is_ascii i
  | _ => true
  end.

(** The [jurisdictions] value, if there is one, can be iterated, and the
    [law] of every table among its elements is in the enumeration. *)
Definition laws_in_range (data : table) : bool :=
  match lookup "jurisdictions" data with
  | None => true
  | Some jurisdictions =>
      match py_iter jurisdictions with
      | Ok items => forallb law_in_range items
      | Raise _ => false
      end
  end.

(** * The architecture splitter (scripts/split-architecture.py) *)

(** The script cuts [architecture.md] at its numbered level-two headings,
    writes one file for each section it knows, and an index.  A run is
    given by the text that [read_text] returns; what it does is the
    sequence of its effects, in the run in which the directory can be made
    and every file can be written. *)

Definition newline : ascii := "010"%char.

Definition nl : string := String newline "".

(** [SECTIONS]: number, file name and title. *)
Definition SECTIONS : list (Z * (string * string)) :=
  [(0%Z, ("00-overview.md", "Overview"));
   (1%Z, ("01-vision.md", "Vision & Problem Statement"));
   (2%Z, ("02-high-level-architecture.md", "High-Level Architecture"));
   (3%Z, ("03-core-modules.md", "Core Modules — Detailed Design"));
   (4%Z, ("04-pii-discovery.md", "Local PII Discovery Engine"));
   (5%Z, ("05-network-telemetry.md", "Network Telemetry Engine"));
   (6%Z, ("06-removal-verification.md",
          "Removal Verification & Follow-Up Engine"));
   (7%Z, ("07-mail-communication.md", "Third-Party Communication Engine"));
   (8%Z, ("08-permissions.md", "Granular Permission System"));
   (9%Z, ("09-security.md", "Security Architecture"));
   (10%Z, ("10-reporting-dashboard.md", "Reporting & Progress Dashboard"));
   (11%Z, ("11-llm-integration.md", "LLM Integration Strategy"));
   (12%Z, ("12-frontend.md", "Frontend Architecture"));
   (13%Z, ("13-project-structure.md", "Project Structure"));
   (14%Z, ("14-database-schema.md", "Database Schema"));
   (15%Z, ("15-dependencies.md", "Dependencies"));
   (16%Z, ("16-broker-maintenance.md", "Broker Database Maintenance"));
   (17%Z, ("17-roadmap.md", "Development Roadmap"));
   (18%Z, ("18-license.md", "License Recommendation"));
   (19%Z, ("19-open-questions.md", "Open Questions & Discussion Points"));
   (20%Z, ("20-onboarding.md", "User Onboarding & PII Profile Setup"));
   (21%Z, ("21-geolocation-jurisdiction.md",
           "Geolocation & Jurisdiction System"));
   (22%Z, ("22-proactive-scanning.md", "Proactive Broker Scanning Model"));
   (23%Z, ("23-commercial-relationships.md",
           "Commercial Relationship Engine"));
   (24%Z, ("24-resolved-questions.md", "Resolved Open Questions"))].

(** The entry of a dictionary with integer keys, if it has the key. *)
Fixpoint entry_of {A : Type} (num : Z) (entries : list (Z * A)) : option A :=
  match entries with
  | [] => None
  | (key, value) :: rest =>
      if (key =? num)%Z then Some value else entry_of num rest
  end.

(** [SECTIONS[num]] where [num in SECTIONS]. *)
Definition section_entry (num : Z) : option (string * string) :=
  entry_of num SECTIONS.

(** [SECTIONS[0][0]]. *)
Definition overview_file : string :=
  match section_entry 0 with
  | Some (filename, _) => filename
  | None => ""
  end.

(** ** Headings *)

(** What is left of [cps] after the prefix [pre], if it starts with it. *)
Fixpoint after_prefix (pre cps : list N) : option (list N) :=
  match pre with
  | [] => Some cps
  | a :: pre' =>
      match cps with
      | [] => None
      | b :: cps' => if (a =? b)%N then after_prefix pre' cps' else None
      end
  end.

(** The longest run of decimal digits in front of [cps], as their values,
    and what follows it: [\d] matches the decimal digits of every
    script. *)
Fixpoint span_digits (cps : list N) : list N * list N :=
  match cps with
  | [] => ([], [])
  | cp :: rest =>
      match Unicode.digit cp with
      | Some value =>
          let (digits, after) := span_digits rest in (value :: digits, after)
      | None => ([], cps)
      end
  end.

Fixpoint int_from (value : Z) (digits : list N) : Z :=
  match digits with
  | [] => value
  | digit :: rest => int_from (10 * value + Z.of_N digit) rest
  end.

(** [int(text)] for a run of decimal digits.  Python refuses to convert
    more than 4300 digits, zeros in front included. *)
Definition py_int (digits : list N) : result Z :=
  if Nat.leb (length digits) 4300 then Ok (int_from 0 digits)
  else Raise ValueError.

(** [re.match(r'^## (\d+)\. ', line)] and [int(match.group(1))]: the
    number of a numbered level-two heading. *)
Definition section_number (line : string) : result (option Z) :=
  match after_prefix [35; 35; 32]%N (Unicode.decode line) with
  | Some rest =>
      let (digits, after) := span_digits rest in
      match digits, after_prefix [46; 32]%N after with
      | _ :: _, Some _ => fmap Some (py_int digits)
      | _, _ => Ok None
      end
  | None => Ok None
  end.

(** ** Effects *)

Inductive effect : Type :=
| MakeDirectory
| WriteText (filename content : string)
| Print (text : string).

Definition created (filename : string) (count : nat) : string :=
  "Created: " ++ filename ++ " (" ++ Repr.of_int (Z.of_nat count) ++ " lines)".

Definition done_line (arch_dir : string) : string :=
  nl ++ "Done! Created " ++ Repr.of_int (Z.of_nat (length SECTIONS))
     ++ " files in " ++ arch_dir.

(** ** The index *)

(** [sorted(keys)] on integers. *)
Fixpoint insert_number (x : Z) (l : list Z) : list Z :=
  match l with
  | [] => [x]
  | y :: rest => if (x <=? y)%Z then x :: l else y :: insert_number x rest
  end.

Definition sorted_numbers (keys : list Z) : list Z :=
  fold_right insert_number [] keys.

Definition index_entry (num : Z) : list string :=
  match section_entry num with
  | Some (filename, title) =>
      [if (num =? 0)%Z
       then ("- [" ++ title ++ "](" ++ filename
             ++ ") - Document header, version info, table of contents")%string
       else ("- [" ++ Repr.of_int num ++ ". " ++ title ++ "](" ++ filename
             ++ ")")%string]
  | None => []
  end.

Definition index_lines : list string :=
  ["# Spectral Architecture Documentation";
   "";
   "This directory contains the Spectral architecture documentation, split into sections for easier navigation.";
   "";
   "## Sections";
   ""]
  ++ flat_map index_entry (sorted_numbers (map fst SECTIONS))
  ++ ["";
      "## Quick Reference";
      "";
      "| Topic | Sections |";
      "|-------|----------|";
      "| Vault & Encryption | [3](03-core-modules.md), [9](09-security.md) |";
      "| Broker Engine | [3](03-core-modules.md), [16](16-broker-maintenance.md), [22](22-proactive-scanning.md) |";
      "| Browser Automation | [3](03-core-modules.md) |";
      "| LLM & Prompt Safety | [3](03-core-modules.md), [11](11-llm-integration.md) |";
      "| Permissions | [8](08-permissions.md) |";
      "| User Onboarding | [20](20-onboarding.md) |";
      "| Jurisdiction & Legal | [21](21-geolocation-jurisdiction.md) |";
      "| Commercial Deletions | [23](23-commercial-relationships.md) |";
      "| Resolved Decisions | [24](24-resolved-questions.md) |";
      "";
      "## Version";
      "";
      "Architecture Document v0.3";
      ""].

(** [create_index()]. *)
Definition create_index : list effect :=
  [WriteText "README.md" (Str.join nl index_lines);
   Print "Created: README.md (index)"].

(** ** The split *)

(** The numbered headings of [lines] with their positions, the first line
    being at position [i]; the loop ends at a number that [int] refuses. *)
Fixpoint section_starts_from (i : nat) (lines : list string)
    : result (list (nat * Z)) :=
  match lines with
  | [] => Ok []
  | line :: rest =>
      number <- section_number line ;;
      section_starts <- section_starts_from (S i) rest ;;
      Ok (match number with
          | Some section_num => (i, section_num) :: section_starts
          | None => section_starts
          end)
  end.

(** [l[a:b]] for positions counted from the front. *)
Definition slice {A : Type} (l : list A) (a b : nat) : list A :=
  firstn (b - a) (skipn a l).

(** The loop over [section_starts[:-1]]: every start but the last, with
    the start after it as its end. *)
Fixpoint write_sections (lines : list string)
    (section_starts : list (nat * Z)) : list effect :=
  match section_starts with
  | [] => []
  | (start_line, section_num) :: following =>
      match following with
      | [] => []
      | (end_line, _) :: _ =>
          let section_lines := slice lines start_line end_line in
          match section_entry section_num with
          | Some (filename, title) =>
              [WriteText filename (Str.join nl section_lines);
               Print (created filename (length section_lines))]
          | None => []
          end
          ++ write_sections lines following
      end
  end.

(** [split_architecture()], given the text of [architecture.md] and the
    text of the path [ARCH_DIR]: its effects, and how it ends. *)
Definition split_architecture (arch_dir content : string)
    : list effect * result unit :=
  let lines := Str.split newline content in
  match section_starts_from 0 lines with
  | Raise e => ([MakeDirectory], Raise e)
  | Ok found =>
      let section_starts := found ++ [(length lines, 999%Z)] in
      let header_end :=
        match section_starts with
        | (start_line, _) :: _ => start_line
        | [] => length lines
        end in
      let header_lines := firstn header_end lines in
      let overview_content := Str.join nl header_lines in
      ([MakeDirectory;
        WriteText overview_file overview_content;
        Print (created overview_file (length header_lines))]
       ++ write_sections lines section_starts
       ++ create_index
       ++ [Print (done_line arch_dir)],
       Ok tt)
  end.

(** ** What a run leaves behind *)

(** The files written, in the order of writing. *)
Definition writes_of (run : list effect) : list (string * string) :=
  flat_map (fun e => match e with
                     | WriteText filename content => [(filename, content)]
                     | _ => []
                     end) run.

(** The text printed, one entry for each call of [print]. *)
Definition prints_of (run : list effect) : list string :=
  flat_map (fun e => match e with
                     | Print text => [text]
                     | _ => []
                     end) run.

(** The content of [filename] after the writes: that of its last write. *)
Fixpoint written (files : list (string * string)) (filename : string)
    : option string :=
  match files with
  | [] => None
  | (name, content) :: later =>
      match written later filename with
      | Some content' => Some content'
      | None => if String.eqb name filename then Some content else None
      end
  end.

(** ** Sections of a text *)

(** The number of a line that is a numbered heading. *)
Definition heading (line : string) : option Z :=
  match section_number line with
  | Ok number => number
  | Raise _ => None
  end.

(** No heading of the text has a number that [int] refuses. *)
Definition readable (content : string) : bool :=
  forallb (fun line => match section_number line with
                       | Ok _ => true
                       | Raise _ => false
                       end)
    (Str.split newline content).

(** The numbered headings with their positions. *)
Fixpoint starts_of (i : nat) (lines : list string) : list (nat * Z) :=
  match lines with
  | [] => []
  | line :: rest =>
      match heading line with
      | Some num => (i, num) :: starts_of (S i) rest
      | None => starts_of (S i) rest
      end
  end.

(** The lines in front of the first numbered heading. *)
Fixpoint header_of (lines : list string) : list string :=
  match lines with
  | [] => []
  | line :: rest =>
      match heading line with
      | Some _ => []
      | None => line :: header_of rest
      end
  end.

(** The sections in the order of the text: the number of each heading,
    with the heading and the lines up to the next numbered heading. *)
Fixpoint section_chunks (lines : list string) : list (Z * list string) :=
  match lines with
  | [] => []
  | line :: rest =>
      match heading line with
      | Some num => (num, line :: header_of rest) :: section_chunks rest
      | None => section_chunks rest
      end
  end.

(** The file written for a section, if its number is in [SECTIONS]. *)
Definition section_file (section : Z * list string)
    : list (string * string) :=
  match section_entry (fst section) with
  | Some (filename, _) => [(filename, Str.join nl (snd section))]
  | None => []
  end.

Definition section_print (section : Z * list string) : list string :=
  match section_entry (fst section) with
  | Some (filename, _) => [created filename (length (snd section))]
  | None => []
  end.

(** The lines of the last section with the number [num]. *)
Fixpoint last_chunk (num : Z) (sections : list (Z * list string))
    : option (list string) :=
  match sections with
  | [] => None
  | (n, chunk) :: later =>
      match last_chunk num later with
      | Some chunk' => Some chunk'
      | None => if (n =? num)%Z then Some chunk else None
      end
  end.

Definition index_file : string * string :=
  ("README.md", Str.join nl index_lines).

(** The effects of the loop for one section. *)
Definition section_effects (section : Z * list string) : list effect :=
  match section_entry (fst section) with
  | Some (filename, _) =>
      [WriteText filename (Str.join nl (snd section));
       Print (created filename (length (snd section)))]
  | None => []
  end.

(** The number whose file is [filename]. *)
Definition file_number (filename : string) : option Z :=
  option_map fst
    (find (fun entry => String.eqb (fst (snd entry)) filename) SECTIONS).

(** The file of a section number. *)
Definition file_of (num : Z) : string :=
  match section_entry num with
  | Some (filename, _) => filename
  | None => ""
  end.

(** The numbers of the headings, in the order of the text. *)
Definition numbers_of (content : string) : list Z :=
  map fst (section_chunks (Str.split newline content)).

(** Every numbered heading of the text has its number in [SECTIONS]. *)
Definition numbers_known (content : string) : bool :=
  forallb (fun num => match section_entry num with
                      | Some _ => true
                      | None => false
                      end) (numbers_of content).

Fixpoint distinct (numbers : list Z) : bool :=
  match numbers with
  | [] => true
  | num :: rest => negb (existsb (Z.eqb num) rest) && distinct rest
  end.

(** No two headings have the same number, and none has the number 0, the
    number of the overview. *)
Definition numbers_apart (content : string) : bool :=
  distinct (0%Z :: numbers_of content).

(** What is read back from a file after the run. *)
Definition read_back (run : list effect * result unit) (filename : string)
    : option string :=
  written (writes_of (fst run)) filename.

(** ** Sample texts *)

(** A text with a section whose number is not in [SECTIONS]. *)
Definition text_with_notes : string :=
  "# Spectral" ++ nl ++ "## 1. Vision" ++ nl ++ "why" ++ nl
  ++ "## 77. Notes" ++ nl ++ "lost" ++ nl ++ "## 2. Design".

Definition text_of_two_sections : string :=
  "# Spectral" ++ nl ++ "## 1. Vision" ++ nl ++ "why" ++ nl
  ++ "## 2. Design" ++ nl.

(** A text with a number used twice, and a heading numbered 0. *)
Definition text_with_repeats : string :=
  "# Spectral" ++ nl ++ "## 1. Vision" ++ nl ++ "old" ++ nl
  ++ "## 1. Vision" ++ nl ++ "new" ++ nl ++ "## 0. Preface".

(** A heading numbered in Arabic-Indic digits: two, four. *)
Definition text_in_other_digits : string :=
  "intro" ++ nl ++ "## " ++ Unicode.encode [1634; 1636]%N ++ ". Last".

(** A heading with a number of 4301 digits. *)
Definition text_with_long_number : string :=
  "intro" ++ nl ++ "## " ++ String.concat "" (repeat "7" 4301) ++ ". More".

(** * Properties *)

(** Takes the next bound computation or the next test apart. *)
Ltac split_step :=
  match goal with
  | |- context [Py.bind ?r _] => destruct r eqn:?; simpl
  | |- context [if ?b then _ else _] => destruct b eqn:?; simpl
  end.

Ltac split_all := simpl; repeat split_step; rewrite ?app_nil_r; try reflexivity.

(** ** The error monad and the accumulated list *)

Lemma fmap_Ok {A B : Type} (f : A -> B) (a : A) : fmap f (Ok a) = Ok (f a).
Proof. reflexivity. Qed.

Lemma fmap_Raise {A B : Type} (f : A -> B) (e : exn) :
  fmap f (Raise e : result A) = Raise e.
Proof. reflexivity. Qed.

Lemma fmap_app_nil (r : result (list string)) : fmap (app []) r = r.
Proof. destruct r; reflexivity. Qed.

Lemma fmap_app_app (xs ys : list string) (r : result (list string)) :
  fmap (app xs) (fmap (app ys) r) = fmap (app (xs ++ ys)) r.
Proof. destruct r; simpl; [rewrite app_assoc|]; reflexivity. Qed.

(** Every check only appends to the list it is given. *)
Lemma check_category_acc broker errors :
  check_category broker errors = fmap (app errors) (check_category broker []).
Proof. unfold check_category; split_all. Qed.

Lemma check_domain_acc broker errors :
  check_domain broker errors = fmap (app errors) (check_domain broker []).
Proof. unfold check_domain; split_all. Qed.

Lemma check_id_acc broker errors :
  check_id broker errors = fmap (app errors) (check_id broker []).
Proof.
  unfold check_id; split_all; rewrite <- app_assoc; reflexivity.
Qed.

Lemma check_methods_acc methods : forall errors,
  check_methods methods errors = fmap (app errors) (check_methods methods []).
Proof.
  induction methods as [|m rest IH]; intros errors; simpl.
  - rewrite app_nil_r; reflexivity.
  - destruct (in_set m VALID_REMOVAL_METHODS) as [[|]|e]; simpl;
      trivial; try apply IH.
    rewrite (IH (errors ++ _)), (IH [_]), fmap_app_app. reflexivity.
Qed.

Lemma check_method_acc removal errors :
  check_method removal errors = fmap (app errors) (check_method removal []).
Proof.
  unfold check_method.
  destruct (py_in "method" removal) as [[|]|e] eqn:Hin; simpl;
    rewrite ?app_nil_r; trivial.
  destruct (py_getitem removal "method") as [method|e]; simpl; trivial.
  destruct (resolve_methods method) as [|m rest] eqn:Hm.
  - reflexivity.
  - cbn [Py.bind]. apply check_methods_acc.
Qed.

Lemma check_url_acc removal errors :
  check_url removal errors = fmap (app errors) (check_url removal []).
Proof. unfold check_url; split_all. Qed.

Lemma check_jurisdictions_acc items : forall errors,
  check_jurisdictions items errors
  = fmap (app errors) (check_jurisdictions items []).
Proof.
  induction items as [|j rest IH]; intros errors; cbn [check_jurisdictions].
  - simpl. rewrite app_nil_r; reflexivity.
  - destruct j; try apply IH.
    destruct (has_key "law" entries); try apply IH.
    destruct (py_getitem (TTable entries) "law") as [law|]; trivial.
    cbn [Py.bind].
    destruct (in_set law VALID_JURISDICTIONS) as [[|]|e]; simpl;
      trivial; try apply IH.
    rewrite (IH (errors ++ _)), (IH [_]), fmap_app_app. reflexivity.
Qed.

(** ** The removal section, piece by piece *)

Lemma validate_removal_split removal :
  _validate_removal_section removal
  = (found <- check_method removal [] ;;
     fmap (app found) (check_url removal [])).
Proof.
  unfold _validate_removal_section.
  destruct (check_method removal []) as [found|e]; simpl; trivial.
  apply check_url_acc.
Qed.

Lemma check_url_cases removal errors :
  check_url removal [] = Ok errors ->
  errors = [] \/ exists url, errors = [invalid_url url].
Proof.
  unfold check_url.
  destruct (py_in "url" removal) as [[|]|e]; simpl; try discriminate.
  - destruct (py_getitem removal "url") as [url|e]; simpl; try discriminate.
    destruct (py_startswith url _) as [[|]|e]; simpl; try discriminate;
      intros [= <-]; eauto.
  - intros [= <-]; auto.
Qed.

Lemma check_url_not_about_method removal errors :
  check_url removal [] = Ok errors -> filter about_method errors = [].
Proof.
  intros H. destruct (check_url_cases _ _ H) as [->|[url ->]]; reflexivity.
Qed.

Lemma check_url_returns removal :
  url_is_text removal = true ->
  exists errors, check_url (TTable removal) [] = Ok errors.
Proof.
  unfold url_is_text, text_or_absent, check_url, py_in, py_getitem, has_key.
  destruct (lookup "url" removal) as [[]|]; try discriminate; intros _;
    simpl; [|eauto].
  repeat split_step; eauto.
Qed.

(** ** The shape of [removal.method] *)

Lemma text_in_set (m : toml) (allowed : list string) :
  is_text m = true -> in_set m allowed = Ok (existsb (eq_str m) allowed).
Proof. destruct m; try discriminate; reflexivity. Qed.

(** On text entries the loop over the methods is a filter: one diagnostic
    per invalid entry, in the order of the list. *)
Lemma check_methods_text (methods : list toml) :
  forallb is_text methods = true ->
  check_methods methods []
  = Ok (map invalid_method (filter invalid_entry methods)).
Proof.
  induction methods as [|m rest IH]; simpl; trivial.
  intros [Hm Hrest]%andb_prop.
  rewrite (text_in_set _ _ Hm). cbn [Py.bind]. unfold invalid_entry at 1.
  rewrite check_methods_acc, (IH Hrest).
  destruct (negb _); reflexivity.
Qed.

Lemma invalid_method_not_shape (m : toml) : invalid_method m <> method_shape.
Proof. discriminate. Qed.

Lemma no_shape_among_invalid (methods : list toml) :
  ~ In method_shape (map invalid_method methods).
Proof.
  intros [m [H _]]%in_map_iff. exact (invalid_method_not_shape m H).
Qed.

(** The method check once the field is known to be there. *)
Lemma check_method_present (removal : table) (method : toml) errors :
  lookup "method" removal = Some method ->
  check_method (TTable removal) errors
  = (no_method <- match resolve_methods method with
                  | [] => Ok true
                  | _ :: _ => Ok false
                  end ;;
     check_methods (resolve_methods method)
       (if no_method then errors ++ [method_shape] else errors)).
Proof.
  intros Hm. unfold check_method, py_in, py_getitem, has_key.
  rewrite Hm. reflexivity.
Qed.

Lemma check_method_string (removal : table) (s : string) :
  lookup "method" removal = Some (TString s) ->
  check_method (TTable removal) []
  = Ok (if invalid_entry (TString s) then [invalid_method (TString s)] else []).
Proof.
  intros Hm. rewrite (check_method_present _ _ _ Hm).
  cbn [resolve_methods Py.bind].
  rewrite check_methods_text by reflexivity. cbn [filter].
  destruct (invalid_entry _); reflexivity.
Qed.

Lemma check_method_list (removal : table) (items : list toml) :
  lookup "method" removal = Some (TArray items) ->
  items <> [] ->
  forallb is_text items = true ->
  check_method (TTable removal) []
  = Ok (map invalid_method (filter invalid_entry items)).
Proof.
  intros Hm Hne Htext. rewrite (check_method_present _ _ _ Hm).
  cbn [resolve_methods]. destruct items as [|m rest]; [congruence|].
  cbn [Py.bind]. apply check_methods_text. exact Htext.
Qed.

Lemma check_method_rejected (removal : table) (method : toml) :
  lookup "method" removal = Some method ->
  resolve_methods method = [] ->
  check_method (TTable removal) [] = Ok [method_shape].
Proof.
  intros Hm Hnone. rewrite (check_method_present _ _ _ Hm), Hnone.
  reflexivity.
Qed.

(** C4, as the code has it.  With [removal.method] present: a string is
    accepted and checked against the enumeration; a list of strings that
    is not empty is accepted, and its N entries outside the enumeration
    give exactly N enumeration diagnostics, one per entry, in list order;
    a value that is neither a string nor a list, and the empty list, give
    exactly the diagnostic "removal.method must be a string or array of
    strings" and no enumeration diagnostic.  An accepted shape never gets
    the shape diagnostic.  In the result of [_validate_removal_section]
    these diagnostics come first, before those of [url]. *)
Theorem method_shapes (removal : table) (method : toml) :
  lookup "method" removal = Some method ->
  (forall s, method = TString s ->
     check_method (TTable removal) []
     = Ok (if invalid_entry method then [invalid_method method] else []))
  /\ (forall items, method = TArray items -> items <> [] ->
        forallb is_text items = true ->
        exists found,
          check_method (TTable removal) [] = Ok found
          /\ found = map invalid_method (filter invalid_entry items)
          /\ length found = length (filter invalid_entry items)
          /\ ~ In method_shape found)
  /\ (method = TArray [] \/ (is_text method = false /\
                             forall items, method <> TArray items) ->
        check_method (TTable removal) [] = Ok [method_shape])
  /\ _validate_removal_section (TTable removal)
     = (found <- check_method (TTable removal) [] ;;
        fmap (app found) (check_url (TTable removal) []))
  /\ method_shape = "removal.method must be a string or array of strings"
  /\ (forall m,
        invalid_method m
        = ("Invalid removal method '" ++ py_str m ++ "'. Must be one of: "
           ++ "account-required, api, email, mail, phone, web-form")%string).
Proof.
  intros Hm. repeat split.
  - intros s ->. apply check_method_string, Hm.
  - intros items -> Hne Htext.
    rewrite (check_method_list _ _ Hm Hne Htext).
    eexists; repeat split; [apply length_map | apply no_shape_among_invalid].
  - intros [->|[Htext Hlist]]; apply (check_method_rejected _ _ Hm).
    + reflexivity.
    + destruct method; try discriminate; try reflexivity.
      exfalso. exact (Hlist items eq_refl).
  - apply validate_removal_split.
Qed.

Lemma method_shapes_witness :
  lookup "method" (Sample.removal_with "method" Sample.three_methods)
  = Some Sample.three_methods
  /\ exists found,
       check_method
         (TTable (Sample.removal_with "method" Sample.three_methods)) []
       = Ok found
       /\ length found = 2.
Proof.
  split; [reflexivity|].
  destruct (method_shapes
              (Sample.removal_with "method" Sample.three_methods)
              _ eq_refl) as [_ [Hlist _]].
  destruct (Hlist _ eq_refl ltac:(discriminate) eq_refl)
    as [found [Hrun [_ [Hlen _]]]].
  exists found. split; [exact Hrun | exact Hlen].
Defined.

(** C4 as it is stated fails on the code at two values: the empty list is
    a list of strings and still gets the shape diagnostic, and a list with
    an entry that is not a string is none of the accepted shapes and gets
    an enumeration diagnostic instead of the shape diagnostic. *)
Lemma method_shape_claim_fails :
  (string_or_strings (TArray []) = true
   /\ check_method (TTable [("method", TArray [])]) []
      = Ok ["removal.method must be a string or array of strings"])
  /\ (string_or_strings (TArray [TInteger 1]) = false
      /\ check_method (TTable [("method", TArray [TInteger 1])]) []
         = Ok [invalid_method (TInteger 1)]
      /\ invalid_method (TInteger 1) <> method_shape
      /\ invalid_method (TInteger 1)
         = ("Invalid removal method '1'. Must be one of: "
            ++ "account-required, api, email, mail, phone, web-form")%string).
Proof. repeat split. discriminate. Qed.

(** C10.  A removal section whose [method] is the empty list gets exactly
    one diagnostic for that field, "removal.method must be a string or
    array of strings", and no enumeration diagnostic: the method check
    yields that one message, it is the only message about the method in
    what [_validate_removal_section] returns, and the function does return
    when the section's [url], if any, is text. *)
Theorem empty_method_list (removal : table) :
  lookup "method" removal = Some (TArray []) ->
  check_method (TTable removal) []
  = Ok ["removal.method must be a string or array of strings"]
  /\ method_shape = "removal.method must be a string or array of strings"
  /\ _validate_removal_section (TTable removal)
     = fmap (cons method_shape) (check_url (TTable removal) [])
  /\ (forall errors,
        _validate_removal_section (TTable removal) = Ok errors ->
        filter about_method errors = [method_shape]
        /\ filter about_method_value errors = [])
  /\ (url_is_text removal = true ->
      exists errors, _validate_removal_section (TTable removal) = Ok errors).
Proof.
  intros Hm.
  assert (Hcheck : check_method (TTable removal) [] = Ok [method_shape]).
  { unfold check_method, py_in, py_getitem, has_key. rewrite Hm. reflexivity. }
  assert (Hall : _validate_removal_section (TTable removal)
                 = fmap (cons method_shape) (check_url (TTable removal) [])).
  { rewrite validate_removal_split, Hcheck. reflexivity. }
  split; [exact Hcheck|]. split; [reflexivity|].
  repeat split; trivial.
  - rewrite Hall in H.
    destruct (check_url (TTable removal) []) as [found|e] eqn:Hurl;
      [|discriminate].
    injection H as <-. cbn [filter].
    change (about_method method_shape) with true. cbv iota.
    rewrite (check_url_not_about_method _ _ Hurl). reflexivity.
  - rewrite Hall in H.
    destruct (check_url (TTable removal) []) as [found|e] eqn:Hurl;
      [|discriminate].
    injection H as <-.
    destruct (check_url_cases _ _ Hurl) as [->|[url ->]]; reflexivity.
  - intros Hurl. rewrite Hall.
    destruct (check_url_returns _ Hurl) as [found ->]. simpl. eauto.
Qed.

Lemma empty_method_list_witness :
  lookup "method" [("method", TArray []); ("url", TString "ftp://x")]
  = Some (TArray [])
  /\ _validate_removal_section
       (TTable [("method", TArray []); ("url", TString "ftp://x")])
     = Ok ["removal.method must be a string or array of strings";
           "removal.url must be a full URL, got 'ftp://x'"].
Proof.
  split; [reflexivity|].
  destruct (empty_method_list
              [("method", TArray []); ("url", TString "ftp://x")] eq_refl)
    as [_ [_ [Hall _]]].
  rewrite Hall. reflexivity.
Defined.

(** ** Facts about strings *)


Lemma startswith_iff (pre : string) : forall s,
  Str.startswith pre s = true <-> exists rest, s = (pre ++ rest)%string.
Proof.
  induction pre as [|c pre IH]; intros s.
  - split; [intros _; exists s; reflexivity | reflexivity].
  - destruct s as [|c' s]; simpl.
    + split; [discriminate|]. intros [rest H]; discriminate.
    + destruct (Ascii.eqb_spec c c') as [->|Hne]; simpl.
      * rewrite IH. split; intros [rest H]; exists rest; congruence.
      * split; [discriminate|]. intros [rest H]; congruence.
Qed.


Lemma strip_cons (c : ascii) (s : string) :
  strip (String c s)
  = if Ascii.eqb c "-" || Ascii.eqb c "_" then strip s else String c (strip s).
Proof.
  unfold strip. simpl.
  destruct (Ascii.eqb c "-"); reflexivity.
Qed.

Lemma separator_not_alnum (c : ascii) :
  Ascii.eqb c "-" || Ascii.eqb c "_" = true -> Str.is_alnum_char c = false.
Proof.
  intros [H|H]%orb_prop; apply Ascii.eqb_eq in H; subst; reflexivity.
Qed.

Lemma all_strip (s : string) :
  Str.all Str.is_alnum_char (strip s) = Str.all is_id_char s.
Proof.
  induction s as [|c s IH]; trivial.
  rewrite strip_cons. unfold is_id_char at 1. cbn [Str.all].
  destruct (Ascii.eqb c "-" || Ascii.eqb c "_") eqn:Hsep.
  - rewrite IH. rewrite <- orb_assoc, Hsep, orb_true_r. reflexivity.
  - rewrite <- orb_assoc, Hsep, orb_false_r. cbn [Str.all]. rewrite IH.
    reflexivity.
Qed.

Lemma strip_empty (s : string) :
  Str.all is_id_char s = true ->
  Str.is_empty (strip s) = negb (Str.any Str.is_alnum_char s).
Proof.
  induction s as [|c s IH]; trivial.
  cbn [Str.all Str.any]. intros [Hc Hs]%andb_prop. rewrite strip_cons.
  destruct (Ascii.eqb c "-" || Ascii.eqb c "_") eqn:Hsep.
  - rewrite (separator_not_alnum _ Hsep). exact (IH Hs).
  - unfold is_id_char in Hc. rewrite <- orb_assoc, Hsep, orb_false_r in Hc.
    rewrite Hc. reflexivity.
Qed.

Lemma isalnum_strip (s : string) : Str.ascii_isalnum (strip s) = plain s.
Proof.
  unfold Str.ascii_isalnum, plain. rewrite all_strip.
  destruct (Str.all is_id_char s) eqn:Hall.
  - rewrite (strip_empty _ Hall), negb_involutive, andb_true_r. reflexivity.
  - rewrite andb_false_r. reflexivity.
Qed.

Lemma lower_char_fixed (c : ascii) :
  Ascii.eqb c (Str.lower_char c) = negb (Str.is_upper c).
Proof.
  unfold Str.lower_char. destruct (Str.is_upper c) eqn:Hup.
  - apply Ascii.eqb_neq. intros H.
    destruct c as [[] [] [] [] [] [] [] []]; vm_compute in Hup;
      try discriminate; vm_compute in H; discriminate.
  - apply Ascii.eqb_refl.
Qed.

(** The second identifier check: [s != s.lower()] says that [s] has an
    upper-case letter. *)
Lemma differs_from_lower (s : string) :
  String.eqb s (Str.ascii_lower s) = negb (Str.any Str.is_upper s).
Proof.
  induction s as [|c s IH]; trivial.
  cbn [Str.ascii_lower Str.any String.eqb]. rewrite lower_char_fixed, IH.
  rewrite negb_orb. destruct (Str.is_upper c); reflexivity.
Qed.

(** ** ASCII text *)

Lemma ascii_code_small (c : ascii) :
  Str.is_ascii_char c = true -> (N_of_ascii c <? 128)%N = true.
Proof. intros H. exact H. Qed.

Lemma decode_ascii (s : string) :
  Str.is_ascii s = true ->
  Unicode.decode s = map N_of_ascii (list_ascii_of_string s).
Proof.
  unfold Unicode.decode, Str.is_ascii.
  induction s as [|c s IH]; [reflexivity|].
  cbn [Str.all Unicode.decode_from list_ascii_of_string map].
  intros [Hc Hs]%andb_prop. rewrite (ascii_code_small _ Hc), (IH Hs).
  reflexivity.
Qed.

Lemma alnum_ascii (c : ascii) :
  Str.is_ascii_char c = true ->
  Unicode.alnum (N_of_ascii c) = Str.is_alnum_char c.
Proof.
  intros Hc. unfold Unicode.alnum. rewrite (ascii_code_small _ Hc).
  reflexivity.
Qed.

Lemma isalnum_ascii (s : string) :
  Str.is_ascii s = true -> Str.isalnum s = Str.ascii_isalnum s.
Proof.
  intros Hs. unfold Str.isalnum, Str.ascii_isalnum.
  rewrite (decode_ascii _ Hs). destruct s as [|c s]; [reflexivity|].
  cbn [list_ascii_of_string map Str.is_empty negb andb].
  change (N_of_ascii c :: map N_of_ascii (list_ascii_of_string s))
    with (map N_of_ascii (list_ascii_of_string (String c s))).
  revert Hs. generalize (String c s). clear. unfold Str.is_ascii.
  induction s as [|c s IH]; [reflexivity|].
  cbn [Str.all list_ascii_of_string map forallb].
  intros [Hc Hs]%andb_prop. rewrite (alnum_ascii _ Hc), (IH Hs).
  reflexivity.
Qed.

Lemma lower_of_ascii (c : ascii) :
  Str.is_ascii_char c = true ->
  Unicode.encode (Unicode.lower_of (N_of_ascii c))
  = String (Str.lower_char c) EmptyString.
Proof.
  intros Hc. pose proof (ascii_code_small _ Hc) as Hsmall.
  unfold Unicode.lower_of. rewrite Hsmall.
  unfold Str.lower_char, Str.is_upper, Str.between, Str.code.
  cbn [Unicode.encode]. unfold Unicode.encode_one, Unicode.byte.
  destruct ((65 <=? N_of_ascii c)%N && (N_of_ascii c <=? 90)%N) eqn:Hup.
  - apply andb_prop in Hup as [_ Hle]. apply N.leb_le in Hle.
    assert (Hlt : (N_of_ascii c + 32 <? 128)%N = true)
      by (apply N.ltb_lt; lia).
    rewrite Hlt. reflexivity.
  - rewrite Hsmall, ascii_N_embedding. reflexivity.
Qed.

Lemma encode_app (a b : list N) :
  Unicode.encode (a ++ b) = (Unicode.encode a ++ Unicode.encode b)%string.
Proof.
  induction a as [|cp a IH]; [reflexivity|].
  cbn [app Unicode.encode]. rewrite IH.
  induction (Unicode.encode_one cp) as [|c e IHe]; [reflexivity|].
  cbn [String.append]. rewrite IHe. reflexivity.
Qed.

Lemma lower_ascii (s : string) :
  Str.is_ascii s = true -> Str.lower s = Str.ascii_lower s.
Proof.
  intros Hs. unfold Str.lower, Unicode.lower.
  rewrite (decode_ascii _ Hs). revert Hs. unfold Str.is_ascii.
  generalize (@nil N).
  induction s as [|c s IH]; intros before; [reflexivity|].
  cbn [Str.all list_ascii_of_string map Unicode.lower_from Str.ascii_lower].
  intros [Hc Hs]%andb_prop.
  assert (Hsigma : (N_of_ascii c =? 931)%N = false).
  { apply N.eqb_neq. apply ascii_code_small, N.ltb_lt in Hc. lia. }
  rewrite Hsigma, encode_app, (lower_of_ascii _ Hc), (IH _ Hs).
  reflexivity.
Qed.

Lemma strip_ascii (s : string) :
  Str.is_ascii s = true -> Str.is_ascii (strip s) = true.
Proof.
  unfold Str.is_ascii. induction s as [|c s IH]; [reflexivity|].
  rewrite strip_cons. cbn [Str.all]. intros [Hc Hs]%andb_prop.
  destruct (Ascii.eqb c "-" || Ascii.eqb c "_"); [exact (IH Hs)|].
  cbn [Str.all]. rewrite Hc, (IH Hs). reflexivity.
Qed.

(** ** [sorted] *)









(** ** The broker section, piece by piece *)

Lemma validate_broker_split broker :
  _validate_broker_section broker
  = (c <- check_category broker [] ;;
     d <- check_domain broker [] ;;
     i <- check_id broker [] ;;
     Ok (c ++ d ++ i)).
Proof.
  unfold _validate_broker_section.
  destruct (check_category broker []) as [c|e]; simpl; trivial.
  rewrite check_domain_acc.
  destruct (check_domain broker []) as [d|e]; simpl; trivial.
  rewrite check_id_acc.
  destruct (check_id broker []) as [i|e]; simpl; trivial.
  rewrite app_assoc. reflexivity.
Qed.

Lemma check_category_cases broker errors :
  check_category broker [] = Ok errors ->
  errors = [] \/ exists v, errors = [invalid_category v].
Proof.
  unfold check_category. repeat split_step; try discriminate;
    intros [= <-]; eauto.
Qed.

Lemma check_domain_cases broker errors :
  check_domain broker [] = Ok errors ->
  errors = [] \/ exists v, errors = [invalid_domain v].
Proof.
  unfold check_domain. repeat split_step; try discriminate;
    intros [= <-]; eauto.
Qed.

Lemma check_id_cases broker errors :
  check_id broker [] = Ok errors ->
  exists v, incl errors [invalid_id v; not_lowercase v].
Proof.
  unfold check_id.
  destruct (py_in "id" broker) as [[|]|e]; simpl; try discriminate.
  - destruct (py_getitem broker "id") as [v|e]; simpl; try discriminate.
    destruct (py_replace v "-" "") as [s|e]; simpl; try discriminate.
    destruct (py_lower v) as [l|e]; simpl; try discriminate.
    intros H. exists v.
    destruct (negb (Str.isalnum _)), (negb (eq_str v l)); injection H as <-;
      intros x Hx; simpl in *; tauto.
  - intros [= <-]. exists (TInteger 0). intros x [].
Qed.

Lemma filter_none {A : Type} (p : A -> bool) (l l' : list A) :
  incl l l' -> forallb (fun x => negb (p x)) l' = true -> filter p l = [].
Proof.
  intros Hincl Hall. rewrite forallb_forall in Hall.
  induction l as [|x l IH]; trivial. simpl.
  assert (Hx : negb (p x) = true) by (apply Hall, Hincl; left; reflexivity).
  apply negb_true_iff in Hx. rewrite Hx.
  apply IH. intros y Hy. apply Hincl. right. exact Hy.
Qed.




(** What a run of the broker validator that returns is made of. *)
Lemma validate_broker_parts broker errors :
  _validate_broker_section broker = Ok errors ->
  exists c d i,
    check_category broker [] = Ok c /\ check_domain broker [] = Ok d
    /\ check_id broker [] = Ok i /\ errors = c ++ d ++ i.
Proof.
  rewrite validate_broker_split.
  destruct (check_category broker []) as [c|]; [|discriminate].
  destruct (check_domain broker []) as [d|]; [|discriminate].
  destruct (check_id broker []) as [i|]; [|discriminate].
  intros [= <-]. exists c, d, i. auto.
Qed.




Lemma check_category_returns broker :
  scalar_or_absent "category" broker = true ->
  exists errors, check_category (TTable broker) [] = Ok errors.
Proof.
  unfold scalar_or_absent, check_category, py_in, py_getitem, has_key.
  destruct (lookup "category" broker) as [v|]; simpl; [|eauto].
  destruct v; try discriminate; intros _; simpl; repeat split_step; eauto.
Qed.

(** The domain test on text. *)
Lemma domain_rejected_text (d : string) :
  domain_rejected (TString d)
  = Ok (Str.is_empty d || Str.contains " " d || Str.startswith "http" d).
Proof.
  unfold domain_rejected, truthy, py_in, py_startswith, Str.startswith_any.
  destruct (Str.is_empty d); simpl; trivial.
  destruct (Str.contains " " d); simpl; trivial.
  rewrite orb_false_r. reflexivity.
Qed.

Lemma check_domain_text broker d :
  lookup "domain" broker = Some (TString d) ->
  check_domain (TTable broker) []
  = Ok (if Str.is_empty d || Str.contains " " d || Str.startswith "http" d
        then [invalid_domain (TString d)] else []).
Proof.
  intros Hd. unfold check_domain, py_in, py_getitem, has_key. rewrite Hd.
  cbn [Py.bind]. rewrite domain_rejected_text. cbn [Py.bind].
  destruct (_ || _); reflexivity.
Qed.

Lemma check_domain_returns broker :
  text_or_absent "domain" broker = true ->
  exists errors, check_domain (TTable broker) [] = Ok errors.
Proof.
  unfold text_or_absent, check_domain, py_in, py_getitem, has_key.
  destruct (lookup "domain" broker) as [[]|] eqn:Hd; try discriminate;
    intros _; [|simpl; eauto].
  pose proof (check_domain_text _ _ Hd) as Hrun.
  unfold check_domain, py_in, py_getitem, has_key in Hrun.
  rewrite Hd in Hrun. rewrite Hrun. eauto.
Qed.

Lemma check_id_returns broker :
  text_or_absent "id" broker = true ->
  exists errors, check_id (TTable broker) [] = Ok errors.
Proof.
  unfold text_or_absent, check_id, py_in, py_getitem, has_key.
  destruct (lookup "id" broker) as [[]|]; try discriminate; intros _;
    simpl; [|eauto].
  repeat split_step; eauto.
Qed.

Lemma broker_returns broker :
  scalar_or_absent "category" broker = true ->
  text_or_absent "domain" broker = true ->
  text_or_absent "id" broker = true ->
  exists errors, _validate_broker_section (TTable broker) = Ok errors.
Proof.
  intros [c Hc]%check_category_returns [d Hd]%check_domain_returns
         [i Hi]%check_id_returns.
  rewrite validate_broker_split, Hc, Hd, Hi. simpl. eauto.
Qed.

(** ** The category enumeration *)


Lemma in_set_scalar (v : toml) (allowed : list string) :
  is_scalar v = true -> in_set v allowed = Ok (existsb (eq_str v) allowed).
Proof. destruct v; try discriminate; reflexivity. Qed.



(** ** The domain format *)





(** ** The identifier format *)

(** The two checks on an identifier that is text. *)
Lemma check_id_string broker i :
  lookup "id" broker = Some (TString i) ->
  check_id (TTable broker) []
  = Ok ((if Str.isalnum (strip i) then [] else [invalid_id (TString i)])
        ++ (if String.eqb i (Str.lower i) then []
            else [not_lowercase (TString i)])).
Proof.
  intros Hi. unfold check_id, py_in, py_getitem, has_key. rewrite Hi.
  cbn [Py.bind py_replace py_lower eq_str].
  change (Str.replace "_" "" (Str.replace "-" "" i)) with (strip i).
  destruct (Str.isalnum (strip i)), (String.eqb i (Str.lower i));
    reflexivity.
Qed.

(** The two checks on ASCII text. *)
Lemma ascii_id_checks (i : string) :
  Str.is_ascii i = true ->
  Str.isalnum (strip i) = plain i
  /\ String.eqb i (Str.lower i) = negb (Str.any Str.is_upper i).
Proof.
  intros Hi. split.
  - rewrite (isalnum_ascii _ (strip_ascii _ Hi)). apply isalnum_strip.
  - rewrite (lower_ascii _ Hi). apply differs_from_lower.
Qed.

Lemma check_id_text broker i :
  lookup "id" broker = Some (TString i) ->
  Str.is_ascii i = true ->
  check_id (TTable broker) []
  = Ok ((if plain i then [] else [invalid_id (TString i)])
        ++ (if Str.any Str.is_upper i then [not_lowercase (TString i)]
            else [])).
Proof.
  intros Hi Hascii. rewrite (check_id_string _ _ Hi).
  destruct (ascii_id_checks _ Hascii) as [-> ->].
  destruct (Str.any Str.is_upper i); reflexivity.
Qed.




(** ** The required-field check *)

Lemma required_in_section_report data section content fields : forall errors,
  lookup section data = Some (TTable content) ->
  required_in_section data section fields errors
  = Ok (errors ++ map (missing_field section) (absent_fields content fields)).
Proof.
  induction fields as [|field rest IH]; intros errors Hsec.
  - simpl. rewrite app_nil_r. reflexivity.
  - cbn [required_in_section]. unfold py_getitem at 1. rewrite Hsec.
    cbn [Py.bind py_in]. rewrite (IH _ Hsec). unfold absent_fields.
    cbn [filter]. destruct (negb (has_key field content)); simpl;
      [rewrite <- app_assoc|]; reflexivity.
Qed.

Lemma required_sections_report data manifest : forall errors,
  forallb (fun entry => table_or_absent data (fst entry)) manifest = true ->
  required_sections data manifest errors
  = Ok (errors ++ flat_map (section_report data) manifest).
Proof.
  induction manifest as [|[section fields] rest IH]; intros errors Hall.
  - simpl. rewrite app_nil_r. reflexivity.
  - cbn [forallb fst] in Hall. apply andb_prop in Hall as [Hsec Hrest].
    cbn [required_sections flat_map py_in Py.bind]. unfold section_report at 1.
    unfold table_or_absent in Hsec. unfold has_key. cbn [fst snd].
    destruct (lookup section data) as [[]|] eqn:Hlook; try discriminate.
    + cbn [negb]. rewrite (required_in_section_report _ _ _ _ _ Hlook).
      cbn [Py.bind]. rewrite (IH _ Hrest), <- app_assoc. reflexivity.
    + cbn [negb]. rewrite (IH _ Hrest), <- app_assoc. reflexivity.
Qed.

(** On a document whose [broker] and [removal], where present, are
    tables, the check reports a missing section once, and in a section that
    is there each missing field once, in the order of the manifest. *)
Lemma required_fields_report data :
  table_or_absent data "broker" = true ->
  table_or_absent data "removal" = true ->
  _validate_required_fields data
  = Ok (flat_map (section_report data) REQUIRED_FIELDS).
Proof.
  intros Hb Hr. unfold _validate_required_fields.
  rewrite required_sections_report; [reflexivity|].
  simpl. rewrite Hb, Hr. reflexivity.
Qed.

(** *** Records on which the validator returns *)

Lemma check_methods_returns (methods : list toml) :
  forallb is_scalar methods = true ->
  exists errors, check_methods methods [] = Ok errors.
Proof.
  induction methods as [|m rest IH]; [simpl; eauto|].
  cbn [forallb check_methods]. intros [Hm Hrest]%andb_prop.
  rewrite (in_set_scalar _ _ Hm). cbn [Py.bind].
  rewrite check_methods_acc. destruct (IH Hrest) as [errors ->].
  simpl. eauto.
Qed.

Lemma check_method_returns (removal : table) :
  entries_hashable removal = true ->
  exists errors, check_method (TTable removal) [] = Ok errors.
Proof.
  unfold entries_hashable, check_method, py_in, py_getitem, has_key.
  destruct (lookup "method" removal) as [method|]; [|simpl; eauto].
  destruct method as [s| | | | |items|]; intros Hitems;
    cbn [Py.bind resolve_methods]; try (simpl; eauto; fail).
  destruct items as [|m rest]; [simpl; eauto|]. cbn [Py.bind].
  apply check_methods_returns. exact Hitems.
Qed.

Lemma removal_returns (removal : table) :
  entries_hashable removal = true -> url_is_text removal = true ->
  exists errors, _validate_removal_section (TTable removal) = Ok errors.
Proof.
  intros [m Hm]%check_method_returns [u Hu]%check_url_returns.
  rewrite validate_removal_split, Hm, Hu. simpl. eauto.
Qed.

Lemma check_jurisdictions_returns (items : list toml) :
  forallb law_hashable items = true ->
  exists errors, check_jurisdictions items [] = Ok errors.
Proof.
  induction items as [|j rest IH]; [simpl; eauto|].
  cbn [forallb check_jurisdictions]. intros [Hj Hrest]%andb_prop.
  destruct (IH Hrest) as [errors Herrors].
  destruct j; eauto.
  unfold has_key, py_getitem. cbn [law_hashable] in Hj.
  unfold scalar_or_absent in Hj.
  destruct (lookup "law" entries) as [law|]; eauto.
  cbn [Py.bind]. rewrite (in_set_scalar _ _ Hj). cbn [Py.bind].
  rewrite check_jurisdictions_acc, Herrors. simpl. eauto.
Qed.

Lemma validate_data_start (data : table) :
  data <> [] -> validate_broker_toml (Document data) = validate_data data [].
Proof. destruct data; [congruence | reflexivity]. Qed.

(** On a record whose sections are tables, whose [id], [domain] and [url]
    are text, whose category, method entries and laws are scalars, and
    whose [jurisdictions] is a list, the validator returns a list of
    diagnostics. *)
Lemma well_typed_returns (data : table) :
  well_typed data = true ->
  exists errors, validate_broker_toml (Document data) = Ok errors.
Proof.
  unfold well_typed, broker_typed, removal_typed, jurisdictions_typed.
  intros Htyped.
  apply andb_prop in Htyped as [Htyped Hjur].
  apply andb_prop in Htyped as [Hbroker Hremoval].
  destruct data as [|entry data']; [exists []; reflexivity|].
  rewrite validate_data_start by discriminate.
  set (data := entry :: data') in *. clearbody data.
  unfold validate_data, validate_section.
  rewrite required_fields_report
    by (unfold table_or_absent;
        destruct (lookup "broker" data) as [[]|],
                 (lookup "removal" data) as [[]|]; trivial; discriminate).
  cbn [Py.bind app].
  assert (Hb : exists found,
            match lookup "broker" data with
            | Some content =>
                found <- _validate_broker_section content ;;
                Ok (flat_map (section_report data) REQUIRED_FIELDS ++ found)
            | None => Ok (flat_map (section_report data) REQUIRED_FIELDS)
            end = Ok found).
  { destruct (lookup "broker" data) as [[]|]; try discriminate; [|eauto].
    apply andb_prop in Hbroker as [Hbroker Hid].
    apply andb_prop in Hbroker as [Hcat Hdom].
    destruct (broker_returns _ Hcat Hdom Hid) as [found ->]. simpl. eauto. }
  destruct Hb as [found1 ->]. cbn [Py.bind].
  assert (Hr : exists found,
            match lookup "removal" data with
            | Some content =>
                found <- _validate_removal_section content ;;
                Ok (found1 ++ found)
            | None => Ok found1
            end = Ok found).
  { destruct (lookup "removal" data) as [[]|]; try discriminate; [|eauto].
    apply andb_prop in Hremoval as [Hm Hu].
    destruct (removal_returns _ Hm Hu) as [found ->]. simpl. eauto. }
  destruct Hr as [found2 ->]. cbn [Py.bind].
  destruct (lookup "jurisdictions" data) as [[]|]; try discriminate; [|eauto].
  unfold _validate_jurisdictions. cbn [py_iter Py.bind].
  destruct (check_jurisdictions_returns _ Hjur) as [found ->]. simpl. eauto.
Qed.

(** *** Missing fields in the result of the orchestrator *)

Lemma broker_not_missing broker errors :
  _validate_broker_section broker = Ok errors ->
  filter about_missing errors = [].
Proof.
  intros (c & d & i & Hc & Hd & Hi & ->)%validate_broker_parts.
  rewrite !filter_app.
  destruct (check_category_cases _ _ Hc) as [->|[v ->]],
           (check_domain_cases _ _ Hd) as [->|[w ->]];
    destruct (check_id_cases _ _ Hi) as [x Hx];
    cbn [filter app];
    rewrite (filter_none about_missing _ _ Hx); reflexivity.
Qed.

Lemma check_methods_not_missing (methods : list toml) : forall errors,
  check_methods methods [] = Ok errors -> filter about_missing errors = [].
Proof.
  induction methods as [|m rest IH]; intros errors; cbn [check_methods].
  - intros [= <-]. reflexivity.
  - destruct (in_set m VALID_REMOVAL_METHODS) as [valid|e]; [|discriminate].
    cbn [Py.bind]. rewrite check_methods_acc.
    destruct (check_methods rest []) as [found|e] eqn:Hrest; [|discriminate].
    intros [= <-]. rewrite filter_app, (IH _ eq_refl), app_nil_r.
    destruct valid; reflexivity.
Qed.

Lemma removal_not_missing removal errors :
  _validate_removal_section removal = Ok errors ->
  filter about_missing errors = [].
Proof.
  rewrite validate_removal_split.
  destruct (check_method removal []) as [m|e] eqn:Hm; [|discriminate].
  cbn [Py.bind].
  destruct (check_url removal []) as [u|e] eqn:Hu; [|discriminate].
  intros [= <-]. rewrite filter_app.
  assert (filter about_missing u = []) as ->.
  { destruct (check_url_cases _ _ Hu) as [->|[url ->]]; reflexivity. }
  rewrite app_nil_r. revert Hm. unfold check_method.
  destruct (py_in "method" removal) as [[|]|e]; cbn [Py.bind];
    try discriminate; [|intros [= <-]; reflexivity].
  destruct (py_getitem removal "method") as [method|e]; [|discriminate].
  cbn [Py.bind].
  destruct (resolve_methods method) as [|first rest].
  - intros [= <-]. reflexivity.
  - cbn [Py.bind]. apply check_methods_not_missing.
Qed.

Lemma check_jurisdictions_not_missing (items : list toml) : forall errors,
  check_jurisdictions items [] = Ok errors -> filter about_missing errors = [].
Proof.
  induction items as [|j rest IH]; intros errors; cbn [check_jurisdictions].
  - intros [= <-]. reflexivity.
  - destruct j; try apply IH.
    destruct (has_key "law" entries); try apply IH.
    destruct (py_getitem (TTable entries) "law") as [law|e]; [|discriminate].
    cbn [Py.bind].
    destruct (in_set law VALID_JURISDICTIONS) as [valid|e]; [|discriminate].
    cbn [Py.bind]. rewrite check_jurisdictions_acc.
    destruct (check_jurisdictions rest []) as [found|e] eqn:Hrest;
      [|discriminate].
    intros [= <-]. rewrite filter_app, (IH _ eq_refl), app_nil_r.
    destruct valid; reflexivity.
Qed.

Lemma jurisdictions_not_missing jurisdictions errors :
  _validate_jurisdictions jurisdictions = Ok errors ->
  filter about_missing errors = [].
Proof.
  unfold _validate_jurisdictions.
  destruct (py_iter jurisdictions) as [items|e]; [|discriminate].
  apply check_jurisdictions_not_missing.
Qed.

Lemma section_report_missing data entry :
  filter about_missing (section_report data entry) = section_report data entry.
Proof.
  unfold section_report.
  destruct (lookup (fst entry) data) as [[]|]; trivial.
  induction (absent_fields entries (snd entry)) as [|f rest IH]; trivial.
  cbn [map filter]. rewrite IH. reflexivity.
Qed.

Lemma validate_section_missing data section validator errors result :
  (forall content found,
     validator content = Ok found -> filter about_missing found = []) ->
  validate_section data section validator errors = Ok result ->
  filter about_missing result = filter about_missing errors.
Proof.
  intros Hvalidator. unfold validate_section.
  destruct (lookup section data) as [content|]; [|intros [= <-]; reflexivity].
  destruct (validator content) as [found|e] eqn:Hfound; [|discriminate].
  intros [= <-]. rewrite filter_app, (Hvalidator _ _ Hfound), app_nil_r.
  reflexivity.
Qed.

(** On a document that is not empty and whose [broker] and [removal],
    where present, are tables, the diagnostics about missing things in
    the result are one per missing section and, in a section that is
    there, one per missing field, each named [section.field], in the order
    of the manifest. *)
Lemma missing_fields_reported (data : table) (errors : list string) :
  data <> [] ->
  table_or_absent data "broker" = true ->
  table_or_absent data "removal" = true ->
  validate_broker_toml (Document data) = Ok errors ->
  filter about_missing errors = flat_map (section_report data) REQUIRED_FIELDS.
Proof.
  intros Hne Hb Hr. rewrite (validate_data_start _ Hne).
  unfold validate_data. rewrite (required_fields_report _ Hb Hr).
  cbn [Py.bind app].
  destruct (validate_section data "broker" _ _) as [e1|] eqn:H1;
    [|discriminate].
  cbn [Py.bind].
  destruct (validate_section data "removal" _ _) as [e2|] eqn:H2;
    [|discriminate].
  cbn [Py.bind]. intros H3.
  rewrite (validate_section_missing _ _ _ _ _ jurisdictions_not_missing H3).
  rewrite (validate_section_missing _ _ _ _ _ removal_not_missing H2).
  rewrite (validate_section_missing _ _ _ _ _ broker_not_missing H1).
  unfold REQUIRED_FIELDS. cbn [flat_map]. rewrite !filter_app.
  rewrite !section_report_missing. reflexivity.
Qed.

(** C1 at the record the claim singles out.  The required-field check,
    run on the empty mapping, reports both sections missing; the
    orchestrator never runs it there: [if not data] takes the empty
    dictionary for a failed load, and the file passes without a single
    diagnostic. *)
Theorem empty_document_passes :
  _validate_required_fields []
  = Ok [missing_section "broker"; missing_section "removal"]
  /\ validate_broker_toml (Document []) = Ok []
  /\ validate_data [] []
     = Ok [missing_section "broker"; missing_section "removal"].
Proof. repeat split. Qed.

(** C2 at values the loader can produce.  An integer for [broker.id] or
    for [removal.url], or a list for the [law] of a jurisdiction, makes the
    validator raise instead of returning diagnostics: the three places
    have no test of the type, where [removal.method] and the entries of
    [jurisdictions] have one. *)
Theorem ill_typed_value_raises :
  validate_broker_toml
    (Document (Sample.with_broker (Sample.broker_with "id" (TInteger 5))))
  = Raise AttributeError
  /\ validate_broker_toml
       (Document (Sample.with_removal (Sample.removal_with "url" (TInteger 5))))
     = Raise AttributeError
  /\ validate_broker_toml
       (Document
          (Sample.with_jurisdictions
             [TTable [("law", TArray [TString "ccpa"])]]))
     = Raise TypeError.
Proof. repeat split. Qed.

(** ** Valid records *)

Lemma one_of_eq_str (allowed : list string) (s : string) :
  existsb (eq_str (TString s)) allowed = one_of allowed s.
Proof. reflexivity. Qed.

Lemma lowercase_id_plain (i : string) :
  lowercase_id i = true -> plain i = true /\ Str.any Str.is_upper i = false.
Proof.
  unfold lowercase_id, plain. intros [Hall Hany]%andb_prop.
  assert (Hchar : forall c,
            Str.is_lower c || Str.is_digit c = true ->
            Str.is_alnum_char c = true).
  { intros c Hc. unfold Str.is_alnum_char.
    destruct (Str.is_lower c), (Str.is_digit c), (Str.is_upper c);
      try discriminate; reflexivity. }
  assert (Hid : forall c,
            Str.is_lower c || Str.is_digit c || Ascii.eqb c "-"
            || Ascii.eqb c "_" = true ->
            is_id_char c = true).
  { intros c Hc. unfold is_id_char, Str.is_alnum_char.
    destruct (Str.is_lower c), (Str.is_digit c), (Str.is_upper c),
      (Ascii.eqb c "-"), (Ascii.eqb c "_"); try discriminate; reflexivity. }
  assert (Hup : forall c,
            Str.is_lower c || Str.is_digit c || Ascii.eqb c "-"
            || Ascii.eqb c "_" = true ->
            Str.is_upper c = false).
  { intros c Hc. destruct (Str.is_upper c) eqn:Hu; trivial.
    destruct c as [[] [] [] [] [] [] [] []]; vm_compute in Hu;
      try discriminate; vm_compute in Hc; discriminate. }
  split; [apply andb_true_intro; split|].
  - clear Hany. induction i as [|c i IH]; trivial.
    cbn [Str.all] in *. apply andb_prop in Hall as [Hc Hi].
    rewrite (Hid c Hc), (IH Hi). reflexivity.
  - clear Hall. induction i as [|c i IH]; trivial.
    cbn [Str.any] in *. apply orb_prop in Hany as [Hc|Hi].
    + rewrite (Hchar c Hc). reflexivity.
    + rewrite (IH Hi), orb_true_r. reflexivity.
  - clear Hany. induction i as [|c i IH]; trivial.
    cbn [Str.all Str.any] in *. apply andb_prop in Hall as [Hc Hi].
    rewrite (Hup c Hc), (IH Hi). reflexivity.
Qed.

Lemma lowercase_id_ascii (i : string) :
  lowercase_id i = true -> Str.is_ascii i = true.
Proof.
  unfold lowercase_id, Str.is_ascii. intros [Hall _]%andb_prop.
  induction i as [|c i IH]; [reflexivity|].
  cbn [Str.all] in *. apply andb_prop in Hall as [Hc Hi].
  rewrite (IH Hi), andb_true_r. clear IH Hi.
  destruct c as [[] [] [] [] [] [] [] []]; vm_compute in Hc;
    try discriminate; reflexivity.
Qed.

Lemma field_some data section name v :
  field data section name = Some v ->
  exists content,
    lookup section data = Some (TTable content) /\ lookup name content = Some v.
Proof.
  unfold field. destruct (lookup section data) as [[]|]; try discriminate.
  eauto.
Qed.

Lemma text_with_true (p : string -> bool) (v : option toml) :
  text_with p v = true -> exists s, v = Some (TString s) /\ p s = true.
Proof. destruct v as [[]|]; try discriminate. eauto. Qed.

Lemma present_true (v : option toml) : present v = true -> exists x, v = Some x.
Proof. destruct v; try discriminate. eauto. Qed.

Lemma broker_clean (broker : table) :
  text_with lowercase_id (lookup "id" broker) = true ->
  text_with bare_hostname (lookup "domain" broker) = true ->
  text_with (one_of VALID_CATEGORIES) (lookup "category" broker) = true ->
  _validate_broker_section (TTable broker) = Ok [].
Proof.
  intros (i & Hi & Hid)%text_with_true (d & Hd & Hdom)%text_with_true
         (c & Hc & Hcat)%text_with_true.
  rewrite validate_broker_split.
  assert (check_category (TTable broker) [] = Ok []) as ->.
  { unfold check_category, py_in, py_getitem, has_key. rewrite Hc.
    cbn [Py.bind in_set]. rewrite one_of_eq_str, Hcat. reflexivity. }
  rewrite (check_domain_text _ _ Hd),
    (check_id_text _ _ Hi (lowercase_id_ascii _ Hid)).
  unfold bare_hostname in Hdom. apply negb_true_iff in Hdom. rewrite Hdom.
  destruct (lowercase_id_plain _ Hid) as [-> ->]. reflexivity.
Qed.

Lemma in_range_not_invalid (items : list toml) :
  forallb (fun m => text_with (one_of VALID_REMOVAL_METHODS) (Some m)) items
  = true ->
  forallb is_text items = true /\ filter invalid_entry items = [].
Proof.
  induction items as [|m rest IH]; [split; reflexivity|].
  cbn [forallb filter]. intros [Hm Hrest]%andb_prop.
  destruct (IH Hrest) as [-> ->].
  destruct m; try discriminate. unfold invalid_entry.
  rewrite one_of_eq_str. cbn [text_with] in Hm. rewrite Hm. split; reflexivity.
Qed.

Lemma removal_clean (removal : table) :
  methods_in_range (lookup "method" removal) = true ->
  lookup "method" removal <> Some (TArray []) ->
  url_in_range (lookup "url" removal) = true ->
  _validate_removal_section (TTable removal) = Ok [].
Proof.
  intros Hm Hne Hu. rewrite validate_removal_split.
  assert (check_method (TTable removal) [] = Ok []) as ->.
  { destruct (lookup "method" removal) as [method|] eqn:Hlook;
      [|discriminate].
    destruct method; try discriminate.
    - rewrite (check_method_string _ _ Hlook). unfold invalid_entry.
      rewrite one_of_eq_str. cbn [methods_in_range] in Hm. rewrite Hm.
      reflexivity.
    - cbn [methods_in_range] in Hm.
      destruct (in_range_not_invalid _ Hm) as [Htext Hnone].
      rewrite (check_method_list _ _ Hlook); [|congruence | exact Htext].
      rewrite Hnone. reflexivity. }
  cbn [Py.bind]. unfold check_url, py_in, py_getitem, has_key.
  destruct (lookup "url" removal) as [url|]; [|reflexivity].
  cbn [url_in_range] in Hu. apply text_with_true in Hu as (u & [= ->] & Hfull).
  cbn [Py.bind py_startswith]. unfold Str.startswith_any. cbn [existsb].
  unfold full_url in Hfull. rewrite orb_false_r, Hfull. reflexivity.
Qed.

Lemma jurisdictions_clean (items : list toml) :
  forallb law_in_range items = true -> check_jurisdictions items [] = Ok [].
Proof.
  induction items as [|j rest IH]; trivial.
  cbn [forallb check_jurisdictions]. intros [Hj Hrest]%andb_prop.
  destruct j; try exact (IH Hrest).
  unfold has_key, py_getitem. cbn [law_in_range] in Hj.
  destruct (lookup "law" entries) as [law|]; [|exact (IH Hrest)].
  apply text_with_true in Hj as (l & [= ->] & Hl).
  cbn [Py.bind in_set]. rewrite one_of_eq_str, Hl. exact (IH Hrest).
Qed.

(** C3, as the code has it.  A record with all required fields present,
    [broker.category] in the category enumeration, every [removal.method]
    value in the removal-method enumeration and a method list that is not
    empty, [broker.id] made of lower-case letters, digits, hyphens and
    underscores, [broker.domain] not empty, free of spaces and not starting
    with [http], any [removal.url] starting with [http://] or [https://],
    and the [law] of every table of a [jurisdictions] list in the
    jurisdiction enumeration, gets the empty list of diagnostics. *)
Theorem valid_record_accepted (data : table) :
  valid_minimal data = true ->
  method_not_empty data = true ->
  jurisdictions_in_range data = true ->
  validate_broker_toml (Document data) = Ok [].
Proof.
  unfold valid_minimal, method_not_empty.
  intros Hvalid Hne Hjur.
  apply andb_prop in Hvalid as [Hvalid Hurl].
  apply andb_prop in Hvalid as [Hvalid Hmeth].
  apply andb_prop in Hvalid as [Hvalid Hcat].
  apply andb_prop in Hvalid as [Hvalid Hdom].
  apply andb_prop in Hvalid as [Hid Hpresent].
  destruct (text_with_true _ _ Hid) as (i & Hi & _).
  destruct (field_some _ _ _ _ Hi) as (broker & Hbroker & _).
  destruct (present_true _ Hpresent) as (name & Hname).
  assert (Hmethod : exists method, field data "removal" "method" = Some method).
  { destruct (field data "removal" "method"); [eauto | discriminate]. }
  destruct Hmethod as (method & Hmethod).
  destruct (field_some _ _ _ _ Hmethod) as (removal & Hremoval & Hm).
  unfold field in *. rewrite Hbroker in *. rewrite Hremoval in *.
  rewrite validate_data_start by (intros ->; discriminate).
  unfold validate_data, validate_section.
  rewrite required_fields_report
    by (unfold table_or_absent; rewrite ?Hbroker, ?Hremoval; reflexivity).
  assert (Hreq : flat_map (section_report data) REQUIRED_FIELDS = []).
  { unfold REQUIRED_FIELDS, section_report, absent_fields, has_key.
    cbn [flat_map fst snd]. rewrite Hbroker, Hremoval. cbn [filter].
    destruct (lookup "id" broker); [|discriminate].
    rewrite Hname.
    destruct (lookup "domain" broker); [|discriminate].
    destruct (lookup "category" broker); [|discriminate].
    rewrite Hm. reflexivity. }
  rewrite Hreq. cbn [Py.bind app]. rewrite Hbroker.
  rewrite (broker_clean broker) by assumption. cbn [Py.bind app].
  rewrite Hremoval.
  rewrite (removal_clean removal); trivial.
  - cbn [Py.bind app]. unfold jurisdictions_in_range in Hjur.
    destruct (lookup "jurisdictions" data) as [[]|]; try discriminate;
      [|reflexivity].
    unfold _validate_jurisdictions. cbn [py_iter Py.bind].
    rewrite (jurisdictions_clean _ Hjur). reflexivity.
  - rewrite Hm in *. intros [= ->]. discriminate.
Qed.

Lemma valid_record_accepted_witness :
  valid_minimal
    (Sample.with_jurisdictions
       [TTable [("law", TString "ccpa"); ("notes", TInteger 45)];
        TTable [("region", TString "EU")]]) = true
  /\ validate_broker_toml
       (Document
          (Sample.with_jurisdictions
             [TTable [("law", TString "ccpa"); ("notes", TInteger 45)];
              TTable [("region", TString "EU")]])) = Ok [].
Proof.
  split; [reflexivity|].
  apply valid_record_accepted; reflexivity.
Defined.

(** C3 as it is stated fails on the code at two records that meet its
    premises: one carries a jurisdiction whose [law] is outside the
    jurisdiction enumeration, the other an empty method list. *)
Lemma valid_minimal_not_enough :
  (valid_minimal
     (Sample.with_jurisdictions [TTable [("law", TString "xyz")]]) = true
   /\ validate_broker_toml
        (Document (Sample.with_jurisdictions [TTable [("law", TString "xyz")]]))
      = Ok [invalid_jurisdiction (TString "xyz")])
  /\ (valid_minimal (Sample.with_removal [("method", TArray [])]) = true
      /\ validate_broker_toml
           (Document (Sample.with_removal [("method", TArray [])]))
         = Ok [method_shape]).
Proof. repeat split. Qed.

(** ** The batch runner *)

Lemma fmap_andb_true (r : result bool) : fmap (andb true) r = r.
Proof. destruct r; reflexivity. Qed.

Lemma fmap_andb_false (b : bool) (r : result bool) :
  fmap (andb b) (fmap (andb false) r) = fmap (andb false) r.
Proof. destruct r; simpl; [rewrite andb_false_r|]; reflexivity. Qed.

Section Batch.

Variable fs : filesystem.

(** What the loop does with a list of paths does not depend on what came
    before: the lines are added to those printed, and the flag can only be
    lowered. *)
Lemma run_files_state (paths : list string) :
  forall all_valid printed,
    run_files fs paths all_valid printed
    = (printed ++ fst (run_files fs paths true []),
       fmap (andb all_valid) (snd (run_files fs paths true []))).
Proof.
  induction paths as [|filepath rest IH]; intros all_valid printed;
    cbn [run_files app].
  - simpl. rewrite app_nil_r, andb_true_r. reflexivity.
  - destruct (skipped filepath).
    { rewrite (IH all_valid), (IH true [_]). cbn [fst snd app].
      rewrite <- app_assoc, fmap_andb_true. reflexivity. }
    destruct (fs filepath) as [file| |].
    + destruct (validate_broker_toml file) as [[|error errors]|e].
      * rewrite (IH all_valid), (IH true [_]). cbn [fst snd app].
        rewrite <- app_assoc, fmap_andb_true. reflexivity.
      * rewrite (IH false), (IH false (_ :: _)). cbn [fst snd app].
        rewrite <- app_assoc, fmap_andb_false. reflexivity.
      * simpl. rewrite app_nil_r. reflexivity.
    + rewrite (IH false), (IH false [_]). cbn [fst snd app].
      rewrite <- app_assoc, fmap_andb_false. reflexivity.
    + simpl. rewrite app_nil_r. reflexivity.
Qed.

(** The loop over two lists in a row. *)
Lemma run_files_app (before after : list string) :
  forall all_valid printed,
    run_files fs (before ++ after) all_valid printed
    = match run_files fs before all_valid printed with
      | (lines, Ok flag) => run_files fs after flag lines
      | (lines, Raise e) => (lines, Raise e)
      end.
Proof.
  induction before as [|filepath rest IH]; intros all_valid printed;
    cbn [run_files app]; trivial.
  destruct (skipped filepath); [apply IH|].
  destruct (fs filepath) as [file| |]; [|apply IH|reflexivity].
  destruct (validate_broker_toml file) as [[|error errors]|e];
    trivial; apply IH.
Qed.

Lemma run_files_flag (paths : list string) :
  forall all_valid printed,
    snd (run_files fs paths all_valid printed) = Ok true
    <-> all_valid = true /\ forallb (clean fs) paths = true.
Proof.
  induction paths as [|filepath rest IH]; intros all_valid printed;
    cbn [run_files forallb].
  - simpl. split; [intros [= ->]; auto | intros [-> _]; reflexivity].
  - unfold clean at 1. destruct (skipped filepath); cbn [orb andb].
    { apply IH. }
    destruct (fs filepath) as [file| |].
    + destruct (validate_broker_toml file) as [[|error errors]|e];
        cbn [andb].
      * apply IH.
      * rewrite IH. split; intros [? ?]; discriminate.
      * simpl. split; [discriminate | intros [_ ?]; discriminate].
    + rewrite IH. split; intros [? ?]; discriminate.
    + simpl. split; [discriminate | intros [_ ?]; discriminate].
Qed.

(** One turn of the loop is the report of its path, whatever the turn. *)
Lemma run_files_cons (filepath : string) :
  forall (rest : list string) all_valid printed,
    run_files fs (filepath :: rest) all_valid printed
    = match report fs filepath with
      | (lines, Ok valid) =>
          run_files fs rest (all_valid && valid) (printed ++ lines)
      | (lines, Raise e) => (printed ++ lines, Raise e)
      end.
Proof.
  intros rest all_valid printed.
  change (filepath :: rest) with ([filepath] ++ rest).
  rewrite run_files_app, (run_files_state [filepath]). unfold report.
  destruct (run_files fs [filepath] true []) as [lines [valid|e]]; reflexivity.
Qed.

(** When no path of the batch raises, the lines printed are the reports of
    the paths, one after the other. *)
Lemma run_files_reports (paths : list string) :
  (forall filepath, In filepath paths ->
     forall e, snd (report fs filepath) <> Raise e) ->
  forall all_valid printed,
    fst (run_files fs paths all_valid printed)
    = printed ++ flat_map (fun filepath => fst (report fs filepath)) paths.
Proof.
  induction paths as [|filepath rest IH]; intros Hok all_valid printed.
  - simpl. rewrite app_nil_r. reflexivity.
  - rewrite run_files_cons. cbn [flat_map].
    pose proof (Hok filepath (or_introl eq_refl)) as Hhere.
    destruct (report fs filepath) as [lines [valid|e]]; cbn [fst snd] in *.
    + rewrite IH, app_assoc; [reflexivity|].
      intros q Hq. apply Hok. right. exact Hq.
    + exfalso. exact (Hhere e eq_refl).
Qed.

Lemma exit_status_main (args : list string) :
  args <> [] ->
  exit_status (main fs args)
  = match snd (run_files fs args true []) with
    | Ok true => 0%Z
    | _ => 1%Z
    end.
Proof.
  intros Hne. unfold main, exit_status.
  destruct args as [|a rest]; [congruence|].
  destruct (run_files fs (a :: rest) true []) as [lines [[|]|e]]; reflexivity.
Qed.

Lemma clean_iff (filepath : string) :
  clean fs filepath = true
  <-> (skipped filepath = false ->
       exists file, fs filepath = Present file
                    /\ validate_broker_toml file = Ok []).
Proof.
  unfold clean. destruct (skipped filepath); cbn [orb].
  - split; [discriminate | reflexivity].
  - destruct (fs filepath) as [file| |].
    + destruct (validate_broker_toml file) as [[|error errors]|e] eqn:Hv.
      * split; [eauto | reflexivity].
      * split; [discriminate|]. intros H.
        destruct (H eq_refl) as [file' [[= <-] ?]]. congruence.
      * split; [discriminate|]. intros H.
        destruct (H eq_refl) as [file' [[= <-] ?]]. congruence.
    + split; [discriminate|]. intros H.
      destruct (H eq_refl) as [file' [? _]]. discriminate.
    + split; [discriminate|]. intros H.
      destruct (H eq_refl) as [file' [? _]]. discriminate.
Qed.

(** The run of a batch is the loop on its paths. *)
Lemma main_run (args : list string) :
  args <> [] ->
  main fs args
  = (fst (run_files fs args true []),
     fmap (fun all_valid : bool => if all_valid then 0%Z else 1%Z)
       (snd (run_files fs args true []))).
Proof.
  intros Hne. unfold main. destruct args as [|a rest]; [congruence|].
  destruct (run_files fs (a :: rest) true []); reflexivity.
Qed.

(** When no path raises, the loop gets through all of them. *)
Lemma run_files_quiet (paths : list string) :
  (forall q, In q paths -> forall e, snd (report fs q) <> Raise e) ->
  exists flag,
    run_files fs paths true []
    = (flat_map (fun q => fst (report fs q)) paths, Ok flag).
Proof.
  induction paths as [|filepath rest IH]; intros Hok.
  - exists true. reflexivity.
  - rewrite run_files_cons. cbn [flat_map].
    pose proof (Hok filepath (or_introl eq_refl)) as Hhere.
    destruct (report fs filepath) as [lines [valid|e]]; cbn [fst snd] in *.
    + destruct IH as [flag Hrest].
      { intros q Hq. apply Hok. right. exact Hq. }
      rewrite run_files_state, Hrest. cbn [fst snd app fmap Py.bind].
      exists (valid && flag). reflexivity.
    + exfalso. exact (Hhere e eq_refl).
Qed.

End Batch.

(** What the loop prints and decides for one path. *)
Lemma report_cases (fs : filesystem) (filepath : string) :
  report fs filepath
  = if skipped filepath then ([skip_line filepath], Ok true)
    else match fs filepath with
         | Unreachable => ([], Raise OSError)
         | Absent => ([not_found_line filepath], Ok false)
         | Present file =>
             match validate_broker_toml file with
             | Ok [] => ([ok_line filepath], Ok true)
             | Ok errors =>
                 (error_line filepath :: map bullet_line errors, Ok false)
             | Raise e => ([], Raise e)
             end
         end.
Proof.
  unfold report. cbn [run_files app].
  destruct (skipped filepath); [reflexivity|].
  destruct (fs filepath) as [file| |]; [|reflexivity..].
  destruct (validate_broker_toml file) as [[|error errors]|e]; reflexivity.
Qed.

Lemma report_raises (fs : filesystem) (filepath : string) (e : exn) :
  snd (report fs filepath) = Raise e
  <-> skipped filepath = false
      /\ (fs filepath = Unreachable /\ e = OSError
          \/ exists file, fs filepath = Present file
                          /\ validate_broker_toml file = Raise e).
Proof.
  rewrite report_cases. destruct (skipped filepath).
  - split; [discriminate | intros [? _]; discriminate].
  - destruct (fs filepath) as [file| |].
    + destruct (validate_broker_toml file) as [[|error errors]|e'] eqn:Hv;
        cbn [snd].
      * split; [discriminate|].
        intros [_ [[H _]|[f [[= <-] H]]]]; [discriminate | congruence].
      * split; [discriminate|].
        intros [_ [[H _]|[f [[= <-] H]]]]; [discriminate | congruence].
      * split.
        -- intros [= ->]. eauto.
        -- intros [_ [[H _]|[f [[= <-] H]]]]; [discriminate | congruence].
    + split; [discriminate|].
      intros [_ [[H _]|[f [H _]]]]; discriminate.
    + cbn [snd]. split.
      * intros [= <-]. auto.
      * intros [_ [[_ ->]|[f [H _]]]]; [reflexivity | discriminate].
Qed.

Lemma report_raises_nothing (fs : filesystem) (filepath : string) (e : exn) :
  snd (report fs filepath) = Raise e -> report fs filepath = ([], Raise e).
Proof.
  rewrite report_cases. destruct (skipped filepath); [discriminate|].
  destruct (fs filepath) as [file| |].
  - destruct (validate_broker_toml file) as [[|error errors]|e'];
      try discriminate.
    cbn [snd]. intros [= ->]. reflexivity.
  - discriminate.
  - cbn [snd]. intros [= ->]. reflexivity.
Qed.

Lemma run_files_raises (fs : filesystem) (paths : list string) (e : exn) :
  forall all_valid printed,
    snd (run_files fs paths all_valid printed) = Raise e ->
    exists before filepath after,
      paths = before ++ filepath :: after
      /\ (forall q, In q before -> forall e', snd (report fs q) <> Raise e')
      /\ snd (report fs filepath) = Raise e.
Proof.
  induction paths as [|p rest IH]; intros all_valid printed.
  - discriminate.
  - rewrite run_files_cons.
    destruct (report fs p) as [lines [valid|e']] eqn:Hp.
    + intros H. destruct (IH _ _ H) as (before & q & after & -> & Hok & Hq).
      exists (p :: before), q, after. repeat split; trivial.
      intros x [<-|Hx]; [rewrite Hp; discriminate | apply Hok, Hx].
    + cbn [snd]. intros [= ->]. exists [], p, rest.
      repeat split; [intros x [] | rewrite Hp; reflexivity].
Qed.

Lemma run_files_stops (fs : filesystem) (before : list string) :
  forall filepath after e all_valid printed,
    (forall q, In q before -> forall e', snd (report fs q) <> Raise e') ->
    snd (report fs filepath) = Raise e ->
    run_files fs (before ++ filepath :: after) all_valid printed
    = (printed ++ flat_map (fun q => fst (report fs q)) before, Raise e).
Proof.
  induction before as [|p rest IH]; intros filepath after e all_valid printed
                                           Hok Hraise; cbn [app flat_map].
  - rewrite run_files_cons, (report_raises_nothing _ _ _ Hraise).
    rewrite !app_nil_r. reflexivity.
  - rewrite run_files_cons.
    pose proof (Hok p (or_introl eq_refl)) as Hp.
    destruct (report fs p) as [lines [valid|e']]; cbn [fst snd] in *.
    + rewrite (IH filepath after e); trivial.
      * rewrite app_assoc. reflexivity.
      * intros q Hq. apply Hok. right. exact Hq.
    + exfalso. exact (Hp e' eq_refl).
Qed.

(** C8, as the code has it.  For a batch with a path argument in it: the
    exit code is 0 exactly when every path that is not skipped exists and
    validates to the empty list, and 1 otherwise; so a path that is not
    skipped and for which [exists()] is false makes it 1.  Such a path
    does not end the run: after the reports of the paths before it and its
    own line, the loop does with the paths after it what it does with them
    on their own, and only the code is lowered.  When no path makes the
    run raise, every path is reported, the output being the reports of the
    paths one after the other.  A path makes the run raise when it is not
    skipped and [exists()] raises on it, or it exists and loading or
    validating it raises; the run ends at the first such path with that
    exception, after the reports of the paths before it, and nothing is
    printed for that path or any later one.  In a batch of three whose
    second file does not exist, the first and third are reported valid and
    the exit code is 1. *)
Theorem missing_file_fails_batch (fs : filesystem) (args : list string) :
  args <> [] ->
  (exit_status (main fs args) = 0%Z
   <-> forall filepath, In filepath args -> skipped filepath = false ->
         exists file, fs filepath = Present file
                      /\ validate_broker_toml file = Ok [])
  /\ (exit_status (main fs args) = 0%Z \/ exit_status (main fs args) = 1%Z)
  /\ (forall filepath, In filepath args -> skipped filepath = false ->
        fs filepath = Absent -> exit_status (main fs args) = 1%Z)
  /\ (forall before filepath after,
        args = before ++ filepath :: after ->
        skipped filepath = false -> fs filepath = Absent ->
        (forall q, In q before ->
           forall e, snd (report fs q) <> Raise e) ->
        report fs filepath = ([not_found_line filepath], Ok false)
        /\ fst (main fs args)
           = flat_map (fun q => fst (report fs q)) before
             ++ not_found_line filepath :: fst (run_files fs after true [])
        /\ snd (main fs args)
           = fmap (fun _ : bool => 1%Z) (snd (run_files fs after true [])))
  /\ ((forall filepath, In filepath args ->
         forall e, snd (report fs filepath) <> Raise e) ->
      fst (main fs args)
      = flat_map (fun filepath => fst (report fs filepath)) args
      /\ exists code, snd (main fs args) = Ok code)
  /\ (forall before filepath after e,
        args = before ++ filepath :: after ->
        (forall q, In q before ->
           forall e', snd (report fs q) <> Raise e') ->
        snd (report fs filepath) = Raise e ->
        main fs args = (flat_map (fun q => fst (report fs q)) before, Raise e)
        /\ exit_status (main fs args) = 1%Z)
  /\ (forall filepath e,
        snd (report fs filepath) = Raise e
        <-> skipped filepath = false
            /\ (fs filepath = Unreachable /\ e = OSError
                \/ exists file, fs filepath = Present file
                                /\ validate_broker_toml file = Raise e))
  /\ (forall filepath,
        not_found_line filepath
        = ("ERROR: File not found: " ++ filepath)%string)
  /\ main sample_fs
       ["brokers/spokeo.toml"; "brokers/gone.toml"; "brokers/intelius.toml"]
     = (["OK: brokers/spokeo.toml"; "ERROR: File not found: brokers/gone.toml";
         "OK: brokers/intelius.toml"], Ok 1%Z)
  /\ main sample_fs
       ["brokers/gone.toml"; "brokers/draft.toml"; "brokers/spokeo.toml"]
     = (["ERROR: File not found: brokers/gone.toml";
         "ERROR: brokers/draft.toml";
         "  - Invalid removal method 'fax'. Must be one of: account-required, api, email, mail, phone, web-form";
         "OK: brokers/spokeo.toml"], Ok 1%Z).
Proof.
  intros Hne.
  assert (Hzero : exit_status (main fs args) = 0%Z
                  <-> forallb (clean fs) args = true).
  { rewrite (exit_status_main fs _ Hne).
    pose proof (run_files_flag fs args true []) as Hflag.
    destruct (snd (run_files fs args true [])) as [[|]|e].
    - split; [intros _; apply Hflag; reflexivity | reflexivity].
    - split; [discriminate|]. intros H.
      assert (Ok false = Ok true) by (apply Hflag; auto). discriminate.
    - split; [discriminate|]. intros H.
      assert (@Raise bool e = Ok true) by (apply Hflag; auto). discriminate. }
  assert (Hall : forallb (clean fs) args = true
                 <-> forall filepath, In filepath args ->
                       skipped filepath = false ->
                       exists file, fs filepath = Present file
                                    /\ validate_broker_toml file = Ok []).
  { rewrite forallb_forall. split; intros H filepath Hin.
    - apply clean_iff, H, Hin.
    - apply clean_iff, H, Hin. }
  assert (Hcode : exit_status (main fs args) = 0%Z
                  \/ exit_status (main fs args) = 1%Z).
  { rewrite (exit_status_main fs _ Hne).
    destruct (snd (run_files fs args true [])) as [[|]|e]; auto. }
  split; [rewrite Hzero; exact Hall|]. split; [exact Hcode|].
  split; [|split; [|split; [|split; [|split; [|repeat split]]]]].
  - intros filepath Hin Hskip Hnone. destruct Hcode as [Hcode|Hcode]; trivial.
    apply Hzero in Hcode.
    destruct (proj1 Hall Hcode _ Hin Hskip) as [file [Hsome _]]. congruence.
  - intros before filepath after -> Hskip Hnone Hok.
    split; [rewrite report_cases, Hskip, Hnone; reflexivity|].
    rewrite (main_run fs _ Hne), run_files_app.
    destruct (run_files_quiet fs before Hok) as [flag ->].
    cbn [run_files]. rewrite Hskip, Hnone, run_files_state.
    cbn [fst snd]. rewrite <- app_assoc. split; [reflexivity|].
    destruct (snd (run_files fs after true [])); reflexivity.
  - intros Hok. rewrite (main_run fs _ Hne).
    destruct (run_files_quiet fs args Hok) as [flag ->]. cbn [fst snd].
    split; [reflexivity|]. eexists. reflexivity.
  - intros before filepath after e -> Hok Hraise.
    assert (Hrun : main fs (before ++ filepath :: after)
                   = (flat_map (fun q => fst (report fs q)) before, Raise e)).
    { rewrite (main_run fs _ Hne).
      rewrite (run_files_stops fs before filepath after e true [] Hok Hraise).
      reflexivity. }
    split; [exact Hrun|]. rewrite Hrun. reflexivity.
  - intros filepath e. apply report_raises.
Qed.

Lemma missing_file_fails_batch_witness :
  ["brokers/gone.toml"; "brokers/draft.toml"] <> []
  /\ exit_status (main sample_fs ["brokers/gone.toml"; "brokers/draft.toml"])
     = 1%Z
  /\ fst (main sample_fs ["brokers/gone.toml"; "brokers/draft.toml"])
     = [not_found_line "brokers/gone.toml"; error_line "brokers/draft.toml";
        bullet_line (invalid_method (TString "fax"))].
Proof.
  split; [discriminate|]. split; [|reflexivity].
  destruct (missing_file_fails_batch sample_fs
              ["brokers/gone.toml"; "brokers/draft.toml"]
              ltac:(discriminate)) as [_ [_ [Hmissing _]]].
  apply (Hmissing "brokers/gone.toml"); [left|..]; reflexivity.
Defined.

(** C8 as it is stated fails on the code at a batch in which a path after
    the missing one makes the run raise: the run ends there, and the path
    that follows is not processed, although on its own it is reported
    valid.  The directory [brokers] cannot be opened as a file; the path
    in [locked] cannot even be looked for, and ends the run although no
    file is found at it. *)
Lemma later_path_not_reported :
  main sample_fs ["brokers/gone.toml"; "brokers"; "brokers/spokeo.toml"]
  = (["ERROR: File not found: brokers/gone.toml"], Raise OSError)
  /\ report sample_fs "brokers/spokeo.toml"
     = (["OK: brokers/spokeo.toml"], Ok true)
  /\ ~ In "OK: brokers/spokeo.toml"
         (fst (main sample_fs
                 ["brokers/gone.toml"; "brokers"; "brokers/spokeo.toml"]))
  /\ main sample_fs ["locked/spokeo.toml"; "brokers/spokeo.toml"]
     = ([], Raise OSError).
Proof.
  repeat split. intros [H|[]]. discriminate H.
Qed.

(** Without a path argument nothing is run: the usage line, and 1. *)
Example no_argument_is_usage_error (fs : filesystem) :
  main fs [] = ([usage_line], Ok 1%Z).
Proof. reflexivity. Qed.

(** A file that makes the validator raise ends the run where it is. *)
Example raising_file_ends_run :
  main sample_fs
    ["brokers/gone.toml"; "brokers/typo.toml"; "brokers/spokeo.toml"]
  = ([not_found_line "brokers/gone.toml"], Raise AttributeError).
Proof. reflexivity. Qed.

(** ** Skipped files *)





(** * Further properties *)

(** ** The batch runner, continued *)

Lemma exit_zero_iff (fs : filesystem) (args : list string) :
  args <> [] ->
  exit_status (main fs args) = 0%Z <-> forallb (clean fs) args = true.
Proof.
  intros Hne. rewrite (exit_status_main fs _ Hne).
  pose proof (run_files_flag fs args true []) as Hflag.
  destruct (snd (run_files fs args true [])) as [[|]|e].
  - split; [intros _; apply Hflag; reflexivity | reflexivity].
  - split; [discriminate|]. intros H.
    assert (Ok false = Ok true) by (apply Hflag; auto). discriminate.
  - split; [discriminate|]. intros H.
    assert (@Raise bool e = Ok true) by (apply Hflag; auto). discriminate.
Qed.

Lemma exit_zero_or_one (fs : filesystem) (args : list string) :
  exit_status (main fs args) = 0%Z \/ exit_status (main fs args) = 1%Z.
Proof.
  destruct args as [|a rest]; [right; reflexivity|].
  rewrite exit_status_main by discriminate.
  destruct (snd (run_files fs (a :: rest) true [])) as [[|]|e]; auto.
Qed.

Lemma exit_status_of_clean (fs : filesystem) (args : list string) :
  args <> [] ->
  exit_status (main fs args) = if forallb (clean fs) args then 0%Z else 1%Z.
Proof.
  intros Hne. pose proof (exit_zero_iff fs args Hne) as Hiff.
  destruct (forallb (clean fs) args).
  - apply Hiff. reflexivity.
  - destruct (exit_zero_or_one fs args) as [H0|H1]; trivial.
    apply Hiff in H0. discriminate.
Qed.

(** X1.  The exit code does not depend on the order in which the paths
    are given, nor on a path being given more than once: two argument
    lists that hold the same paths exit alike, although a file that makes
    the validator raise ends one run earlier than the other. *)
Theorem exit_status_order (fs : filesystem) (args args' : list string) :
  args <> [] -> args' <> [] ->
  (forall filepath, In filepath args <-> In filepath args') ->
  exit_status (main fs args) = exit_status (main fs args').
Proof.
  intros Hne Hne' Hsame.
  rewrite !exit_status_of_clean by assumption.
  assert (Heq : forallb (clean fs) args = forallb (clean fs) args').
  { apply eq_true_iff_eq. rewrite !forallb_forall.
    split; intros H x Hx; apply H, Hsame, Hx. }
  rewrite Heq. reflexivity.
Qed.

Lemma exit_status_order_witness :
  ["brokers/spokeo.toml"; "brokers/typo.toml"; "brokers/gone.toml"] <> []
  /\ main sample_fs
       ["brokers/spokeo.toml"; "brokers/typo.toml"; "brokers/gone.toml"]
     = ([ok_line "brokers/spokeo.toml"], Raise AttributeError)
  /\ main sample_fs
       ["brokers/gone.toml"; "brokers/spokeo.toml"; "brokers/gone.toml";
        "brokers/typo.toml"]
     = ([not_found_line "brokers/gone.toml"; ok_line "brokers/spokeo.toml";
         not_found_line "brokers/gone.toml"], Raise AttributeError)
  /\ exit_status
       (main sample_fs
          ["brokers/spokeo.toml"; "brokers/typo.toml"; "brokers/gone.toml"])
     = exit_status
         (main sample_fs
            ["brokers/gone.toml"; "brokers/spokeo.toml"; "brokers/gone.toml";
             "brokers/typo.toml"]).
Proof.
  split; [discriminate|]. split; [reflexivity|]. split; [reflexivity|].
  apply exit_status_order; try discriminate.
  intros filepath. simpl. tauto.
Defined.

(** X2.  A run raises exactly when, for some path that is not skipped,
    [exists()] raises, or the path exists and makes the loader or the
    validator raise; it then ends at the first such path, with that
    exception, having printed the full reports of the paths before it and
    nothing about that path or the paths after it. *)
Theorem run_ends_at_first_raise (fs : filesystem) (args : list string)
    (e : exn) :
  (snd (main fs args) = Raise e
   <-> exists before filepath after,
         args = before ++ filepath :: after
         /\ (forall q, In q before ->
               forall e', snd (report fs q) <> Raise e')
         /\ skipped filepath = false
         /\ (fs filepath = Unreachable /\ e = OSError
             \/ exists file, fs filepath = Present file
                             /\ validate_broker_toml file = Raise e))
  /\ (forall before filepath after,
        args = before ++ filepath :: after ->
        (forall q, In q before -> forall e', snd (report fs q) <> Raise e') ->
        snd (report fs filepath) = Raise e ->
        main fs args
        = (flat_map (fun q => fst (report fs q)) before, Raise e)).
Proof.
  assert (Hstop : forall before filepath after,
            args = before ++ filepath :: after ->
            (forall q, In q before ->
               forall e', snd (report fs q) <> Raise e') ->
            snd (report fs filepath) = Raise e ->
            main fs args
            = (flat_map (fun q => fst (report fs q)) before, Raise e)).
  { intros before filepath after -> Hok Hraise. unfold main.
    destruct (before ++ filepath :: after) as [|a rest] eqn:Hargs.
    - destruct before; discriminate.
    - rewrite <- Hargs, (run_files_stops fs before filepath after e); trivial. }
  split; [|exact Hstop]. split.
  - unfold main. destruct args as [|a rest]; [discriminate|].
    destruct (run_files fs (a :: rest) true []) as [lines outcome] eqn:Hrun.
    cbn [snd]. intros Hout.
    assert (Hraise : snd (run_files fs (a :: rest) true []) = Raise e).
    { rewrite Hrun. destruct outcome; [discriminate|].
      injection Hout as ->. reflexivity. }
    destruct (run_files_raises _ _ _ _ _ Hraise)
      as (before & q & after & Heq & Hok & Hq).
    apply report_raises in Hq as [Hskip Hq].
    exists before, q, after. auto.
  - intros (before & q & after & Heq & Hok & Hskip & Hq).
    rewrite (Hstop before q after Heq Hok); [reflexivity|].
    apply report_raises. auto.
Qed.

Lemma run_ends_at_first_raise_witness :
  main sample_fs
    ["brokers/draft.toml"; "locked/spokeo.toml"; "brokers/spokeo.toml"]
  = ([error_line "brokers/draft.toml";
      bullet_line (invalid_method (TString "fax"))], Raise OSError)
  /\ snd (main sample_fs ["README.md"; "brokers"; "brokers/typo.toml"])
     = Raise OSError.
Proof.
  split.
  - apply (proj2 (run_ends_at_first_raise sample_fs
                    ["brokers/draft.toml"; "locked/spokeo.toml";
                     "brokers/spokeo.toml"] OSError)
             ["brokers/draft.toml"] "locked/spokeo.toml"
             ["brokers/spokeo.toml"]).
    + reflexivity.
    + intros q [<-|[]] e'. discriminate.
    + reflexivity.
  - apply (proj2 (proj1 (run_ends_at_first_raise sample_fs
                           ["README.md"; "brokers"; "brokers/typo.toml"]
                           OSError))).
    exists ["README.md"], "brokers", ["brokers/typo.toml"].
    split; [reflexivity|]. split.
    + intros q [<-|[]] e'. discriminate.
    + split; [reflexivity|]. right. eexists. split; reflexivity.
Defined.

Lemma bullets_not_status (errors : list string) :
  filter status_line (map bullet_line errors) = []
  /\ existsb failure_line (map bullet_line errors) = false.
Proof. induction errors as [|x l [IH1 IH2]]; split; trivial. Qed.

(** The report of a path that does not raise: its status text, and the
    bullets under it. *)
Lemma report_texts (fs : filesystem) (filepath : string) :
  (forall e, snd (report fs filepath) <> Raise e) ->
  fst (report fs filepath) = status_of fs filepath :: bullets_of fs filepath.
Proof.
  rewrite report_cases. unfold status_of, bullets_of.
  destruct (skipped filepath); [reflexivity|].
  destruct (fs filepath) as [file| |].
  - destruct (validate_broker_toml file) as [[|error errors]|e]; cbn [fst snd].
    + reflexivity.
    + reflexivity.
    + intros H. exfalso. exact (H e eq_refl).
  - reflexivity.
  - intros H. exfalso. exact (H OSError eq_refl).
Qed.

Lemma status_of_report (fs : filesystem) (filepath : string) :
  (forall e, snd (report fs filepath) <> Raise e) ->
  filter status_line (fst (report fs filepath)) = [status_of fs filepath]
  /\ existsb failure_line (fst (report fs filepath))
     = negb (match snd (report fs filepath) with
             | Ok valid => valid
             | Raise _ => false
             end).
Proof.
  rewrite report_cases. unfold status_of. destruct (skipped filepath).
  { intros _. split; reflexivity. }
  destruct (fs filepath) as [file| |]; [|intros _; split; reflexivity|].
  - destruct (validate_broker_toml file) as [[|error errors]|e];
      cbn [fst snd].
    + intros _. split; reflexivity.
    + intros _.
      destruct (bullets_not_status (error :: errors)) as [Hnone Hfail].
      split.
      * cbn [filter]. change (status_line (error_line filepath)) with true.
        cbv iota. rewrite Hnone. reflexivity.
      * reflexivity.
    + intros H. exfalso. exact (H e eq_refl).
  - intros H. exfalso. exact (H OSError eq_refl).
Qed.

Lemma run_files_outcome (fs : filesystem) (paths : list string) :
  (forall q, In q paths -> forall e, snd (report fs q) <> Raise e) ->
  snd (run_files fs paths true [])
  = Ok (forallb (fun q => match snd (report fs q) with
                          | Ok valid => valid
                          | Raise _ => false
                          end) paths).
Proof.
  induction paths as [|p rest IH]; intros Hok; trivial.
  rewrite run_files_cons. pose proof (Hok p (or_introl eq_refl)) as Hp.
  cbn [forallb].
  destruct (report fs p) as [lines [valid|e]]; cbn [fst snd] in *.
  - rewrite run_files_state. cbn [snd].
    rewrite IH by (intros q Hq; apply Hok; right; exact Hq).
    cbn [fmap Py.bind andb]. reflexivity.
  - exfalso. exact (Hp e eq_refl).
Qed.

(** The four status texts, and the bullets. *)
Lemma status_texts (fs : filesystem) (filepath : string) :
  (status_of fs filepath = ("SKIP: " ++ filepath ++ " (documentation)")%string
   \/ status_of fs filepath = ("ERROR: File not found: " ++ filepath)%string
   \/ status_of fs filepath = ("OK: " ++ filepath)%string
   \/ status_of fs filepath = ("ERROR: " ++ filepath)%string)
  /\ status_line (status_of fs filepath) = true
  /\ Forall (fun text => Str.startswith "  - " text = true
                         /\ status_line text = false)
       (bullets_of fs filepath)
  /\ (bullets_of fs filepath <> [] ->
      status_of fs filepath = ("ERROR: " ++ filepath)%string).
Proof.
  assert (Hbullets : forall errors,
            Forall (fun text => Str.startswith "  - " text = true
                                /\ status_line text = false)
              (map bullet_line errors)).
  { intros errors. apply Forall_forall. intros text Htext.
    apply in_map_iff in Htext as [msg [<- _]]. split; reflexivity. }
  unfold status_of, bullets_of.
  destruct (skipped filepath).
  { split; [auto|]. split; [reflexivity|]. split; [constructor|].
    intros H. contradiction. }
  destruct (fs filepath) as [file| |].
  - destruct (validate_broker_toml file) as [[|error errors]|e].
    + split; [auto|]. split; [reflexivity|]. split; [constructor|].
      intros H. contradiction.
    + split; [auto 6|]. split; [reflexivity|]. split; [apply Hbullets|].
      reflexivity.
    + split; [auto 6|]. split; [reflexivity|]. split; [constructor|].
      reflexivity.
  - split; [auto|]. split; [reflexivity|]. split; [constructor|].
    intros H. contradiction.
  - split; [auto|]. split; [reflexivity|]. split; [constructor|].
    intros H. contradiction.
Qed.

(** The status text and the bullets, case by case. *)
Lemma status_cases (fs : filesystem) (q : string) :
  (skipped q = true ->
   status_of fs q = ("SKIP: " ++ q ++ " (documentation)")%string
   /\ bullets_of fs q = [])
  /\ (skipped q = false -> fs q = Absent ->
      status_of fs q = ("ERROR: File not found: " ++ q)%string
      /\ bullets_of fs q = [])
  /\ (forall file, skipped q = false -> fs q = Present file ->
        validate_broker_toml file = Ok [] ->
        status_of fs q = ("OK: " ++ q)%string /\ bullets_of fs q = [])
  /\ (forall file errors, skipped q = false -> fs q = Present file ->
        validate_broker_toml file = Ok errors -> errors <> [] ->
        status_of fs q = ("ERROR: " ++ q)%string
        /\ bullets_of fs q = map (fun error => ("  - " ++ error)%string) errors).
Proof.
  unfold status_of, bullets_of. split; [|split; [|split]].
  - intros ->. split; reflexivity.
  - intros -> ->. split; reflexivity.
  - intros file -> -> ->. split; reflexivity.
  - intros file errors -> -> -> Herrors.
    destruct errors as [|error errors]; [contradiction|]. split; reflexivity.
Qed.

(** X3.  For a batch with a path argument in it in which no path makes
    the run raise, what is printed is, for each path argument in the order
    of the arguments, one status text ([SKIP: <path> (documentation)],
    [ERROR: File not found: <path>], [OK: <path>] or [ERROR: <path>])
    followed by its bullets, which start with two spaces and a hyphen and
    come only under [ERROR: <path>]; and the value [main] returns is 1
    exactly when some text printed starts with [ERROR:], and 0
    otherwise. *)
Theorem one_status_line_per_path (fs : filesystem) (args : list string) :
  args <> [] ->
  (forall q, In q args -> forall e, snd (report fs q) <> Raise e) ->
  fst (main fs args)
  = flat_map (fun q => status_of fs q :: bullets_of fs q) args
  /\ filter status_line (fst (main fs args)) = map (status_of fs) args
  /\ (forall q,
        (status_of fs q = ("SKIP: " ++ q ++ " (documentation)")%string
         \/ status_of fs q = ("ERROR: File not found: " ++ q)%string
         \/ status_of fs q = ("OK: " ++ q)%string
         \/ status_of fs q = ("ERROR: " ++ q)%string)
        /\ status_line (status_of fs q) = true
        /\ Forall (fun text => Str.startswith "  - " text = true
                               /\ status_line text = false)
             (bullets_of fs q)
        /\ (bullets_of fs q <> [] ->
            status_of fs q = ("ERROR: " ++ q)%string))
  /\ (exists code, snd (main fs args) = Ok code
        /\ (code = 1%Z
            <-> existsb failure_line (fst (main fs args)) = true)
        /\ (code = 0%Z
            <-> existsb failure_line (fst (main fs args)) = false))
  /\ (forall q,
        (skipped q = true ->
         status_of fs q = ("SKIP: " ++ q ++ " (documentation)")%string
         /\ bullets_of fs q = [])
        /\ (skipped q = false -> fs q = Absent ->
            status_of fs q = ("ERROR: File not found: " ++ q)%string
            /\ bullets_of fs q = [])
        /\ (forall file, skipped q = false -> fs q = Present file ->
              validate_broker_toml file = Ok [] ->
              status_of fs q = ("OK: " ++ q)%string /\ bullets_of fs q = [])
        /\ (forall file errors, skipped q = false -> fs q = Present file ->
              validate_broker_toml file = Ok errors -> errors <> [] ->
              status_of fs q = ("ERROR: " ++ q)%string
              /\ bullets_of fs q
                 = map (fun error => ("  - " ++ error)%string) errors))
  /\ (forall text,
        failure_line text = true
        <-> exists rest, text = ("ERROR: " ++ rest)%string).
Proof.
  intros Hne Hok.
  assert (Hlines : fst (main fs args)
                   = flat_map (fun q => fst (report fs q)) args).
  { unfold main. destruct args as [|a rest]; [congruence|].
    pose proof (run_files_reports fs (a :: rest) Hok true []) as H.
    destruct (run_files fs (a :: rest) true []) as [lines outcome].
    exact H. }
  assert (Hcode : snd (main fs args)
                  = Ok (if forallb (fun q => match snd (report fs q) with
                                             | Ok valid => valid
                                             | Raise _ => false
                                             end) args
                        then 0%Z else 1%Z)).
  { unfold main. destruct args as [|a rest]; [congruence|].
    pose proof (run_files_outcome fs (a :: rest) Hok) as H.
    destruct (run_files fs (a :: rest) true []) as [lines outcome].
    cbn [snd] in *. rewrite H. reflexivity. }
  rewrite Hlines, Hcode. clear Hlines Hcode Hne.
  assert (Hfail : existsb failure_line
                    (flat_map (fun q => fst (report fs q)) args)
                  = negb (forallb (fun q => match snd (report fs q) with
                                            | Ok valid => valid
                                            | Raise _ => false
                                            end) args)).
  { induction args as [|p rest IH]; trivial.
    cbn [flat_map forallb]. rewrite existsb_app, negb_andb.
    rewrite IH by (intros q Hq; apply Hok; right; exact Hq).
    rewrite (proj2 (status_of_report fs p (Hok p (or_introl eq_refl)))).
    reflexivity. }
  split; [|split; [|split; [exact (status_texts fs)|split;
    [|split; [exact (status_cases fs)|intros text; apply startswith_iff]]]]].
  - clear Hfail. induction args as [|p rest IH]; trivial.
    cbn [flat_map]. rewrite IH
      by (intros q Hq; apply Hok; right; exact Hq).
    rewrite (report_texts fs p (Hok p (or_introl eq_refl))). reflexivity.
  - clear Hfail. induction args as [|p rest IH]; trivial.
    cbn [flat_map map]. rewrite filter_app, IH
      by (intros q Hq; apply Hok; right; exact Hq).
    rewrite (proj1 (status_of_report fs p (Hok p (or_introl eq_refl)))).
    reflexivity.
  - eexists. split; [reflexivity|]. rewrite Hfail.
    destruct (forallb _ args); cbn [negb]; split; split;
      try discriminate; reflexivity.
Qed.

Lemma one_status_line_per_path_witness :
  ["brokers/draft.toml"; "README.md"; "brokers/spokeo.toml"] <> []
  /\ fst (main sample_fs
            ["brokers/draft.toml"; "README.md"; "brokers/spokeo.toml"])
     = [error_line "brokers/draft.toml";
        bullet_line (invalid_method (TString "fax"));
        skip_line "README.md"; ok_line "brokers/spokeo.toml"]
  /\ filter status_line
       (fst (main sample_fs
               ["brokers/draft.toml"; "README.md"; "brokers/spokeo.toml"]))
     = [error_line "brokers/draft.toml"; skip_line "README.md";
        ok_line "brokers/spokeo.toml"].
Proof.
  split; [discriminate|]. split; [reflexivity|].
  refine (proj1 (proj2 (one_status_line_per_path sample_fs
                   ["brokers/draft.toml"; "README.md"; "brokers/spokeo.toml"]
                   _ _))).
  - discriminate.
  - intros q [<-|[<-|[<-|[]]]] e; discriminate.
Defined.

(** ** Path names *)

Lemma split_not_empty (sep : ascii) (s : string) : Str.split sep s <> [].
Proof.
  destruct s as [|c s]; simpl; [discriminate|].
  destruct (Ascii.eqb c sep); [discriminate|].
  destruct (Str.split sep s); discriminate.
Qed.

Lemma split_app (sep : ascii) (a b : string) :
  Str.split sep (a ++ String sep b) = Str.split sep a ++ Str.split sep b.
Proof.
  induction a as [|c a IH]; simpl.
  - rewrite Ascii.eqb_refl. reflexivity.
  - destruct (Ascii.eqb c sep); [rewrite IH; reflexivity|].
    rewrite IH. destruct (Str.split sep a) as [|piece pieces] eqn:Ha.
    + exfalso. exact (split_not_empty sep a Ha).
    + reflexivity.
Qed.

Lemma split_plain (sep : ascii) (s : string) :
  Str.any (Ascii.eqb sep) s = false -> Str.split sep s = [s].
Proof.
  induction s as [|c s IH]; simpl; trivial.
  intros [Hc Hs]%orb_false_elim. rewrite Ascii.eqb_sym, Hc, (IH Hs).
  reflexivity.
Qed.

Lemma last_app_one {A : Type} (l : list A) (x d : A) : last (l ++ [x]) d = x.
Proof.
  induction l as [|y l IH]; trivial.
  cbn [app]. destruct (l ++ [x]) eqn:Hl; [destruct l; discriminate|].
  exact IH.
Qed.

(** X4.  The name under which a path is matched against the skip list is
    its last component, whatever directory comes before it and with or
    without a slash behind it: for a file name proper, the path
    [dir/name] has the name [name], so whether it is skipped depends on
    [name] alone. *)
Theorem path_name_in_directory (dir base : string) :
  plain_name base = true ->
  path_name base = base
  /\ path_name (dir ++ "/" ++ base) = base
  /\ path_name (dir ++ "/" ++ base ++ "/") = base
  /\ skipped (dir ++ "/" ++ base) = existsb (String.eqb base) SKIP_FILES.
Proof.
  unfold plain_name. intros [[Hne Hdot]%andb_prop Hslash]%andb_prop.
  apply negb_true_iff in Hslash.
  assert (Hcomp : path_component base = true).
  { unfold path_component. rewrite Hne, Hdot. reflexivity. }
  assert (Hbase : path_name base = base).
  { unfold path_name. rewrite (split_plain _ _ Hslash). cbn [filter].
    rewrite Hcomp. reflexivity. }
  assert (Hdir : path_name (dir ++ "/" ++ base) = base).
  { unfold path_name. change (dir ++ "/" ++ base)%string
      with (dir ++ String "/" base)%string.
    rewrite split_app, filter_app, (split_plain _ _ Hslash). cbn [filter].
    rewrite Hcomp. apply last_app_one. }
  repeat split; trivial.
  - unfold path_name.
    change (dir ++ "/" ++ base ++ "/")%string
      with (dir ++ String "/" (base ++ String "/" ""))%string.
    rewrite split_app, split_app, !filter_app, (split_plain _ _ Hslash).
    cbn [filter Str.split]. rewrite Hcomp. cbn [path_component Str.is_empty].
    cbn [negb andb app]. apply last_app_one.
  - unfold skipped. rewrite Hdir. reflexivity.
Qed.

Lemma path_name_in_directory_witness :
  plain_name "schema.toml" = true
  /\ skipped ("../data/brokers" ++ "/" ++ "schema.toml") = true.
Proof.
  split; [reflexivity|].
  destruct (path_name_in_directory "../data/brokers" "schema.toml" eq_refl)
    as [_ [_ [_ Hskip]]].
  rewrite Hskip. reflexivity.
Defined.

(** ** The URL of the removal section *)

Lemma check_methods_cases (methods : list toml) : forall errors,
  check_methods methods [] = Ok errors ->
  exists invalid, errors = map invalid_method invalid.
Proof.
  induction methods as [|m rest IH]; intros errors; cbn [check_methods].
  - intros [= <-]. exists []. reflexivity.
  - destruct (in_set m VALID_REMOVAL_METHODS) as [valid|e]; [|discriminate].
    cbn [Py.bind]. rewrite check_methods_acc.
    destruct (check_methods rest []) as [found|e]; [|discriminate].
    destruct (IH _ eq_refl) as [invalid ->]. intros [= <-].
    destruct valid; [exists invalid | exists (m :: invalid)]; reflexivity.
Qed.

Lemma check_method_cases (removal : toml) (errors : list string) :
  check_method removal [] = Ok errors ->
  errors = [method_shape]
  \/ exists invalid, errors = map invalid_method invalid.
Proof.
  unfold check_method.
  destruct (py_in "method" removal) as [[|]|e]; cbn [Py.bind];
    try discriminate; [|intros [= <-]; right; exists []; reflexivity].
  destruct (py_getitem removal "method") as [method|e]; [|discriminate].
  cbn [Py.bind]. destruct (resolve_methods method) as [|first rest].
  - intros [= <-]. left. reflexivity.
  - cbn [Py.bind]. intros H. right. exact (check_methods_cases _ _ H).
Qed.

Lemma check_method_not_about_url (removal : toml) (errors : list string) :
  check_method removal [] = Ok errors -> filter about_url errors = [].
Proof.
  intros [->|[invalid ->]]%check_method_cases; [reflexivity|].
  induction invalid as [|m rest IH]; trivial.
Qed.

Lemma has_scheme_iff (u : string) :
  Str.startswith_any ["http://"; "https://"] u = true <-> has_scheme u.
Proof.
  unfold Str.startswith_any, has_scheme. cbn [existsb].
  rewrite orb_false_r, orb_true_iff, !startswith_iff. tauto.
Qed.

(** X5.  With [removal.url] present and text, the URL check yields no
    diagnostic when the text starts with [http://] or [https://] (in
    lower case, and with nothing asked of what follows), and otherwise
    exactly one, which quotes the value as it is; any returned result of
    [_validate_removal_section] holds just that about the URL, after the
    diagnostics of the method. *)
Theorem url_format (removal : table) (u : string) :
  lookup "url" removal = Some (TString u) ->
  (exists found,
     check_url (TTable removal) [] = Ok found
     /\ (found = [] <-> has_scheme u)
     /\ (found = [invalid_url (TString u)] <-> ~ has_scheme u)
     /\ forall errors,
          _validate_removal_section (TTable removal) = Ok errors ->
          filter about_url errors = found
          /\ exists before, errors = before ++ found)
  /\ invalid_url (TString u)
     = ("removal.url must be a full URL, got '" ++ u ++ "'")%string.
Proof.
  intros Hu. split; [|reflexivity].
  assert (Hrun : check_url (TTable removal) []
                 = Ok (if Str.startswith_any ["http://"; "https://"] u
                       then [] else [invalid_url (TString u)])).
  { unfold check_url, py_in, py_getitem, has_key. rewrite Hu.
    cbn [Py.bind py_startswith].
    destruct (Str.startswith_any _ u); reflexivity. }
  pose proof (has_scheme_iff u) as Hiff.
  assert (Hall : forall found errors,
            check_url (TTable removal) [] = Ok found ->
            filter about_url found = found ->
            _validate_removal_section (TTable removal) = Ok errors ->
            filter about_url errors = found
            /\ exists before, errors = before ++ found).
  { intros found errors Hfound Hfilter. rewrite validate_removal_split.
    destruct (check_method (TTable removal) []) as [m|e] eqn:Hm;
      [|discriminate].
    cbn [Py.bind]. rewrite Hfound. intros [= <-].
    rewrite filter_app, (check_method_not_about_url _ _ Hm), Hfilter.
    split; [reflexivity | exists m; reflexivity]. }
  destruct (Str.startswith_any ["http://"; "https://"] u) eqn:Hfull.
  - assert (Hyes : has_scheme u) by (apply Hiff; reflexivity).
    exists []. split; [exact Hrun|]. split; [tauto|].
    split; [split; [discriminate | tauto]|].
    intros errors. apply Hall; trivial.
  - assert (Hno : ~ has_scheme u) by (rewrite <- Hiff; discriminate).
    exists [invalid_url (TString u)]. split; [exact Hrun|].
    split; [split; [discriminate | tauto]|]. split; [tauto|].
    intros errors. apply Hall; trivial.
Qed.

Lemma url_format_witness :
  lookup "url" (Sample.removal_with "url" (TString "HTTPS://spokeo.com/optout"))
  = Some (TString "HTTPS://spokeo.com/optout")
  /\ _validate_removal_section
       (TTable (Sample.removal_with "url" (TString "HTTPS://spokeo.com/optout")))
     = Ok [invalid_url (TString "HTTPS://spokeo.com/optout")]
  /\ exists found,
       check_url
         (TTable
            (Sample.removal_with "url" (TString "HTTPS://spokeo.com/optout")))
         [] = Ok found
       /\ (found = [] <-> has_scheme "HTTPS://spokeo.com/optout").
Proof.
  split; [reflexivity|]. split; [reflexivity|].
  destruct (url_format
              (Sample.removal_with "url" (TString "HTTPS://spokeo.com/optout"))
              "HTTPS://spokeo.com/optout" eq_refl)
    as [[found [Hrun [Hnone _]]] _].
  exists found. split; [exact Hrun | exact Hnone].
Defined.

(** ** The jurisdictions *)







(** ** When the validator raises *)



















(** ** Unknown sections and fields *)

Lemma broker_reads (t t' : table) :
  (forall field, In field ["id"; "name"; "domain"; "category"] ->
     lookup field t = lookup field t') ->
  _validate_broker_section (TTable t) = _validate_broker_section (TTable t').
Proof.
  intros Hsame.
  unfold _validate_broker_section, check_category, check_domain, check_id,
    py_in, py_getitem, has_key.
  rewrite (Hsame "category"), (Hsame "domain"), (Hsame "id");
    simpl; tauto.
Qed.

Lemma removal_reads (t t' : table) :
  (forall field, In field ["method"; "url"] ->
     lookup field t = lookup field t') ->
  _validate_removal_section (TTable t) = _validate_removal_section (TTable t').
Proof.
  intros Hsame.
  unfold _validate_removal_section, check_method, check_url,
    py_in, py_getitem, has_key.
  rewrite (Hsame "method"), (Hsame "url"); simpl; tauto.
Qed.

Lemma required_in_section_reads (data data' : table) (section : string)
    (known fields : list string) :
  alike known (lookup section data) (lookup section data') ->
  incl fields known ->
  forall errors,
    required_in_section data section fields errors
    = required_in_section data' section fields errors.
Proof.
  intros Halike. induction fields as [|field rest IH]; intros Hincl errors;
    trivial.
  cbn [required_in_section]. unfold py_getitem.
  assert (Hrest : incl rest known).
  { intros x Hx. apply Hincl. right. exact Hx. }
  destruct Halike as [<-|(t & t' & -> & -> & Hsame)].
  - destruct (lookup section data) as [content|]; trivial. cbn [Py.bind].
    destruct (py_in field content) as [present|e]; trivial. cbn [Py.bind].
    apply IH, Hrest.
  - cbn [Py.bind py_in]. unfold has_key.
    rewrite (Hsame field) by (apply Hincl; left; reflexivity).
    apply IH, Hrest.
Qed.

Lemma alike_present (known : list string) (v v' : option toml) :
  alike known v v' -> present v = present v'.
Proof. intros [<-|(t & t' & -> & -> & _)]; reflexivity. Qed.

Lemma validate_section_reads (data data' : table) (section : string)
    (known : list string) (validator : toml -> result (list string)) :
  alike known (lookup section data) (lookup section data') ->
  (forall t t',
     (forall field, In field known -> lookup field t = lookup field t') ->
     validator (TTable t) = validator (TTable t')) ->
  forall errors,
    validate_section data section validator errors
    = validate_section data' section validator errors.
Proof.
  intros [Heq|(t & t' & Ht & Ht' & Hsame)] Hvalidator errors;
    unfold validate_section.
  - rewrite Heq. reflexivity.
  - rewrite Ht, Ht', (Hvalidator t t' Hsame). reflexivity.
Qed.

Lemma required_sections_reads (data data' : table)
    (manifest : list (string * list string)) :
  (forall section fields, In (section, fields) manifest ->
     exists known,
       alike known (lookup section data) (lookup section data')
       /\ incl fields known) ->
  forall errors,
    required_sections data manifest errors
    = required_sections data' manifest errors.
Proof.
  induction manifest as [|[section fields] rest IH]; intros Hsame errors;
    trivial.
  cbn [required_sections py_in Py.bind].
  destruct (Hsame section fields (or_introl eq_refl))
    as (known & Halike & Hincl).
  assert (Hrest : forall errors',
            required_sections data rest errors'
            = required_sections data' rest errors').
  { apply IH. intros s f Hin. apply Hsame. right. exact Hin. }
  pose proof (alike_present _ _ _ Halike) as Hpresent.
  unfold has_key. unfold present in Hpresent.
  destruct (lookup section data) eqn:Hl, (lookup section data') eqn:Hl';
    try discriminate; cbn [negb]; [|apply Hrest].
  rewrite (required_in_section_reads data data' section known fields);
    [|rewrite Hl, Hl'; exact Halike | exact Hincl].
  destruct (required_in_section data' section fields errors); trivial.
  apply Hrest.
Qed.

(** X8.  The validator reads nothing of a document but the sections
    [broker], [removal] and [jurisdictions], and in the first two nothing
    but the fields [id], [name], [domain], [category] and [method],
    [url]: two documents that are not empty and agree on these get the
    same result, diagnostics and exceptions alike.  Other sections and
    fields are never reported; yet a document that holds only such
    sections fails, with both required sections missing. *)
Theorem unknown_ignored (data data' : table) :
  data <> [] -> data' <> [] ->
  same_known data data' ->
  validate_broker_toml (Document data) = validate_broker_toml (Document data').
Proof.
  intros Hne Hne' (Hbroker & Hremoval & Hjur).
  rewrite !validate_data_start by assumption.
  unfold validate_data.
  assert (Hreq : _validate_required_fields data
                 = _validate_required_fields data').
  { apply required_sections_reads. unfold REQUIRED_FIELDS.
    intros section fields [[= <- <-]|[[= <- <-]|[]]].
    - eexists. split; [exact Hbroker|]. intros x Hx. exact Hx.
    - eexists. split; [exact Hremoval|]. intros x [<-|[]]. left. reflexivity. }
  rewrite Hreq.
  destruct (_validate_required_fields data') as [missing|e]; trivial.
  cbn [Py.bind app].
  rewrite (validate_section_reads data data' "broker" _ _ Hbroker broker_reads).
  destruct (validate_section data' "broker" _ _) as [e1|e]; trivial.
  cbn [Py.bind].
  rewrite (validate_section_reads data data' "removal" _ _ Hremoval
             removal_reads).
  destruct (validate_section data' "removal" _ _) as [e2|e]; trivial.
  cbn [Py.bind]. unfold validate_section. rewrite Hjur. reflexivity.
Qed.

Lemma unknown_ignored_witness :
  Sample.spokeo <> []
  /\ validate_broker_toml
       (Document
          [("metadata", TTable [("verified", TBoolean true)]);
           ("broker", TTable (Sample.broker ++ [("parent", TString "x")]));
           ("removal", TTable (("notes", TInteger 3) :: Sample.removal))])
     = Ok []
  /\ validate_broker_toml (Document [("metadata", TTable [])])
     = Ok [missing_section "broker"; missing_section "removal"].
Proof.
  split; [discriminate|]. split; [|reflexivity].
  rewrite <- (unknown_ignored Sample.spokeo).
  - reflexivity.
  - discriminate.
  - discriminate.
  - repeat split.
    + right. eexists _, _. split; [reflexivity|]. split; [reflexivity|].
      intros field [<-|[<-|[<-|[<-|[]]]]]; reflexivity.
    + right. eexists _, _. split; [reflexivity|]. split; [reflexivity|].
      intros field [<-|[<-|[]]]; reflexivity.
Defined.

(** ** The order of the diagnostics *)

Lemma within_nil (lo hi : nat) : within lo hi [].
Proof. split; constructor. Qed.

Lemma within_one (lo hi : nat) (msg : string) :
  lo <= rank msg -> rank msg <= hi -> within lo hi [msg].
Proof. intros Hlo Hhi. split; repeat constructor; assumption. Qed.

Lemma within_same (k : nat) (errors : list string) :
  Forall (fun msg => rank msg = k) errors -> within k k errors.
Proof.
  induction 1 as [|msg l Hmsg Hl [IHs IHb]]; [apply within_nil|].
  split; cbn [map]; constructor; trivial.
  - rewrite Forall_map. rewrite Hmsg.
    eapply Forall_impl; [|exact Hl]. intros x ->. constructor.
  - rewrite Hmsg. split; constructor.
Qed.

Lemma within_app (a b c d : nat) (l1 l2 : list string) :
  within a b l1 -> within c d l2 -> a <= c -> b <= c -> b <= d ->
  within a d (l1 ++ l2).
Proof.
  intros [Hs1 Hb1] [Hs2 Hb2] Hac Hbc Hbd. split.
  - rewrite map_app. induction l1 as [|x l1 IH]; [exact Hs2|].
    cbn [map app] in *. inversion Hs1 as [|? ? Hs1' Hx]; subst.
    inversion Hb1 as [|? ? [_ Hxb] Hb1']; subst.
    constructor; [apply IH; assumption|].
    apply Forall_app. split; [exact Hx|].
    rewrite Forall_map. eapply Forall_impl; [|exact Hb2].
    intros y [Hy _]. cbv beta.
    exact (Nat.le_trans _ _ _ Hxb (Nat.le_trans _ _ _ Hbc Hy)).
  - apply Forall_app. split.
    + eapply Forall_impl; [|exact Hb1]. intros x [Hlo Hhi].
      split; [exact Hlo | exact (Nat.le_trans _ _ _ Hhi Hbd)].
    + eapply Forall_impl; [|exact Hb2]. intros x [Hlo Hhi].
      split; [exact (Nat.le_trans _ _ _ Hac Hlo) | exact Hhi].
Qed.

Lemma within_weaken (a b c d : nat) (errors : list string) :
  within a b errors -> c <= a -> b <= d -> within c d errors.
Proof.
  intros [Hs Hb] Hca Hbd. split; [exact Hs|].
  eapply Forall_impl; [|exact Hb]. intros x [Hlo Hhi].
  split; [exact (Nat.le_trans _ _ _ Hca Hlo)
         | exact (Nat.le_trans _ _ _ Hhi Hbd)].
Qed.

Lemma required_in_section_kinds (data : table) (section : string)
    (fields : list string) : forall errors result,
  required_in_section data section fields errors = Ok result ->
  exists extra,
    result = errors ++ extra /\ Forall (fun msg => rank msg = 0) extra.
Proof.
  induction fields as [|field rest IH]; intros errors result;
    cbn [required_in_section].
  - intros [= <-]. exists []. rewrite app_nil_r. auto.
  - destruct (py_getitem (TTable data) section) as [content|e];
      [|discriminate].
    cbn [Py.bind].
    destruct (py_in field content) as [present|e]; [|discriminate].
    cbn [Py.bind]. intros H. destruct (IH _ _ H) as (extra & -> & Hextra).
    destruct present; cbn [negb].
    + exists extra. auto.
    + exists (missing_field section field :: extra).
      rewrite <- app_assoc. split; [reflexivity|].
      constructor; [reflexivity | exact Hextra].
Qed.

Lemma required_sections_kinds (data : table)
    (manifest : list (string * list string)) : forall errors result,
  required_sections data manifest errors = Ok result ->
  exists extra,
    result = errors ++ extra /\ Forall (fun msg => rank msg = 0) extra.
Proof.
  induction manifest as [|[section fields] rest IH]; intros errors result;
    cbn [required_sections].
  - intros [= <-]. exists []. rewrite app_nil_r. auto.
  - destruct (py_in section (TTable data)) as [[|]|e]; cbn [Py.bind negb];
      [| |discriminate].
    + destruct (required_in_section data section fields errors)
        as [errors'|e] eqn:Hin; [|discriminate].
      cbn [Py.bind]. intros H.
      destruct (required_in_section_kinds _ _ _ _ _ Hin)
        as (extra1 & -> & H1).
      destruct (IH _ _ H) as (extra2 & -> & H2).
      exists (extra1 ++ extra2). rewrite app_assoc. split; [reflexivity|].
      apply Forall_app. auto.
    + intros H. destruct (IH _ _ H) as (extra & -> & Hextra).
      exists (missing_section section :: extra).
      rewrite <- app_assoc. split; [reflexivity|].
      constructor; [reflexivity | exact Hextra].
Qed.

Lemma check_id_shapes (broker : toml) (errors : list string) :
  check_id broker [] = Ok errors ->
  exists v,
    errors = [] \/ errors = [invalid_id v] \/ errors = [not_lowercase v]
    \/ errors = [invalid_id v; not_lowercase v].
Proof.
  unfold check_id.
  destruct (py_in "id" broker) as [[|]|e]; cbn [Py.bind]; try discriminate.
  - destruct (py_getitem broker "id") as [v|e]; cbn [Py.bind];
      [|discriminate].
    destruct (py_replace v "-" "") as [s|e]; cbn [Py.bind]; [|discriminate].
    destruct (py_lower v) as [l|e]; cbn [Py.bind]; [|discriminate].
    intros H. exists v.
    destruct (negb (Str.isalnum _)), (negb (eq_str v l));
      injection H as <-; auto.
  - intros [= <-]. exists (TInteger 0). auto.
Qed.

Lemma check_jurisdictions_cases (items : list toml) : forall errors,
  check_jurisdictions items [] = Ok errors ->
  exists laws, errors = map invalid_jurisdiction laws.
Proof.
  induction items as [|j rest IH]; intros errors; cbn [check_jurisdictions].
  - intros [= <-]. exists []. reflexivity.
  - destruct j; try apply IH.
    destruct (has_key "law" entries); try apply IH.
    destruct (py_getitem (TTable entries) "law") as [law|e]; [|discriminate].
    cbn [Py.bind].
    destruct (in_set law VALID_JURISDICTIONS) as [valid|e]; [|discriminate].
    cbn [Py.bind]. rewrite check_jurisdictions_acc.
    destruct (check_jurisdictions rest []) as [found|e]; [|discriminate].
    destruct (IH _ eq_refl) as [laws ->]. intros [= <-].
    destruct valid; [exists laws | exists (law :: laws)]; reflexivity.
Qed.

Lemma broker_kinds (broker : toml) (errors : list string) :
  _validate_broker_section broker = Ok errors -> within 1 4 errors.
Proof.
  intros H. apply validate_broker_parts in H.
  destruct H as (c & d & i & Hc & Hd & Hi & Herrors). subst errors.
  assert (Hcw : within 1 1 c).
  { destruct (check_category_cases _ _ Hc) as [->|[v ->]];
      [apply within_nil | apply within_one; repeat constructor]. }
  assert (Hdw : within 2 2 d).
  { destruct (check_domain_cases _ _ Hd) as [->|[v ->]];
      [apply within_nil | apply within_one; repeat constructor]. }
  assert (Hiw : within 3 4 i).
  { destruct (check_id_shapes _ _ Hi) as [v [-> | [-> | [-> | -> ]]]].
    - apply within_nil.
    - apply within_one; repeat constructor.
    - apply within_one; repeat constructor.
    - apply (within_app 3 3 4 4 [invalid_id v] [not_lowercase v]);
        [apply within_one | apply within_one | ..]; repeat constructor. }
  apply (within_app 1 1 2 4); [exact Hcw | | repeat constructor ..].
  apply (within_app 2 2 3 4); [exact Hdw | exact Hiw | repeat constructor ..].
Qed.

Lemma removal_kinds (removal : toml) (errors : list string) :
  _validate_removal_section removal = Ok errors -> within 5 7 errors.
Proof.
  rewrite validate_removal_split.
  destruct (check_method removal []) as [m|e] eqn:Hm; [|discriminate].
  cbn [Py.bind].
  destruct (check_url removal []) as [u|e] eqn:Hu; [|discriminate].
  intros [= <-].
  assert (Hmw : within 5 6 m).
  { destruct (check_method_cases _ _ Hm) as [->|[invalid ->]].
    - apply within_one; repeat constructor.
    - apply (within_weaken 6 6); [| repeat constructor ..].
      apply within_same. rewrite Forall_map.
      apply Forall_forall. reflexivity. }
  assert (Huw : within 7 7 u).
  { destruct (check_url_cases _ _ Hu) as [->|[url ->]];
      [apply within_nil | apply within_one; repeat constructor]. }
  apply (within_app 5 6 7 7); [exact Hmw | exact Huw | repeat constructor ..].
Qed.

Lemma jurisdictions_kinds (jurisdictions : toml) (errors : list string) :
  _validate_jurisdictions jurisdictions = Ok errors -> within 8 8 errors.
Proof.
  unfold _validate_jurisdictions.
  destruct (py_iter jurisdictions) as [items|e]; [|discriminate].
  cbn [Py.bind]. intros [laws ->]%check_jurisdictions_cases.
  apply within_same. rewrite Forall_map. apply Forall_forall. reflexivity.
Qed.

Lemma validate_section_kinds (data : table) (section : string)
    (validator : toml -> result (list string)) (lo hi : nat)
    (errors result : list string) :
  (forall content found, validator content = Ok found -> within lo hi found) ->
  validate_section data section validator errors = Ok result ->
  exists found, result = errors ++ found /\ within lo hi found.
Proof.
  intros Hvalidator. unfold validate_section.
  destruct (lookup section data) as [content|].
  - destruct (validator content) as [found|e] eqn:Hfound; [|discriminate].
    intros [= <-]. exists found. split; [reflexivity|].
    exact (Hvalidator _ _ Hfound).
  - intros [= <-]. exists []. rewrite app_nil_r.
    split; [reflexivity | apply within_nil].
Qed.

(** X9.  The diagnostics of a file come in a fixed order of kinds,
    whatever the order of sections and fields in the file: first what is
    missing, then category, domain, identifier format, identifier case,
    then the shape or the values of the method, the URL, and last the
    jurisdictions. *)
Theorem diagnostics_in_order (file : loading) (errors : list string) :
  validate_broker_toml file = Ok errors ->
  StronglySorted le (map rank errors).
Proof.
  destruct file as [data|message|e]; cbn [validate_broker_toml _load_toml
                                            Py.bind].
  - destruct data as [|entry data']; [intros [= <-]; constructor|].
    set (data := entry :: data'). clearbody data.
    unfold validate_data.
    destruct (_validate_required_fields data) as [missing|e] eqn:Hreq;
      [|discriminate].
    cbn [Py.bind app].
    destruct (required_sections_kinds _ _ _ _ Hreq) as (m & Hm & Hkinds).
    cbn [app] in Hm. subst missing.
    destruct (validate_section data "broker" _ m) as [e1|e] eqn:H1;
      [|discriminate].
    cbn [Py.bind].
    destruct (validate_section data "removal" _ e1) as [e2|e] eqn:H2;
      [|discriminate].
    cbn [Py.bind]. intros H3.
    destruct (validate_section_kinds _ _ _ 1 4 _ _ broker_kinds H1)
      as (b & -> & Hb).
    destruct (validate_section_kinds _ _ _ 5 7 _ _ removal_kinds H2)
      as (r & -> & Hr).
    destruct (validate_section_kinds _ _ _ 8 8 _ _ jurisdictions_kinds H3)
      as (j & -> & Hj).
    assert (Hall : within 0 8 (((m ++ b) ++ r) ++ j)); [|exact (proj1 Hall)].
    apply (within_app 0 7 8 8); [| exact Hj | repeat constructor ..].
    apply (within_app 0 4 5 7); [| exact Hr | repeat constructor ..].
    apply (within_app 0 0 1 4); [| exact Hb | repeat constructor ..].
    apply within_same, Hkinds.
  - intros [= <-]. repeat constructor.
  - discriminate.
Qed.

Lemma diagnostics_in_order_witness :
  validate_broker_toml
    (Document
       [("jurisdictions", TArray [TTable [("law", TString "hipaa")]]);
        ("removal", TTable [("url", TString "spokeo.com/optout");
                            ("method", TArray [TString "fax"])]);
        ("broker", TTable [("id", TString "Spokeo"); ("domain", TString "");
                           ("category", TString "dating")])])
  = Ok [missing_field "broker" "name";
        invalid_category (TString "dating"); invalid_domain (TString "");
        not_lowercase (TString "Spokeo"); invalid_method (TString "fax");
        invalid_url (TString "spokeo.com/optout");
        invalid_jurisdiction (TString "hipaa")]
  /\ StronglySorted le
       (map rank
          [missing_field "broker" "name";
           invalid_category (TString "dating"); invalid_domain (TString "");
           not_lowercase (TString "Spokeo"); invalid_method (TString "fax");
           invalid_url (TString "spokeo.com/optout");
           invalid_jurisdiction (TString "hipaa")]).
Proof.
  split; [reflexivity|].
  apply (diagnostics_in_order
           (Document
              [("jurisdictions", TArray [TTable [("law", TString "hipaa")]]);
               ("removal", TTable [("url", TString "spokeo.com/optout");
                                   ("method", TArray [TString "fax"])]);
               ("broker", TTable [("id", TString "Spokeo");
                                  ("domain", TString "");
                                  ("category", TString "dating")])])).
  reflexivity.
Defined.

(** ** Records that pass *)

Lemma plain_lowercase (i : string) :
  plain i = true -> Str.any Str.is_upper i = false -> lowercase_id i = true.
Proof.
  unfold plain, lowercase_id.
  intros [Hall Hany]%andb_prop Hupper. apply andb_true_intro. split.
  - clear Hany. induction i as [|c i IH]; [reflexivity|].
    cbn [Str.all Str.any] in *.
    apply andb_prop in Hall as [Hc Hi].
    apply orb_false_elim in Hupper as [Hcu Hiu].
    rewrite (IH Hi Hiu), andb_true_r.
    unfold is_id_char, Str.is_alnum_char in Hc. rewrite Hcu in Hc.
    destruct (Str.is_lower c), (Str.is_digit c), (Ascii.eqb c "-"),
      (Ascii.eqb c "_"); try discriminate; reflexivity.
  - clear Hall. induction i as [|c i IH]; [discriminate|].
    cbn [Str.any] in *.
    apply orb_false_elim in Hupper as [Hcu Hiu].
    apply orb_prop in Hany as [Hc|Hi].
    + unfold Str.is_alnum_char in Hc. rewrite Hcu in Hc.
      destruct (Str.is_lower c), (Str.is_digit c); try discriminate;
        reflexivity.
    + rewrite (IH Hi Hiu), orb_true_r. reflexivity.
Qed.

Lemma required_in_section_none (data : table) (section : string)
    (fields : list string) : forall errors,
  required_in_section data section fields errors = Ok [] ->
  errors = []
  /\ (fields = []
      \/ exists content,
           lookup section data = Some content
           /\ Forall (fun field => py_in field content = Ok true) fields).
Proof.
  induction fields as [|field rest IH]; intros errors;
    cbn [required_in_section].
  - intros [= ->]. auto.
  - cbn [py_getitem]. destruct (lookup section data) as [content|] eqn:Hsec;
      [|discriminate].
    cbn [Py.bind].
    destruct (py_in field content) as [[|]|e] eqn:Hin; cbn [Py.bind negb];
      [| |discriminate].
    + intros H. destruct (IH _ H) as [-> Hrest]. split; [reflexivity|].
      right. exists content. split; [reflexivity|].
      constructor; [exact Hin|].
      destruct Hrest as [->|(content' & [= <-] & Hrest)];
        [constructor | exact Hrest].
    + intros H. destruct (IH _ H) as [Hnil _].
      destruct errors; discriminate.
Qed.

Lemma required_sections_none (data : table)
    (manifest : list (string * list string)) : forall errors,
  required_sections data manifest errors = Ok [] ->
  errors = []
  /\ Forall (fun entry =>
               exists content,
                 lookup (fst entry) data = Some content
                 /\ Forall (fun field => py_in field content = Ok true)
                      (snd entry)) manifest.
Proof.
  induction manifest as [|[section fields] rest IH]; intros errors;
    cbn [required_sections].
  - intros [= ->]. auto.
  - cbn [py_in Py.bind]. unfold has_key.
    destruct (lookup section data) as [content|] eqn:Hsec; cbn [negb].
    + destruct (required_in_section data section fields errors)
        as [errors'|e] eqn:Hfields; [|discriminate].
      cbn [Py.bind]. intros H. destruct (IH _ H) as [-> Hrest].
      destruct (required_in_section_none _ _ _ _ Hfields) as [-> Hin].
      split; [reflexivity|]. constructor; [|exact Hrest].
      exists content. split; [exact Hsec|]. cbn [fst snd].
      destruct Hin as [->|(content' & Hsec' & Hin)]; [constructor|].
      rewrite Hsec in Hsec'. injection Hsec' as <-. exact Hin.
    + intros H. destruct (IH _ H) as [Hnil _].
      destruct errors; discriminate.
Qed.

Lemma in_set_accepts (v : toml) (allowed : list string) :
  in_set v allowed = Ok true ->
  text_with (one_of allowed) (Some v) = true.
Proof.
  destruct v; cbn [in_set text_with]; try discriminate;
    try (intros [= H]; induction allowed as [|a l IH];
         [discriminate | cbn [existsb eq_str orb] in H; exact (IH H)]).
  intros [= H]. exact H.
Qed.

Lemma broker_accepted (content : toml) :
  Forall (fun field => py_in field content = Ok true)
    ["id"; "name"; "domain"; "category"] ->
  (forall broker i,
      content = TTable broker -> lookup "id" broker = Some (TString i) ->
      Str.is_ascii i = true) ->
  _validate_broker_section content = Ok [] ->
  exists broker,
    content = TTable broker
    /\ text_with lowercase_id (lookup "id" broker) = true
    /\ present (lookup "name" broker) = true
    /\ text_with bare_hostname (lookup "domain" broker) = true
    /\ text_with (one_of VALID_CATEGORIES) (lookup "category" broker) = true.
Proof.
  intros Hfields Hascii Hvalid.
  inversion Hfields as [|? ? Hid Hfields1]; subst.
  inversion Hfields1 as [|? ? Hname Hfields2]; subst.
  inversion Hfields2 as [|? ? Hdomain Hfields3]; subst.
  inversion Hfields3 as [|? ? Hcategory _]; subst.
  clear Hfields Hfields1 Hfields2 Hfields3.
  destruct content as [s|n|z t|b|t r|items|broker];
    try discriminate Hid.
  - unfold _validate_broker_section, check_category in Hvalid.
    rewrite Hcategory in Hvalid. discriminate.
  - unfold _validate_broker_section, check_category in Hvalid.
    rewrite Hcategory in Hvalid. discriminate.
  - exists broker. split; [reflexivity|].
    cbn [py_in] in Hid, Hname, Hdomain, Hcategory. unfold has_key in *.
    apply validate_broker_parts in Hvalid.
    destruct Hvalid as (c & d & i & Hc & Hd & Hi & Hnil).
    destruct c; [|discriminate]. destruct d; [|discriminate].
    destruct i; [|discriminate]. clear Hnil.
    destruct (lookup "id" broker) as [id|] eqn:Lid; [|discriminate].
    destruct (lookup "name" broker) as [name|] eqn:Lname; [|discriminate].
    destruct (lookup "domain" broker) as [domain|] eqn:Ldomain;
      [|discriminate].
    destruct (lookup "category" broker) as [category|] eqn:Lcategory;
      [|discriminate].
    repeat split.
    + unfold check_id in Hi. cbn [py_in py_getitem Py.bind] in Hi.
      unfold has_key in Hi. rewrite Lid in Hi. cbn [Py.bind] in Hi.
      destruct id as [i0|n|z t|b|t r|items|entries]; try discriminate Hi.
      pose proof (check_id_text broker i0 Lid (Hascii _ _ eq_refl Lid))
        as Hrun.
      unfold check_id in Hrun. cbn [py_in py_getitem Py.bind] in Hrun.
      unfold has_key in Hrun. rewrite Lid in Hrun. cbn [Py.bind] in Hrun.
      rewrite Hi in Hrun. injection Hrun as Hi'.
      cbn [text_with]. apply plain_lowercase.
      * destruct (plain i0); [reflexivity | discriminate].
      * destruct (plain i0), (Str.any Str.is_upper i0);
          try discriminate; reflexivity.
    + unfold check_domain in Hd. cbn [py_in py_getitem Py.bind] in Hd.
      unfold has_key in Hd. rewrite Ldomain in Hd. cbn [Py.bind] in Hd.
      destruct (domain_rejected domain) as [[|]|e] eqn:Hrej;
        try discriminate Hd.
      destruct domain as [s|n|z t|b|t r|items|entries].
      * rewrite domain_rejected_text in Hrej.
        cbn [text_with]. unfold bare_hostname.
        destruct (Str.is_empty s || Str.contains " " s
                  || Str.startswith "http" s);
          [discriminate Hrej | reflexivity].
      * unfold domain_rejected in Hrej.
        destruct (negb (truthy (TInteger n))); discriminate.
      * unfold domain_rejected in Hrej.
        destruct (negb (truthy (TFloat z t))); discriminate.
      * unfold domain_rejected in Hrej.
        destruct (negb (truthy (TBoolean b))); discriminate.
      * unfold domain_rejected in Hrej.
        destruct (negb (truthy (TTemporal t r))); discriminate.
      * unfold domain_rejected in Hrej.
        destruct (negb (truthy (TArray items))); [discriminate|].
        cbn [py_in Py.bind py_startswith] in Hrej.
        destruct (existsb _ items); discriminate.
      * unfold domain_rejected in Hrej.
        destruct (negb (truthy (TTable entries))); [discriminate|].
        cbn [py_in Py.bind py_startswith] in Hrej.
        destruct (has_key " " entries); discriminate.
    + unfold check_category in Hc. cbn [py_in py_getitem Py.bind] in Hc.
      unfold has_key in Hc. rewrite Lcategory in Hc. cbn [Py.bind] in Hc.
      destruct (in_set category VALID_CATEGORIES) as [[|]|e] eqn:Hset;
        try discriminate Hc.
      exact (in_set_accepts _ _ Hset).
Qed.

Lemma check_methods_none (methods : list toml) :
  check_methods methods [] = Ok [] ->
  forallb (fun m => text_with (one_of VALID_REMOVAL_METHODS) (Some m)) methods
  = true.
Proof.
  induction methods as [|m rest IH]; [reflexivity|].
  cbn [check_methods forallb].
  destruct (in_set m VALID_REMOVAL_METHODS) as [[|]|e] eqn:Hset;
    cbn [Py.bind negb]; [| |discriminate].
  - intros H. rewrite (in_set_accepts _ _ Hset), (IH H). reflexivity.
  - rewrite check_methods_acc.
    destruct (check_methods rest []); discriminate.
Qed.

Lemma removal_accepted (content : toml) :
  py_in "method" content = Ok true ->
  _validate_removal_section content = Ok [] ->
  exists removal,
    content = TTable removal
    /\ methods_in_range (lookup "method" removal) = true
    /\ lookup "method" removal <> Some (TArray [])
    /\ url_in_range (lookup "url" removal) = true.
Proof.
  intros Hmethod Hvalid. rewrite validate_removal_split in Hvalid.
  destruct (check_method content []) as [m|e] eqn:Hm; [|discriminate].
  cbn [Py.bind] in Hvalid.
  destruct (check_url content []) as [u|e] eqn:Hu; [|discriminate].
  destruct m; [|discriminate]. destruct u; [|discriminate]. clear Hvalid.
  destruct content as [s|n|z t|b|t r|items|removal];
    try discriminate Hmethod.
  - unfold check_method in Hm. rewrite Hmethod in Hm. discriminate.
  - unfold check_method in Hm. rewrite Hmethod in Hm. discriminate.
  - exists removal. split; [reflexivity|].
    cbn [py_in] in Hmethod. unfold has_key in Hmethod.
    destruct (lookup "method" removal) as [method|] eqn:Lmethod;
      [|discriminate].
    rewrite (check_method_present _ _ _ Lmethod) in Hm.
    repeat split.
    + destruct method as [s|n|z t|b|t r|items|entries];
        try (cbn in Hm; discriminate Hm).
      * cbn [resolve_methods Py.bind] in Hm.
        apply check_methods_none in Hm. cbn [forallb] in Hm.
        rewrite andb_true_r in Hm. exact Hm.
      * cbn [resolve_methods] in Hm. destruct items as [|first rest];
          [cbn in Hm; discriminate Hm|].
        cbn [Py.bind] in Hm. exact (check_methods_none _ Hm).
    + intros [= ->]. cbn in Hm. discriminate.
    + unfold check_url in Hu. cbn [py_in py_getitem Py.bind] in Hu.
      unfold has_key in Hu.
      destruct (lookup "url" removal) as [url|]; [|reflexivity].
      cbn [Py.bind] in Hu.
      destruct url as [s|n|z t|b|t r|items|entries];
        try discriminate Hu.
      cbn [py_startswith Py.bind] in Hu.
      cbn [url_in_range text_with]. unfold full_url.
      unfold Str.startswith_any in Hu. cbn [existsb] in Hu.
      rewrite orb_false_r in Hu.
      destruct (Str.startswith "http://" s || Str.startswith "https://" s);
        [reflexivity | discriminate Hu].
Qed.

Lemma check_jurisdictions_none (items : list toml) :
  check_jurisdictions items [] = Ok [] -> forallb law_in_range items = true.
Proof.
  induction items as [|j rest IH]; [reflexivity|].
  cbn [check_jurisdictions forallb].
  destruct j as [s|n|z t|b|t r|elements|entries]; try exact IH.
  cbn [law_in_range py_getitem]. unfold has_key.
  destruct (lookup "law" entries) as [law|]; [|exact IH].
  cbn [Py.bind].
  destruct (in_set law VALID_JURISDICTIONS) as [[|]|e] eqn:Hset;
    cbn [Py.bind negb]; [| |discriminate].
  - intros H. rewrite (in_set_accepts _ _ Hset), (IH H). reflexivity.
  - rewrite check_jurisdictions_acc.
    destruct (check_jurisdictions rest []); discriminate.
Qed.

Lemma validate_section_found (data : table) (section : string)
    (validator : toml -> result (list string)) (errors result : list string) :
  validate_section data section validator errors = Ok result ->
  exists found,
    result = errors ++ found
    /\ match lookup section data with
       | Some content => validator content = Ok found
       | None => found = []
       end.
Proof.
  unfold validate_section. destruct (lookup section data) as [content|].
  - destruct (validator content) as [found|e]; [|discriminate].
    intros [= <-]. exists found. auto.
  - intros [= <-]. exists []. rewrite app_nil_r. auto.
Qed.

(** X10.  The records that pass are exactly the valid ones: a document
    that is not empty, with an identifier in ASCII if it has one as text,
    gets no diagnostic if and only if the required
    fields are there, the identifier is made of lower-case letters, digits,
    hyphens and underscores with a letter or digit among them, the domain
    is text that is not empty, has no space and does not start with
    [http], the category and every method are in their enumerations, the
    method is a string or a list with an entry, the URL if present starts
    with [http://] or [https://], and the [law] of every table among the
    jurisdictions is in its enumeration. *)
Theorem accepted_iff_valid (data : table) :
  data <> [] ->
  ascii_id data = true ->
  validate_broker_toml (Document data) = Ok []
  <-> valid_minimal data = true
      /\ method_not_empty data = true
      /\ laws_in_range data = true.
Proof.
  intros Hdata Hascii. rewrite (validate_data_start _ Hdata). split.
  - unfold validate_data.
    destruct (_validate_required_fields data) as [missing|e] eqn:Hreq;
      [|discriminate].
    cbn [Py.bind app].
    destruct (validate_section data "broker" _ missing) as [e1|e] eqn:H1;
      [|discriminate].
    cbn [Py.bind].
    destruct (validate_section data "removal" _ e1) as [e2|e] eqn:H2;
      [|discriminate].
    cbn [Py.bind]. intros H3.
    destruct (validate_section_found _ _ _ _ _ H3) as (j & Hj & Hjur).
    apply eq_sym, app_eq_nil in Hj as [-> ->].
    destruct (validate_section_found _ _ _ _ _ H2) as (r & Hr & Hrem).
    apply eq_sym, app_eq_nil in Hr as [-> ->].
    destruct (validate_section_found _ _ _ _ _ H1) as (b & Hb & Hbro).
    apply eq_sym, app_eq_nil in Hb as [-> ->].
    clear H1 H2 H3.
    destruct (required_sections_none _ _ _ Hreq) as [_ Hfields].
    inversion Hfields as [|? ? (bc & Lbroker & Hbf) Hfields']; subst.
    inversion Hfields' as [|? ? (rc & Lremoval & Hrf) _]; subst.
    clear Hfields Hfields'. cbn [fst snd] in *.
    rewrite Lbroker in Hbro. rewrite Lremoval in Hrem.
    assert (Hbroker : forall broker i,
               bc = TTable broker -> lookup "id" broker = Some (TString i) ->
               Str.is_ascii i = true).
    { intros broker i -> Hi. unfold ascii_id, field in Hascii.
      rewrite Lbroker, Hi in Hascii. exact Hascii. }
    destruct (broker_accepted _ Hbf Hbroker Hbro)
      as (broker & -> & Hid & Hname & Hdomain & Hcategory).
    inversion Hrf as [|? ? Hmethod _]; subst.
    destruct (removal_accepted _ Hmethod Hrem)
      as (removal & -> & Hmethods & Hne & Hurl).
    unfold valid_minimal, method_not_empty, laws_in_range, field.
    rewrite Lbroker, Lremoval, Hid, Hname, Hdomain, Hcategory, Hmethods, Hurl.
    repeat split.
    + destruct (lookup "method" removal) as [[| | | | |[|]|]|];
        try reflexivity. congruence.
    + destruct (lookup "jurisdictions" data) as [jurisdictions|];
        [|reflexivity].
      unfold _validate_jurisdictions in Hjur.
      destruct (py_iter jurisdictions) as [items|e]; [|discriminate].
      exact (check_jurisdictions_none _ Hjur).
  - unfold valid_minimal, method_not_empty, laws_in_range.
    intros (Hvalid & Hne & Hjur).
    apply andb_prop in Hvalid as [Hvalid Hurl].
    apply andb_prop in Hvalid as [Hvalid Hmeth].
    apply andb_prop in Hvalid as [Hvalid Hcat].
    apply andb_prop in Hvalid as [Hvalid Hdom].
    apply andb_prop in Hvalid as [Hid Hpresent].
    destruct (text_with_true _ _ Hid) as (i & Hi & _).
    destruct (field_some _ _ _ _ Hi) as (broker & Hbroker & _).
    destruct (present_true _ Hpresent) as (name & Hname).
    assert (Hmethod : exists method,
               field data "removal" "method" = Some method).
    { destruct (field data "removal" "method"); [eauto | discriminate]. }
    destruct Hmethod as (method & Hmethod).
    destruct (field_some _ _ _ _ Hmethod) as (removal & Hremoval & Hm).
    unfold field in *. rewrite Hbroker in *. rewrite Hremoval in *.
    unfold validate_data, validate_section.
    rewrite required_fields_report
      by (unfold table_or_absent; rewrite ?Hbroker, ?Hremoval; reflexivity).
    assert (Hreq : flat_map (section_report data) REQUIRED_FIELDS = []).
    { unfold REQUIRED_FIELDS, section_report, absent_fields, has_key.
      cbn [flat_map fst snd]. rewrite Hbroker, Hremoval. cbn [filter].
      destruct (lookup "id" broker); [|discriminate].
      rewrite Hname.
      destruct (lookup "domain" broker); [|discriminate].
      destruct (lookup "category" broker); [|discriminate].
      rewrite Hm. reflexivity. }
    rewrite Hreq. cbn [Py.bind app]. rewrite Hbroker.
    rewrite (broker_clean broker) by assumption. cbn [Py.bind app].
    rewrite Hremoval.
    rewrite (removal_clean removal); trivial.
    + cbn [Py.bind app].
      destruct (lookup "jurisdictions" data) as [jurisdictions|];
        [|reflexivity].
      unfold _validate_jurisdictions.
      destruct (py_iter jurisdictions) as [items|e]; [|discriminate].
      cbn [Py.bind]. rewrite (jurisdictions_clean _ Hjur). reflexivity.
    + rewrite Hm in *. intros [= ->]. discriminate.
Qed.

Lemma accepted_iff_valid_witness :
  validate_broker_toml (Document Sample.spokeo) = Ok []
  /\ valid_minimal Sample.spokeo = true
  /\ validate_broker_toml
       (Document
          (Sample.with_removal (Sample.removal_with "method" (TArray []))))
     <> Ok [].
Proof.
  split; [reflexivity|]. split.
  - apply (proj1 (accepted_iff_valid Sample.spokeo
                    ltac:(discriminate) eq_refl)).
    reflexivity.
  - intros Hpass.
    apply (proj1 (accepted_iff_valid
                    (Sample.with_removal
                       (Sample.removal_with "method" (TArray [])))
                    ltac:(discriminate) eq_refl)) in Hpass.
    destruct Hpass as (_ & Hmethod & _). discriminate Hmethod.
Defined.

(** * The architecture splitter: properties *)

(** ** Joining and splitting *)

Lemma join_cons (sep x : string) (l : list string) :
  l <> [] -> Str.join sep (x :: l) = (x ++ sep ++ Str.join sep l)%string.
Proof. destruct l; [contradiction | reflexivity]. Qed.

Lemma join_split (sep : ascii) (s : string) :
  Str.join (String sep "") (Str.split sep s) = s.
Proof.
  induction s as [|c s IH]; [reflexivity|].
  cbn [Str.split]. destruct (Ascii.eqb_spec c sep) as [->|_].
  - rewrite join_cons by apply split_not_empty. rewrite IH. reflexivity.
  - pose proof (split_not_empty sep s) as Hne.
    destruct (Str.split sep s) as [|piece pieces]; [contradiction|].
    destruct pieces as [|piece' pieces].
    + cbn in IH |- *. rewrite IH. reflexivity.
    + rewrite join_cons in IH by discriminate.
      rewrite join_cons by discriminate.
      rewrite <- IH. reflexivity.
Qed.

Lemma append_assoc (a b c : string) :
  ((a ++ b) ++ c = a ++ b ++ c)%string.
Proof. induction a as [|x a IH]; simpl; [|rewrite IH]; reflexivity. Qed.

Lemma join_app (sep : string) (a b : list string) :
  a <> [] -> b <> [] ->
  Str.join sep (a ++ b)
  = (Str.join sep a ++ sep ++ Str.join sep b)%string.
Proof.
  intros Ha Hb. induction a as [|x a IH]; [contradiction|].
  destruct a as [|y a].
  - cbn [app]. apply join_cons, Hb.
  - change ((x :: y :: a) ++ b) with (x :: (y :: a) ++ b).
    rewrite !join_cons by discriminate.
    rewrite IH by discriminate. rewrite !append_assoc. reflexivity.
Qed.

Lemma join_chunks (sep : string) (chunks : list (list string)) :
  Forall (fun chunk => chunk <> []) chunks ->
  Str.join sep (map (Str.join sep) chunks) = Str.join sep (concat chunks).
Proof.
  induction 1 as [|chunk chunks Hchunk Hchunks IH]; [reflexivity|].
  cbn [map concat]. destruct chunks as [|next chunks].
  - cbn. rewrite app_nil_r. reflexivity.
  - rewrite join_cons by discriminate. rewrite IH.
    rewrite join_app; trivial.
    inversion Hchunks as [|? ? Hnext _]; subst.
    cbn [concat]. destruct next; [contradiction | discriminate].
Qed.

(** ** The lines of a section *)

Lemma header_chunks (lines : list string) :
  header_of lines ++ concat (map snd (section_chunks lines)) = lines.
Proof.
  induction lines as [|line rest IH]; [reflexivity|].
  cbn [header_of section_chunks]. destruct (heading line).
  - cbn [map concat snd app]. rewrite IH. reflexivity.
  - cbn [app]. rewrite IH. reflexivity.
Qed.

Lemma header_prefix (lines : list string) :
  firstn (length (header_of lines)) lines = header_of lines.
Proof.
  induction lines as [|line rest IH]; [reflexivity|].
  cbn [header_of]. destruct (heading line); [reflexivity|].
  cbn [length firstn]. rewrite IH. reflexivity.
Qed.

Lemma header_plain (lines : list string) :
  Forall (fun line => heading line = None) (header_of lines).
Proof.
  induction lines as [|line rest IH]; [constructor|].
  cbn [header_of]. destruct (heading line) eqn:Hline;
    constructor; assumption.
Qed.

Lemma chunks_shape (lines : list string) :
  Forall (fun section =>
            exists line rest,
              snd section = line :: rest
              /\ heading line = Some (fst section)
              /\ Forall (fun l => heading l = None) rest)
    (section_chunks lines).
Proof.
  induction lines as [|line rest IH]; [constructor|].
  cbn [section_chunks]. destruct (heading line) eqn:Hline; trivial.
  constructor; trivial. exists line, (header_of rest).
  repeat split; trivial. apply header_plain.
Qed.

Lemma chunks_from_lines (lines : list string) (section : Z * list string) :
  In section (section_chunks lines) ->
  exists line, In line lines /\ heading line = Some (fst section).
Proof.
  induction lines as [|line rest IH]; [contradiction|].
  cbn [section_chunks]. destruct (heading line) eqn:Hline.
  - intros [<-|Hin].
    + exists line. split; [left; reflexivity | exact Hline].
    + destruct (IH Hin) as (l & Hl & Hnum). exists l. split; [right|]; trivial.
  - intros Hin. destruct (IH Hin) as (l & Hl & Hnum).
    exists l. split; [right|]; trivial.
Qed.

(** ** The positions of the headings *)

Lemma next_start (lines : list string) : forall (i : nat) (last : Z),
  exists num following,
    starts_of i lines ++ [(i + length lines, last)]
    = (i + length (header_of lines), num) :: following.
Proof.
  induction lines as [|line rest IH]; intros i last.
  - exists last, []. reflexivity.
  - cbn [starts_of header_of]. destruct (heading line).
    + cbn [length app]. rewrite Nat.add_0_r. eauto.
    + destruct (IH (S i) last) as (num & following & Hnext).
      cbn [length]. rewrite !Nat.add_succ_r. cbn [Nat.add] in Hnext.
      eauto.
Qed.

Lemma slice_section (front : list string) (line : string)
    (rest : list string) :
  slice (front ++ line :: rest) (length front)
    (S (length front) + length (header_of rest))
  = line :: header_of rest.
Proof.
  unfold slice.
  replace (S (length front) + length (header_of rest) - length front)
    with (S (length (header_of rest))) by lia.
  replace (skipn (length front) (front ++ line :: rest)) with (line :: rest).
  - cbn [firstn]. rewrite header_prefix. reflexivity.
  - induction front as [|x front IH]; [reflexivity | exact IH].
Qed.

Lemma write_sections_step (lines : list string) (start_line end_line : nat)
    (section_num num : Z) (starts following : list (nat * Z)) :
  starts = (end_line, num) :: following ->
  write_sections lines ((start_line, section_num) :: starts)
  = section_effects (section_num, slice lines start_line end_line)
    ++ write_sections lines starts.
Proof. intros ->. reflexivity. Qed.

Lemma write_sections_chunks (lines : list string) : forall front,
  write_sections (front ++ lines)
    (starts_of (length front) lines
     ++ [(length front + length lines, 999%Z)])
  = flat_map section_effects (section_chunks lines).
Proof.
  induction lines as [|line rest IH]; intros front; [reflexivity|].
  specialize (IH (front ++ [line])).
  rewrite <- app_assoc, length_app in IH. cbn [app length] in IH.
  rewrite Nat.add_1_r in IH.
  cbn [starts_of section_chunks length].
  rewrite Nat.add_succ_r. cbn [Nat.add] in IH.
  destruct (heading line) as [num|]; [|exact IH].
  cbn [app flat_map].
  destruct (next_start rest (S (length front)) 999)
    as (next & following & Hnext).
  cbn [Nat.add] in Hnext.
  rewrite (write_sections_step _ _ _ _ _ _ _ Hnext), IH.
  change (S (length front + length (header_of rest)))
    with (S (length front) + length (header_of rest)).
  rewrite slice_section. reflexivity.
Qed.

(** The loop that looks for the headings, on a text that can be read and
    on one that cannot. *)
Lemma section_starts_readable (lines : list string) : forall i,
  forallb (fun line => match section_number line with
                       | Ok _ => true
                       | Raise _ => false
                       end) lines = true ->
  section_starts_from i lines = Ok (starts_of i lines).
Proof.
  induction lines as [|line rest IH]; intros i; [reflexivity|].
  cbn [forallb section_starts_from starts_of]. unfold heading.
  destruct (section_number line) as [number|e]; [|discriminate].
  cbn [andb Py.bind]. intros Hrest. rewrite (IH _ Hrest). cbn [Py.bind].
  destruct number; reflexivity.
Qed.

Lemma section_number_raises (line : string) (e : exn) :
  section_number line = Raise e -> e = ValueError.
Proof.
  unfold section_number.
  destruct (after_prefix _ (Unicode.decode line)) as [rest|];
    [|discriminate].
  destruct (span_digits rest) as [digits after].
  destruct digits as [|digit digits]; [discriminate|].
  destruct (after_prefix _ after); [|discriminate].
  unfold py_int. destruct (Nat.leb _ _); [discriminate|].
  cbn. intros [= <-]. reflexivity.
Qed.

(** [int] refuses the number of a heading with more than 4300 digits, and
    no other. *)
Lemma section_number_refused (line : string) :
  section_number line = Raise ValueError
  <-> exists rest after,
        after_prefix [35; 35; 32]%N (Unicode.decode line) = Some rest
        /\ after_prefix [46; 32]%N (snd (span_digits rest)) = Some after
        /\ 4300 < length (fst (span_digits rest)).
Proof.
  unfold section_number.
  destruct (after_prefix [35; 35; 32]%N (Unicode.decode line)) as [rest|].
  - destruct (span_digits rest) as [digits after] eqn:Hspan. cbn [fst snd].
    split.
    + destruct digits as [|digit digits]; [discriminate|].
      destruct (after_prefix [46; 32]%N after) as [tail|] eqn:Htail;
        [|discriminate].
      unfold py_int.
      destruct (Nat.leb_spec (length (digit :: digits)) 4300) as [|Hlong];
        [discriminate|].
      intros _. exists rest, tail. rewrite Hspan. cbn [fst snd].
      split; [reflexivity|]. split; [exact Htail | exact Hlong].
    + intros (rest' & tail & [= <-] & Htail & Hlong).
      rewrite Hspan in Htail, Hlong. cbn [fst snd] in Htail, Hlong.
      rewrite Htail. destruct digits as [|digit digits]; [cbn in Hlong; lia|].
      unfold py_int.
      destruct (Nat.leb_spec (length (digit :: digits)) 4300) as [Hshort|_];
        [lia | reflexivity].
  - split; [discriminate | intros (rest & tail & H & _); discriminate].
Qed.

Lemma readable_iff (content : string) :
  readable content = true
  <-> forall line, In line (Str.split newline content) ->
        forall e, section_number line <> Raise e.
Proof.
  unfold readable. rewrite forallb_forall. split; intros H line Hin.
  - intros e He. specialize (H line Hin). rewrite He in H. discriminate.
  - destruct (section_number line) as [number|e] eqn:Hline; [reflexivity|].
    exfalso. exact (H line Hin e Hline).
Qed.

Lemma section_starts_unreadable (lines : list string) : forall i,
  forallb (fun line => match section_number line with
                       | Ok _ => true
                       | Raise _ => false
                       end) lines = false ->
  section_starts_from i lines = Raise ValueError.
Proof.
  induction lines as [|line rest IH]; intros i; [discriminate|].
  cbn [forallb section_starts_from].
  destruct (section_number line) as [number|e] eqn:Hline.
  - cbn [andb Py.bind]. intros Hrest. rewrite (IH _ Hrest). reflexivity.
  - intros _. rewrite (section_number_raises _ _ Hline). reflexivity.
Qed.

(** The run as a whole, by sections instead of positions. *)
Lemma split_architecture_effects (arch_dir content : string) :
  readable content = true ->
  split_architecture arch_dir content
  = ([MakeDirectory;
      WriteText overview_file
        (Str.join nl (header_of (Str.split newline content)));
      Print (created overview_file
               (length (header_of (Str.split newline content))))]
     ++ flat_map section_effects (section_chunks (Str.split newline content))
     ++ create_index
     ++ [Print (done_line arch_dir)],
     Ok tt).
Proof.
  unfold readable, split_architecture. intros Hread.
  set (lines := Str.split newline content) in *.
  rewrite (section_starts_readable _ 0 Hread).
  destruct (next_start lines 0 999) as (num & following & Hnext).
  cbn [Nat.add] in Hnext. cbv zeta.
  pose proof (write_sections_chunks lines []) as Hsections.
  cbn [app length Nat.add] in Hsections. rewrite Hsections.
  rewrite Hnext, header_prefix. reflexivity.
Qed.

Lemma split_architecture_unreadable (arch_dir content : string) :
  readable content = false ->
  split_architecture arch_dir content = ([MakeDirectory], Raise ValueError).
Proof.
  unfold readable, split_architecture. intros Hread.
  rewrite (section_starts_unreadable _ 0 Hread). reflexivity.
Qed.

Lemma writes_of_app (a b : list effect) :
  writes_of (a ++ b) = writes_of a ++ writes_of b.
Proof. apply flat_map_app. Qed.

Lemma prints_of_app (a b : list effect) :
  prints_of (a ++ b) = prints_of a ++ prints_of b.
Proof. apply flat_map_app. Qed.

Lemma writes_of_sections (sections : list (Z * list string)) :
  writes_of (flat_map section_effects sections)
  = flat_map section_file sections.
Proof.
  induction sections as [|section rest IH]; [reflexivity|].
  cbn [flat_map]. rewrite writes_of_app, IH. f_equal.
  unfold section_effects, section_file.
  destruct (section_entry (fst section)) as [[filename title]|]; reflexivity.
Qed.

Lemma prints_of_sections (sections : list (Z * list string)) :
  prints_of (flat_map section_effects sections)
  = flat_map section_print sections.
Proof.
  induction sections as [|section rest IH]; [reflexivity|].
  cbn [flat_map]. rewrite prints_of_app, IH. f_equal.
  unfold section_effects, section_print.
  destruct (section_entry (fst section)) as [[filename title]|]; reflexivity.
Qed.

Lemma split_architecture_writes (arch_dir content : string) :
  readable content = true ->
  writes_of (fst (split_architecture arch_dir content))
  = (overview_file, Str.join nl (header_of (Str.split newline content)))
    :: flat_map section_file (section_chunks (Str.split newline content))
    ++ [index_file].
Proof.
  intros Hread. rewrite (split_architecture_effects _ _ Hread). cbn [fst].
  rewrite !writes_of_app, writes_of_sections. reflexivity.
Qed.

Lemma split_architecture_prints (arch_dir content : string) :
  readable content = true ->
  prints_of (fst (split_architecture arch_dir content))
  = created overview_file (length (header_of (Str.split newline content)))
    :: flat_map section_print (section_chunks (Str.split newline content))
    ++ ["Created: README.md (index)"; done_line arch_dir].
Proof.
  intros Hread. rewrite (split_architecture_effects _ _ Hread). cbn [fst].
  rewrite !prints_of_app, prints_of_sections. reflexivity.
Qed.

(** X11.  The splitter cuts the text at its numbered level-two headings,
    the lines that start with [## ], decimal digits of any script, a full
    stop and a space.  When some heading has a number of more than 4300
    digits, which [int] refuses, the run makes the directory and ends with
    [ValueError], before any file is written.  Otherwise the overview file gets the lines in
    front of the first such heading, and every heading whose number is in
    [SECTIONS] gets a file with the heading and the lines up to the next
    numbered heading; a section with another number is written nowhere.
    The index comes last, and every line of the text belongs to the header
    or to exactly one section. *)
Theorem sections_cut_at_headings (arch_dir content : string) :
  (readable content = false ->
   split_architecture arch_dir content = ([MakeDirectory], Raise ValueError))
  /\ (readable content = true ->
      snd (split_architecture arch_dir content) = Ok tt
      /\ writes_of (fst (split_architecture arch_dir content))
         = (overview_file,
            Str.join nl (header_of (Str.split newline content)))
           :: flat_map section_file
                (section_chunks (Str.split newline content))
           ++ [index_file]
      /\ prints_of (fst (split_architecture arch_dir content))
         = created overview_file
             (length (header_of (Str.split newline content)))
           :: flat_map section_print
                (section_chunks (Str.split newline content))
           ++ ["Created: README.md (index)"; done_line arch_dir])
  /\ header_of (Str.split newline content)
     ++ concat (map snd (section_chunks (Str.split newline content)))
     = Str.split newline content
  /\ Forall (fun line => heading line = None)
       (header_of (Str.split newline content))
  /\ Forall (fun section =>
               exists line rest,
                 snd section = line :: rest
                 /\ heading line = Some (fst section)
                 /\ Forall (fun l => heading l = None) rest)
       (section_chunks (Str.split newline content))
  /\ (forall line num,
        heading line = Some num <-> section_number line = Ok (Some num))
  /\ (readable content = true
      <-> forall line, In line (Str.split newline content) ->
            forall e, section_number line <> Raise e)
  /\ (forall line,
        section_number line = Raise ValueError
        <-> exists rest after,
              after_prefix [35; 35; 32]%N (Unicode.decode line) = Some rest
              /\ after_prefix [46; 32]%N (snd (span_digits rest)) = Some after
              /\ 4300 < length (fst (span_digits rest)))
  /\ (section_number "## 12. Frontend" = Ok (Some 12%Z)
      /\ section_number "## 007. Notes" = Ok (Some 7%Z)
      /\ section_number "## 12 Frontend" = Ok None
      /\ section_number "## 12.Frontend" = Ok None
      /\ section_number "### 12. Frontend" = Ok None
      /\ section_number " ## 12. Frontend" = Ok None
      /\ section_number "## . Frontend" = Ok None
      /\ section_number "## 1a. Frontend" = Ok None)
  /\ overview_file = "00-overview.md"
  /\ index_file = ("README.md", Str.join nl index_lines)
  /\ (forall filename count,
        created filename count
        = ("Created: " ++ filename ++ " ("
           ++ Repr.of_int (Z.of_nat count) ++ " lines)")%string)
  /\ done_line arch_dir = (nl ++ "Done! Created 25 files in " ++ arch_dir)%string
  /\ index_lines
     = [
      "# Spectral Architecture Documentation";
      "";
      "This directory contains the Spectral architecture documentation, split into sections for easier navigation.";
      "";
      "## Sections";
      "";
      "- [Overview](00-overview.md) - Document header, version info, table of contents";
      "- [1. Vision & Problem Statement](01-vision.md)";
      "- [2. High-Level Architecture](02-high-level-architecture.md)";
      "- [3. Core Modules — Detailed Design](03-core-modules.md)";
      "- [4. Local PII Discovery Engine](04-pii-discovery.md)";
      "- [5. Network Telemetry Engine](05-network-telemetry.md)";
      "- [6. Removal Verification & Follow-Up Engine](06-removal-verification.md)";
      "- [7. Third-Party Communication Engine](07-mail-communication.md)";
      "- [8. Granular Permission System](08-permissions.md)";
      "- [9. Security Architecture](09-security.md)";
      "- [10. Reporting & Progress Dashboard](10-reporting-dashboard.md)";
      "- [11. LLM Integration Strategy](11-llm-integration.md)";
      "- [12. Frontend Architecture](12-frontend.md)";
      "- [13. Project Structure](13-project-structure.md)";
      "- [14. Database Schema](14-database-schema.md)";
      "- [15. Dependencies](15-dependencies.md)";
      "- [16. Broker Database Maintenance](16-broker-maintenance.md)";
      "- [17. Development Roadmap](17-roadmap.md)";
      "- [18. License Recommendation](18-license.md)";
      "- [19. Open Questions & Discussion Points](19-open-questions.md)";
      "- [20. User Onboarding & PII Profile Setup](20-onboarding.md)";
      "- [21. Geolocation & Jurisdiction System](21-geolocation-jurisdiction.md)";
      "- [22. Proactive Broker Scanning Model](22-proactive-scanning.md)";
      "- [23. Commercial Relationship Engine](23-commercial-relationships.md)";
      "- [24. Resolved Open Questions](24-resolved-questions.md)";
      "";
      "## Quick Reference";
      "";
      "| Topic | Sections |";
      "|-------|----------|";
      "| Vault & Encryption | [3](03-core-modules.md), [9](09-security.md) |";
      "| Broker Engine | [3](03-core-modules.md), [16](16-broker-maintenance.md), [22](22-proactive-scanning.md) |";
      "| Browser Automation | [3](03-core-modules.md) |";
      "| LLM & Prompt Safety | [3](03-core-modules.md), [11](11-llm-integration.md) |";
      "| Permissions | [8](08-permissions.md) |";
      "| User Onboarding | [20](20-onboarding.md) |";
      "| Jurisdiction & Legal | [21](21-geolocation-jurisdiction.md) |";
      "| Commercial Deletions | [23](23-commercial-relationships.md) |";
      "| Resolved Decisions | [24](24-resolved-questions.md) |";
      "";
      "## Version";
      "";
      "Architecture Document v0.3";
      ""].
Proof.
  split; [apply split_architecture_unreadable|].
  split; [|split; [apply header_chunks|]].
  - intros Hread. split; [|split].
    + rewrite (split_architecture_effects _ _ Hread). reflexivity.
    + apply split_architecture_writes, Hread.
    + apply split_architecture_prints, Hread.
  - split; [apply header_plain|]. split; [apply chunks_shape|].
    split; [|split; [apply readable_iff|split;
      [exact section_number_refused|repeat split]]].
    intros line num. unfold heading.
    destruct (section_number line) as [number|e].
    + split; [intros ->; reflexivity | intros [= ->]; reflexivity].
    + split; discriminate.
Qed.

Lemma sections_cut_at_headings_witness :
  readable text_with_notes = true
  /\ writes_of (fst (split_architecture "architecture" text_with_notes))
     = [("00-overview.md", "# Spectral");
        ("01-vision.md", ("## 1. Vision" ++ nl ++ "why")%string);
        ("02-high-level-architecture.md", "## 2. Design");
        index_file]
  /\ split_architecture "architecture" text_with_long_number
     = ([MakeDirectory], Raise ValueError)
  /\ writes_of (fst (split_architecture "architecture" text_in_other_digits))
     = [("00-overview.md", "intro");
        ("24-resolved-questions.md",
         ("## " ++ Unicode.encode [1634; 1636]%N ++ ". Last")%string);
        index_file].
Proof.
  destruct (sections_cut_at_headings "architecture" text_with_notes)
    as [_ [Hnotes _]].
  destruct (sections_cut_at_headings "architecture" text_with_long_number)
    as [Hlong _].
  destruct (sections_cut_at_headings "architecture" text_in_other_digits)
    as [_ [Hdigits _]].
  split; [reflexivity|]. split; [|split].
  - rewrite (proj1 (proj2 (Hnotes eq_refl))). reflexivity.
  - apply Hlong. vm_compute. reflexivity.
  - rewrite (proj1 (proj2 (Hdigits eq_refl))). reflexivity.
Defined.

(** ** The files after the run *)

Lemma entry_of_in {A : Type} (num : Z) (entries : list (Z * A)) (value : A) :
  entry_of num entries = Some value -> In (num, value) entries.
Proof.
  induction entries as [|[key v] rest IH]; [discriminate|].
  cbn [entry_of]. destruct (Z.eqb_spec key num) as [->|_].
  - intros [= ->]. left. reflexivity.
  - intros H. right. exact (IH H).
Qed.

Lemma section_files_numbered :
  Forall (fun entry => file_number (fst (snd entry)) = Some (fst entry))
    SECTIONS.
Proof. repeat constructor. Qed.

Lemma section_entry_number (num : Z) (filename title : string) :
  section_entry num = Some (filename, title) ->
  file_number filename = Some num.
Proof.
  intros Hin%entry_of_in.
  exact (proj1 (Forall_forall _ _) section_files_numbered _ Hin).
Qed.

Lemma written_app (a b : list (string * string)) (filename : string) :
  written (a ++ b) filename
  = match written b filename with
    | Some content => Some content
    | None => written a filename
    end.
Proof.
  induction a as [|[name content] a IH]; cbn [app written].
  - destruct (written b filename); reflexivity.
  - rewrite IH. destruct (written b filename); reflexivity.
Qed.

Lemma written_in (files : list (string * string)) (filename content : string) :
  written files filename = Some content -> In (filename, content) files.
Proof.
  induction files as [|[name c] later IH]; [discriminate|].
  cbn [written]. destruct (written later filename) as [c'|].
  - intros [= <-]. right. apply IH. reflexivity.
  - destruct (String.eqb_spec name filename) as [->|_]; [|discriminate].
    intros [= <-]. left. reflexivity.
Qed.

Lemma written_sections (num : Z) (filename title : string)
    (sections : list (Z * list string)) :
  section_entry num = Some (filename, title) ->
  written (flat_map section_file sections) filename
  = option_map (Str.join nl) (last_chunk num sections).
Proof.
  intros Hentry. induction sections as [|[n chunk] later IH]; [reflexivity|].
  cbn [flat_map last_chunk]. rewrite written_app, IH.
  destruct (last_chunk num later); [reflexivity|]. cbn [option_map].
  unfold section_file. cbn [fst snd].
  destruct (Z.eqb_spec n num) as [->|Hother].
  - rewrite Hentry. cbn [written]. rewrite String.eqb_refl. reflexivity.
  - destruct (section_entry n) as [[name t]|] eqn:Hn; [|reflexivity].
    cbn [written]. destruct (String.eqb_spec name filename) as [->|_];
      [|reflexivity].
    apply section_entry_number in Hn, Hentry. congruence.
Qed.

(** What a section file holds after the run. *)
Lemma read_back_section (arch_dir content : string) (num : Z)
    (filename title : string) :
  readable content = true ->
  section_entry num = Some (filename, title) ->
  read_back (split_architecture arch_dir content) filename
  = match last_chunk num (section_chunks (Str.split newline content)) with
    | Some chunk => Some (Str.join nl chunk)
    | None =>
        if (num =? 0)%Z
        then Some (Str.join nl (header_of (Str.split newline content)))
        else None
    end.
Proof.
  intros Hread Hentry. unfold read_back.
  rewrite (split_architecture_writes _ _ Hread).
  set (lines := Str.split newline content).
  change ((overview_file, Str.join nl (header_of lines))
          :: flat_map section_file (section_chunks lines) ++ [index_file])
    with (([(overview_file, Str.join nl (header_of lines))]
           ++ flat_map section_file (section_chunks lines)) ++ [index_file]).
  pose proof (section_entry_number _ _ _ Hentry) as Hnumber.
  rewrite !written_app, (written_sections _ _ _ _ Hentry).
  assert (Hindex : written [index_file] filename = None).
  { unfold index_file. cbn [written].
    destruct (String.eqb_spec "README.md" filename) as [<-|_];
      [|reflexivity].
    vm_compute in Hnumber. discriminate. }
  rewrite Hindex.
  destruct (last_chunk num (section_chunks lines)); [reflexivity|].
  cbn [option_map written].
  destruct (Z.eqb_spec num 0) as [->|Hnum].
  - change (section_entry 0) with (Some (overview_file, "Overview"))
      in Hentry.
    injection Hentry as <- _. rewrite String.eqb_refl. reflexivity.
  - destruct (String.eqb_spec overview_file filename) as [<-|_];
      [|reflexivity].
    vm_compute in Hnumber. congruence.
Qed.

Lemma read_back_named (arch_dir content filename : string) :
  readable content = true ->
  read_back (split_architecture arch_dir content) filename <> None ->
  filename = "README.md"
  \/ exists num title, section_entry num = Some (filename, title).
Proof.
  intros Hread. unfold read_back.
  rewrite (split_architecture_writes _ _ Hread).
  set (lines := Str.split newline content). intros Hwritten.
  destruct (written _ filename) as [c|] eqn:Hc; [|contradiction].
  apply written_in in Hc. destruct Hc as [Hc|Hc].
  - injection Hc as <- _. right. exists 0%Z, "Overview". reflexivity.
  - apply in_app_or in Hc. destruct Hc as [Hc|[Hc|[]]].
    + apply in_flat_map in Hc. destruct Hc as ([n chunk] & _ & Hc).
      unfold section_file in Hc. cbn [fst snd] in Hc.
      destruct (section_entry n) as [[name t]|] eqn:Hn; [|contradiction].
      destruct Hc as [Hc|[]]. injection Hc as <- _.
      right. exists n, t. exact Hn.
    + injection Hc as <- _. left. reflexivity.
Qed.

(** ** What the files hold together *)

Lemma no_headings (lines : list string) :
  section_chunks lines = [] -> header_of lines = lines.
Proof.
  induction lines as [|line rest IH]; [reflexivity|].
  cbn [header_of section_chunks].
  destruct (heading line); [discriminate|].
  intros H. rewrite (IH H). reflexivity.
Qed.

Lemma chunks_not_empty (lines : list string) :
  Forall (fun chunk : list string => chunk <> [])
    (map snd (section_chunks lines)).
Proof.
  rewrite Forall_map. eapply Forall_impl; [|apply chunks_shape].
  intros section (line & rest & -> & _). discriminate.
Qed.

Lemma last_chunk_none (num : Z) (sections : list (Z * list string)) :
  existsb (Z.eqb num) (map fst sections) = false ->
  last_chunk num sections = None.
Proof.
  induction sections as [|[n chunk] later IH]; [reflexivity|].
  cbn [map fst existsb last_chunk]. intros [Hn Hlater]%orb_false_elim.
  rewrite (IH Hlater), Z.eqb_sym, Hn. reflexivity.
Qed.

Lemma last_chunk_in (num : Z) (sections : list (Z * list string)) :
  last_chunk num sections <> None -> In num (map fst sections).
Proof.
  induction sections as [|[n c] later IH]; [intros H; contradiction|].
  cbn [last_chunk map fst].
  destruct (last_chunk num later).
  - intros _. right. apply IH. discriminate.
  - destruct (Z.eqb_spec n num) as [->|_];
      [intros _; left; reflexivity | intros H; contradiction].
Qed.

Lemma last_chunk_unique (num : Z) (chunk : list string)
    (sections : list (Z * list string)) :
  distinct (map fst sections) = true ->
  In (num, chunk) sections ->
  last_chunk num sections = Some chunk.
Proof.
  induction sections as [|[n c] later IH]; [contradiction|].
  cbn [map fst distinct last_chunk]. intros [Hn Hlater]%andb_prop.
  apply negb_true_iff in Hn. intros [[= -> ->]|Hin].
  - rewrite (last_chunk_none _ _ Hn), Z.eqb_refl. reflexivity.
  - rewrite (IH Hlater Hin). reflexivity.
Qed.

Lemma distinct_NoDup (numbers : list Z) :
  distinct numbers = true -> NoDup numbers.
Proof.
  induction numbers as [|n rest IH]; [constructor|].
  cbn [distinct]. intros [Hn Hrest]%andb_prop. constructor; [|exact (IH Hrest)].
  apply negb_true_iff in Hn. intros Hin.
  assert (Hex : existsb (Z.eqb n) rest = true).
  { apply existsb_exists. exists n. split; [exact Hin | apply Z.eqb_refl]. }
  congruence.
Qed.

Lemma file_of_number (num : Z) :
  section_entry num <> None -> file_number (file_of num) = Some num.
Proof.
  unfold file_of. destruct (section_entry num) as [[filename title]|] eqn:Hn;
    [|contradiction].
  intros _. exact (section_entry_number _ _ _ Hn).
Qed.

Lemma file_names_apart (numbers : list Z) :
  NoDup numbers ->
  (forall num, In num numbers -> section_entry num <> None) ->
  NoDup (map file_of numbers).
Proof.
  induction 1 as [|n rest Hn Hrest IH]; intros Hknown; [constructor|].
  cbn [map]. constructor.
  - intros Hin. apply in_map_iff in Hin as [m [Hm Hin]].
    assert (Heq : Some m = Some n).
    { rewrite <- (file_of_number m), <- (file_of_number n), Hm;
        [reflexivity | apply Hknown; left; reflexivity
        | apply Hknown; right; exact Hin]. }
    injection Heq as ->. exact (Hn Hin).
  - apply IH. intros num Hnum. apply Hknown. right. exact Hnum.
Qed.

(** X12.  When the numbered headings of a text have numbers of at most
    4300 digits that are in [SECTIONS], differ from one another and are
    not 0, nothing of the text is lost: the overview file and the files of
    the sections are files of their own, and their contents after the run,
    joined by newlines in the order of the text, are the text again; only
    when the text starts with a numbered heading, the empty overview adds
    one newline in front.  No other file is written but the index, and a
    text without numbered headings goes whole into the overview file. *)
Theorem split_keeps_text (arch_dir content : string) :
  readable content = true ->
  numbers_known content = true ->
  numbers_apart content = true ->
  exists contents,
    NoDup (overview_file :: map file_of (numbers_of content))
    /\ map (read_back (split_architecture arch_dir content))
         (overview_file :: map file_of (numbers_of content))
       = map Some contents
    /\ Str.join nl contents
       = match heading (hd "" (Str.split newline content)) with
         | Some _ => (nl ++ content)%string
         | None => content
         end
    /\ (forall filename,
          read_back (split_architecture arch_dir content) filename <> None ->
          filename = "README.md"
          \/ In filename (overview_file :: map file_of (numbers_of content)))
    /\ (numbers_of content = [] ->
        read_back (split_architecture arch_dir content) "00-overview.md"
        = Some content).
Proof.
  intros Hread Hknown Hapart.
  unfold numbers_known in Hknown. unfold numbers_apart in Hapart.
  unfold numbers_of in *.
  set (lines := Str.split newline content) in *.
  pose proof (join_split newline content) as Hjoin. fold nl in Hjoin.
  fold lines in Hjoin.
  pose proof (split_not_empty newline content) as Hne. fold lines in Hne.
  pose proof (header_chunks lines) as Hlines.
  pose proof (chunks_not_empty lines) as Hchunks.
  assert (Hin : forall num, In num (map fst (section_chunks lines)) ->
                            section_entry num <> None).
  { intros num Hnum.
    apply (proj1 (forallb_forall _ _) Hknown) in Hnum.
    destruct (section_entry num); [discriminate | discriminate Hnum]. }
  assert (Hoverview :
            read_back (split_architecture arch_dir content) overview_file
            = Some (Str.join nl (header_of lines))).
  { rewrite (read_back_section arch_dir content 0 overview_file "Overview"
               Hread eq_refl).
    fold lines. cbn [distinct] in Hapart.
    apply andb_prop in Hapart as [Hzero _]. apply negb_true_iff in Hzero.
    rewrite (last_chunk_none _ _ Hzero). reflexivity. }
  assert (Hsections :
            map (read_back (split_architecture arch_dir content))
              (map file_of (map fst (section_chunks lines)))
            = map Some (map (Str.join nl) (map snd (section_chunks lines)))).
  { rewrite !map_map. apply map_ext_in. intros [num chunk] Hsection.
    cbn [fst snd].
    assert (Hnum : section_entry num <> None).
    { apply Hin. apply in_map_iff. exists (num, chunk). auto. }
    unfold file_of.
    destruct (section_entry num) as [[filename title]|] eqn:Hentry;
      [|contradiction].
    rewrite (read_back_section arch_dir content num filename title
               Hread Hentry).
    fold lines. cbn [distinct] in Hapart.
    apply andb_prop in Hapart as [_ Hdistinct].
    rewrite (last_chunk_unique _ _ _ Hdistinct Hsection). reflexivity. }
  exists (Str.join nl (header_of lines)
          :: map (Str.join nl) (map snd (section_chunks lines))).
  split; [|split; [|split; [|split]]].
  - change (overview_file :: map file_of (map fst (section_chunks lines)))
      with (map file_of (0%Z :: map fst (section_chunks lines))).
    apply file_names_apart; [apply distinct_NoDup, Hapart|].
    intros num [<-|Hnum]; [discriminate | apply Hin, Hnum].
  - cbn [map]. rewrite Hoverview, Hsections. reflexivity.
  - destruct lines as [|first rest]; [contradiction|].
    cbn [hd header_of section_chunks] in *.
    destruct (heading first) as [num|].
    + cbn [map snd concat app] in *.
      change (Str.join nl []) with EmptyString.
      rewrite join_cons by discriminate.
      change (Str.join nl (first :: header_of rest)
              :: map (Str.join nl) (map snd (section_chunks rest)))
        with (map (Str.join nl)
                ((first :: header_of rest) :: map snd (section_chunks rest))).
      rewrite (join_chunks nl _ Hchunks). cbn [concat].
      cbn [app]. rewrite Hlines, Hjoin. reflexivity.
    + change (Str.join nl (first :: header_of rest)
              :: map (Str.join nl) (map snd (section_chunks rest)))
        with (map (Str.join nl)
                ((first :: header_of rest) :: map snd (section_chunks rest))).
      rewrite join_chunks.
      * cbn [concat]. rewrite Hlines, Hjoin. reflexivity.
      * constructor; [discriminate | exact Hchunks].
  - intros filename Hwritten.
    destruct (read_back_named _ _ _ Hread Hwritten)
      as [->|(num & title & Hentry)]; [left; reflexivity|].
    right.
    pose proof (read_back_section arch_dir content num filename title
                  Hread Hentry) as Hback.
    fold lines in Hback.
    destruct (last_chunk num (section_chunks lines)) as [chunk|] eqn:Hlast.
    + right. apply in_map_iff. exists num. split.
      * unfold file_of. rewrite Hentry. reflexivity.
      * apply last_chunk_in. rewrite Hlast. discriminate.
    + destruct (Z.eqb_spec num 0) as [->|_]; [|congruence].
      left. change (section_entry 0) with (Some (overview_file, "Overview"))
        in Hentry.
      injection Hentry as <- _. reflexivity.
  - intros Hnone. change "00-overview.md" with overview_file.
    rewrite Hoverview.
    assert (Hempty : section_chunks lines = []).
    { destruct (section_chunks lines); [reflexivity | discriminate]. }
    rewrite (no_headings _ Hempty), Hjoin. reflexivity.
Qed.

Lemma split_keeps_text_witness :
  exists contents,
    map (read_back (split_architecture "architecture" text_of_two_sections))
      ["00-overview.md"; "01-vision.md"; "02-high-level-architecture.md"]
    = map Some contents
    /\ Str.join nl contents = text_of_two_sections.
Proof.
  destruct (split_keeps_text "architecture" text_of_two_sections
              eq_refl eq_refl eq_refl)
    as (contents & _ & Hfiles & Htext & _).
  exists contents. split; [exact Hfiles | exact Htext].
Defined.

(** With a number used twice the text is not kept: the earlier section is
    gone after the run. *)
Example repeated_number_loses_text :
  readable text_with_repeats = true
  /\ numbers_known text_with_repeats = true
  /\ numbers_apart text_with_repeats = false
  /\ read_back (split_architecture "architecture" text_with_repeats)
       "01-vision.md"
     = Some ("## 1. Vision" ++ nl ++ "new")%string.
Proof. repeat split. Qed.

(** X13.  After a run on a text whose headings have numbers of at most
    4300 digits, a section file holds the last section of the text with
    its number: an earlier section with the same number is overwritten.
    The overview file holds the header only when no heading has the number
    0, else the last section numbered 0.  Besides the index, no file
    outside [SECTIONS] is written. *)
Theorem later_section_replaces (arch_dir content : string) :
  readable content = true ->
  (forall num filename title,
      section_entry num = Some (filename, title) ->
      read_back (split_architecture arch_dir content) filename
      = match last_chunk num (section_chunks (Str.split newline content)) with
        | Some chunk => Some (Str.join nl chunk)
        | None =>
            if (num =? 0)%Z
            then Some (Str.join nl (header_of (Str.split newline content)))
            else None
        end)
  /\ read_back (split_architecture arch_dir content) "README.md"
     = Some (Str.join nl index_lines)
  /\ (forall filename,
         read_back (split_architecture arch_dir content) filename <> None ->
         filename = "README.md"
         \/ exists num title, section_entry num = Some (filename, title))
  /\ (forall num chunk later,
        last_chunk num ((num, chunk) :: later)
        = match last_chunk num later with
          | Some chunk' => Some chunk'
          | None => Some chunk
          end)
  /\ (forall num n chunk later,
        n <> num ->
        last_chunk num ((n, chunk) :: later) = last_chunk num later)
  /\ (forall num, last_chunk num [] = None).
Proof.
  intros Hread. split; [|split; [|split; [|split; [|split]]]].
  - intros num filename title. apply read_back_section, Hread.
  - unfold read_back. rewrite (split_architecture_writes _ _ Hread).
    rewrite app_comm_cons, written_app. reflexivity.
  - intros filename. apply read_back_named, Hread.
  - intros num chunk later. cbn [last_chunk]. rewrite Z.eqb_refl.
    reflexivity.
  - intros num n chunk later Hother. cbn [last_chunk].
    destruct (last_chunk num later); [reflexivity|].
    destruct (Z.eqb_spec n num); [contradiction | reflexivity].
  - reflexivity.
Qed.

Lemma later_section_replaces_witness :
  read_back (split_architecture "architecture" text_with_repeats)
    "01-vision.md"
  = Some ("## 1. Vision" ++ nl ++ "new")%string
  /\ read_back (split_architecture "architecture" text_with_repeats)
       "00-overview.md"
     = Some "## 0. Preface".
Proof.
  split.
  - rewrite (proj1 (later_section_replaces "architecture" text_with_repeats
                      eq_refl)
               1%Z "01-vision.md" "Vision & Problem Statement" eq_refl).
    reflexivity.
  - rewrite (proj1 (later_section_replaces "architecture" text_with_repeats
                      eq_refl)
               0%Z "00-overview.md" "Overview" eq_refl).
    reflexivity.
Defined.
